(** * LOSH-krawler: the OSHWA normalizer, its part classifier and the
      JSON / TOML project deserializers

    A shallow embedding of [krawl/normalizer/oshwa.py],
    [krawl/serializer/json_deserializer.py] and
    [krawl/serializer/toml_deserializer.py].

    Conventions of the embedding:
    - a Python [str] is a Rocq [string]; [str.upper], [str.lower] and
      [str.strip] act on the ASCII range (other bytes are kept as they are);
    - a value of a decoded JSON / TOML document is a [pyval]; a mapping is an
      association list, looked up from the left;
    - a call that can raise returns a [result]; the exception classes that
      occur are the constructors of [exn];
    - functions of libraries and of modules of the package that are not part
      of the embedded sources are fields of [Collaborators] / variables of a
      section. *)

From Stdlib Require Import String Ascii List ZArith Bool Lia Arith.
From Stdlib Require Import Floats.SpecFloat.
From Stdlib Require Import Permutation.
Import ListNotations.

Local Open Scope string_scope.
Local Open Scope list_scope.

(** ** Exceptions and results *)

Inductive exn : Type :=
| KeyError (key : string)
| TypeError
| ValueError
| AttributeError
| LangDetectException
| JSONDecodeError
| TomlDecodeError
| DeserializerError (msg : string).

Inductive result (A : Type) : Type :=
| Ok (a : A)
| Raise (e : exn).

Arguments Ok {A} a.
Arguments Raise {A} e.

Definition bind {A B : Type} (r : result A) (k : A -> result B) : result B :=
  match r with
  | Ok a => k a
  | Raise e => Raise e
  end.

Notation "x <- r ;; k" := (bind r (fun x => k))
  (at level 61, r at next level, right associativity).
Notation "' p <- r ;; k" := (bind r (fun x => let 'p := x in k))
  (at level 61, p pattern, r at next level, right associativity).

Definition is_ok {A : Type} (r : result A) : bool :=
  match r with Ok _ => true | Raise _ => false end.

(** ** Python values *)

(** [krawl.licenses.License]; the serializer reads [is_spdx], the identifier
    is what the license table is keyed on. *)
Record License : Type := mkLicense {
  license_id : string;
  is_spdx : bool
}.

#[warnings="-register-all"]
Inductive pyval : Type :=
| PNone
| PBool (b : bool)
| PInt (z : Z)
| PFloat (f : spec_float)
| PStr (s : string)
| PList (l : list pyval)
| PDict (d : list (string * pyval))
| PLicense (l : option License).

(** [bool(v)] *)
Definition truthy (v : pyval) : bool :=
  match v with
  | PNone => false
  | PBool b => b
  | PInt z => negb (Z.eqb z 0)
  | PFloat (S754_zero _) => false
  | PFloat _ => true
  | PStr s => negb (String.eqb s "")
  | PList l => match l with [] => false | _ => true end
  | PDict d => match d with [] => false | _ => true end
  | PLicense None => false
  | PLicense (Some _) => true
  end.

Fixpoint lookup (k : string) (d : list (string * pyval)) : option pyval :=
  match d with
  | [] => None
  | (k', v) :: d' => if String.eqb k k' then Some v else lookup k d'
  end.

(** [d[k] = v] on a mapping: an existing key keeps its place. *)
Fixpoint dict_set (k : string) (v : pyval) (d : list (string * pyval))
  : list (string * pyval) :=
  match d with
  | [] => [(k, v)]
  | (k', v') :: d' =>
      if String.eqb k k' then (k, v) :: d' else (k', v') :: dict_set k v d'
  end.

(** [d.update(e)] *)
Definition dict_update (d e : list (string * pyval)) : list (string * pyval) :=
  fold_left (fun acc kv => dict_set (fst kv) (snd kv) acc) e d.

(** [sub in s] on strings *)
Fixpoint is_substring (sub s : string) : bool :=
  if String.prefix sub s then true
  else match s with
       | EmptyString => false
       | String _ s' => is_substring sub s'
       end.

Definition is_pystr (k : string) (v : pyval) : bool :=
  match v with
  | PStr s => String.eqb k s
  | _ => false
  end.

(** [k in v] for a string [k] *)
Definition py_contains (k : string) (v : pyval) : result bool :=
  match v with
  | PDict d => Ok (match lookup k d with Some _ => true | None => false end)
  | PList l => Ok (existsb (is_pystr k) l)
  | PStr s => Ok (is_substring k s)
  | _ => Raise TypeError
  end.

(** [v[k]] for a string [k] *)
Definition py_getitem (v : pyval) (k : string) : result pyval :=
  match v with
  | PDict d => match lookup k d with
               | Some x => Ok x
               | None => Raise (KeyError k)
               end
  | _ => Raise TypeError
  end.

(** [d.get(k)] on the raw record *)
Definition dict_get (d : list (string * pyval)) (k : string) : pyval :=
  match lookup k d with
  | Some v => v
  | None => PNone
  end.

(** ** [OshwaNormalizer._get_key] *)

Fixpoint _get_key_from (last : pyval) (key : list string) (default : pyval)
  : result pyval :=
  match key with
  | [] => if truthy last then Ok last else Ok default
  | k :: key' =>
      if negb (truthy last) then Ok default
      else
        found <- py_contains k last ;;
        if negb found then Ok default
        else
          next <- py_getitem last k ;;
          _get_key_from next key' default
  end.

Definition _get_key (obj : pyval) (key : list string) (default : pyval)
  : result pyval :=
  _get_key_from obj key default.

(** The walk the extractor is meant to perform: through mappings only, and
    stopping at the first value that is missing or falsy. *)
Fixpoint walk (last : pyval) (key : list string) : option pyval :=
  match key with
  | [] => if truthy last then Some last else None
  | k :: key' =>
      match last with
      | PDict d =>
          match lookup k d with
          | Some next => walk next key'
          | None => None
          end
      | _ => None
      end
  end.

(** Every value met before the last key is falsy, or does not contain the
    next key, or is a mapping that has it. *)
Fixpoint walkable (last : pyval) (key : list string) : Prop :=
  match key with
  | [] => True
  | k :: key' =>
      truthy last = false
      \/ py_contains k last = Ok false
      \/ exists d next, last = PDict d /\ lookup k d = Some next
                        /\ walkable next key'
  end.

(** ** Strings *)

Definition is_lower_ascii (c : ascii) : bool :=
  (97 <=? nat_of_ascii c)%nat && (nat_of_ascii c <=? 122)%nat.

Definition is_upper_ascii (c : ascii) : bool :=
  (65 <=? nat_of_ascii c)%nat && (nat_of_ascii c <=? 90)%nat.

Definition upper_char (c : ascii) : ascii :=
  if is_lower_ascii c then ascii_of_nat (nat_of_ascii c - 32) else c.

Definition lower_char (c : ascii) : ascii :=
  if is_upper_ascii c then ascii_of_nat (nat_of_ascii c + 32) else c.

Fixpoint map_string (f : ascii -> ascii) (s : string) : string :=
  match s with
  | EmptyString => EmptyString
  | String c s' => String (f c) (map_string f s')
  end.

(** [s.upper()], [s.lower()] *)
Definition upper (s : string) : string := map_string upper_char s.
Definition lower (s : string) : string := map_string lower_char s.

(** [s.replace(a, b)] for one-character [a] and [b] *)
Definition replace (a b : ascii) (s : string) : string :=
  map_string (fun c => if Ascii.eqb c a then b else c) s.

(** [s.split(sep)] for a one-character separator *)
Fixpoint split (sep : ascii) (s : string) : list string :=
  match s with
  | EmptyString => [EmptyString]
  | String c s' =>
      if Ascii.eqb c sep then EmptyString :: split sep s'
      else match split sep s' with
           | [] => [String c EmptyString]
           | w :: ws => String c w :: ws
           end
  end.

(** [sep.join(l)] *)
Fixpoint join (sep : string) (l : list string) : string :=
  match l with
  | [] => EmptyString
  | [w] => w
  | w :: ws => (w ++ sep ++ join sep ws)%string
  end.

(** [s.rfind(c)]: the index of the last [c], if there is one *)
Fixpoint rfind (c : ascii) (s : string) : option nat :=
  match s with
  | EmptyString => None
  | String c' s' =>
      match rfind c s' with
      | Some i => Some (S i)
      | None => if Ascii.eqb c' c then Some O else None
      end
  end.

(** [s[:n]] and [s[n:]] *)
Fixpoint take (n : nat) (s : string) : string :=
  match n, s with
  | S n', String c s' => String c (take n' s')
  | _, _ => EmptyString
  end.

Fixpoint drop (n : nat) (s : string) : string :=
  match n, s with
  | S n', String _ s' => drop n' s'
  | _, _ => s
  end.

Definition in_strings (s : string) (l : list string) : bool :=
  existsb (String.eqb s) l.

(** ** [pathlib.PurePosixPath] *)

Module Path.

Record t : Type := mk {
  root : string;
  parts : list string
}.

Definition keep_part (w : string) : bool :=
  negb (String.eqb w "") && negb (String.eqb w ".").

(** One leading slash is the root, and so are three or more; exactly two
    are kept as they are. *)
Definition root_of (s : string) : string :=
  match s with
  | String a (String b (String c _)) =>
      if Ascii.eqb a "/" then
        if Ascii.eqb b "/" then (if Ascii.eqb c "/" then "/" else "//")
        else "/"
      else ""
  | String a (String b EmptyString) =>
      if Ascii.eqb a "/" then (if Ascii.eqb b "/" then "//" else "/") else ""
  | String a EmptyString => if Ascii.eqb a "/" then "/" else ""
  | EmptyString => ""
  end.

(** [Path(s)] *)
Definition of_string (s : string) : t :=
  {| root := root_of s; parts := filter keep_part (split "/" s) |}.

(** [str(p)] *)
Definition to_string (p : t) : string :=
  match root p, parts p with
  | EmptyString, [] => "."
  | r, ps => (r ++ join "/" ps)%string
  end.

(** [p.name] *)
Definition name (p : t) : string := last (parts p) "".

(** The index at which [p.suffix] starts in a name, if the name has one:
    the last dot, when it is neither the first nor the last character. *)
Definition suffix_start (nm : string) : option nat :=
  match rfind "." nm with
  | Some i =>
      if (0 <? i)%nat && (i <? String.length nm - 1)%nat then Some i else None
  | None => None
  end.

Definition suffix_of_name (nm : string) : string :=
  match suffix_start nm with
  | Some i => drop i nm
  | None => ""
  end.

Definition stem_of_name (nm : string) : string :=
  match suffix_start nm with
  | Some i => take i nm
  | None => nm
  end.

(** [p.suffix], [p.stem] *)
Definition suffix (p : t) : string := suffix_of_name (name p).
Definition stem (p : t) : string := stem_of_name (name p).

(** The path with the suffix of its last component cut off. *)
Definition without_suffix (p : t) : t :=
  {| root := root p;
     parts := removelast (parts p) ++ [stem_of_name (name p)] |}.

(** [p.with_suffix("")] *)
Definition with_suffix_empty (p : t) : result t :=
  if String.eqb (name p) "" then Raise ValueError
  else Ok (without_suffix p).

End Path.

(** ** The canonical model: [krawl.project] *)

(** [datetime.datetime]; [tzinfo] is the UTC offset in seconds of an aware
    value and [None] for a naive one. *)
Record datetime : Type := mkDatetime {
  year : Z;
  month : Z;
  day : Z;
  hour : Z;
  minute : Z;
  second : Z;
  microsecond : Z;
  tzinfo : option Z
}.

Module File.

Record t : Type := mk {
  path : option Path.t;
  name : option string;
  mime_type : pyval;
  url : pyval;
  perma_url : pyval;
  created_at : datetime;
  last_changed : datetime;
  last_visited : datetime;
  license : pyval;
  licensor : pyval
}.

End File.

Module Part.

Record t : Type := mk {
  name : option string;
  license : pyval;
  licensor : pyval;
  source : option File.t;
  export : list File.t;
  image : option File.t
}.

(** Modelled from the spec: the constructor [Part()] of [krawl.project] is not
    among the embedded sources. A new Part has no source, an empty export
    list of its own and no image; name, license and licensor are unset. *)
Definition new : t :=
  {| name := None; license := PNone; licensor := PNone;
     source := None; export := []; image := None |}.

Definition set_source (f : File.t) (p : t) : t :=
  {| name := name p; license := license p; licensor := licensor p;
     source := Some f; export := export p; image := image p |}.

Definition append_export (f : File.t) (p : t) : t :=
  {| name := name p; license := license p; licensor := licensor p;
     source := source p; export := export p ++ [f]; image := image p |}.

Definition set_image (f : File.t) (p : t) : t :=
  {| name := name p; license := license p; licensor := licensor p;
     source := source p; export := export p; image := Some f |}.

End Part.

(** ** The format registry: [krawl.file_formats] *)

(** An entry of the registry; the classifier reads only [category]. *)
Record Format : Type := mkFormat {
  category : string
}.

(** The table [get_formats(type_)] returns: extension (with its dot) to
    format. *)
Definition formats : Type := list (string * Format).

Fixpoint format_of (ext : string) (tbl : formats) : option Format :=
  match tbl with
  | [] => None
  | (e, fmt) :: tbl' => if String.eqb ext e then Some fmt else format_of ext tbl'
  end.

(** ** [EXCLUDE_FILES] *)

Definition EXCLUDE_FILES : list string :=
  [ "ACKNOWLEDGMENTS"; "AUTHORS"; "CHANGELOG"; "CODE_OF_CONDUCT"; "CODEOWNERS";
    "CONTRIBUTING"; "CONTRIBUTORS"; "FUNDING"; "ISSUE_TEMPLATE"; "LICENSE";
    "PULL_REQUEST_TEMPLATE"; "README"; "SECURITY"; "SUPPORT"; "USERGUIDE";
    "USERMANUAL" ].

(** ** [OshwaNormalizer._normalize_parts] *)

(** [file.path.stem.replace(" ", "_").replace("-", "_").upper()] *)
Definition normalized_name (p : Path.t) : string :=
  upper (replace "-" "_" (replace " " "_" (Path.stem p))).

(** First loop: drop the administrative documents. A file without a path has
    no [stem]: the attribute access on [None] raises. *)
Fixpoint filter_files (files : list File.t) : result (list File.t) :=
  match files with
  | [] => Ok []
  | file :: files' =>
      match File.path file with
      | None => Raise AttributeError
      | Some p =>
          if in_strings (normalized_name p) EXCLUDE_FILES
          then filter_files files'
          else (filtered <- filter_files files' ;; Ok (file :: filtered))
      end
  end.

(** [str(file.path.with_suffix("")).lower()] *)
Definition bucket_key (p : Path.t) : result string :=
  q <- Path.with_suffix_empty p ;; Ok (lower (Path.to_string q)).

(** [buckets[key].append(file)] on the [defaultdict(list)]: a new key goes to
    the end, so that [buckets.values()] lists the buckets by first insertion. *)
Fixpoint bucket_append (key : string) (file : File.t)
  (buckets : list (string * list File.t)) : list (string * list File.t) :=
  match buckets with
  | [] => [(key, [file])]
  | (k, fl) :: buckets' =>
      if String.eqb key k then (k, fl ++ [file]) :: buckets'
      else (k, fl) :: bucket_append key file buckets'
  end.

(** Second loop, from a given state of [buckets]. *)
Fixpoint fill_buckets (filtered : list File.t)
  (buckets : list (string * list File.t))
  : result (list (string * list File.t)) :=
  match filtered with
  | [] => Ok buckets
  | file :: filtered' =>
      match File.path file with
      | None => Raise AttributeError
      | Some p =>
          key <- bucket_key p ;;
          fill_buckets filtered' (bucket_append key file buckets)
      end
  end.

(** *** What the two loops compute *)

(** The base name of the file is one of the administrative documents. *)
Definition excluded (file : File.t) : bool :=
  match File.path file with
  | Some p => in_strings (normalized_name p) EXCLUDE_FILES
  | None => false
  end.

Definition kept (file : File.t) : bool := negb (excluded file).

(** The file has a path, and the path a last component. *)
Definition has_name (file : File.t) : bool :=
  match File.path file with
  | Some p => negb (String.eqb (Path.name p) "")
  | None => false
  end.

(** The path with its last extension stripped, in lower case. *)
Definition path_key (p : Path.t) : string :=
  lower (Path.to_string (Path.without_suffix p)).

Definition key_of (file : File.t) : string :=
  match File.path file with
  | Some p => path_key p
  | None => ""
  end.


(** The files of [l] whose key is [k], in the order of [l]. *)
Definition with_key (k : string) (l : list File.t) : list File.t :=
  filter (fun f => String.eqb (key_of f) k) l.

(** The bucket a key should have: its files, if there are any. *)
Definition key_class (k : string) (l : list File.t) : option (list File.t) :=
  match with_key k l with
  | [] => None
  | fl => Some fl
  end.

Fixpoint bucket_lookup (k : string) (buckets : list (string * list File.t))
  : option (list File.t) :=
  match buckets with
  | [] => None
  | (k', fl) :: buckets' =>
      if String.eqb k k' then Some fl else bucket_lookup k buckets'
  end.

Section Classifier.

(** [File.extension] is a property of [krawl.project.File], and
    [get_formats] a function of [krawl.file_formats]; neither is among the
    embedded sources. *)
Variable extension : File.t -> string.
Variable get_formats : string -> formats.

(** The branch taken for a file found in the CAD or in the PCB table. *)
Definition place_design (format_ : Format) (file : File.t) (part : Part.t)
  : Part.t :=
  if String.eqb (category format_) "source" then
    match Part.source part with
    | None => Part.set_source file part
    | Some _ => Part.append_export file part
    end
  else if String.eqb (category format_) "export" then
    Part.append_export file part
  else part.

(** The body of [for file in fl]. *)
Definition classify_file (part : Part.t) (file : File.t) : Part.t :=
  let ext := ("." ++ extension file)%string in
  match format_of ext (get_formats "cad") with
  | Some format_ => place_design format_ file part
  | None =>
      match format_of ext (get_formats "pcb") with
      | Some format_ => place_design format_ file part
      | None =>
          match format_of ext (get_formats "image") with
          | Some _ =>
              match Part.image part with
              | None => Part.set_image file part
              | Some _ => part
              end
          | None => part
          end
      end
  end.

(** [if not part.source and part.export: part.source = part.export.pop(0)] *)
Definition promote (part : Part.t) : Part.t :=
  match Part.source part, Part.export part with
  | None, first :: rest =>
      {| Part.name := Part.name part; Part.license := Part.license part;
         Part.licensor := Part.licensor part;
         Part.source := Some first; Part.export := rest;
         Part.image := Part.image part |}
  | _, _ => part
  end.

(** [if part.source: ...; parts.append(part)]: the part a bucket adds to the
    output, if it adds one. *)
Definition emit (part : Part.t) : option Part.t :=
  match Part.source part with
  | Some src =>
      Some {| Part.name := File.name src; Part.license := File.license src;
              Part.licensor := File.licensor src;
              Part.source := Part.source part; Part.export := Part.export part;
              Part.image := Part.image part |}
  | None => None
  end.

(** The body of [for fl in buckets.values()]. *)
Definition part_of_bucket (fl : list File.t) : option Part.t :=
  emit (promote (fold_left classify_file fl Part.new)).

Fixpoint parts_of_buckets (buckets : list (string * list File.t))
  : list Part.t :=
  match buckets with
  | [] => []
  | (_, fl) :: buckets' =>
      match part_of_bucket fl with
      | Some part => part :: parts_of_buckets buckets'
      | None => parts_of_buckets buckets'
      end
  end.

Definition _normalize_parts (files : list File.t) : result (list Part.t) :=
  filtered <- filter_files files ;;
  buckets <- fill_buckets filtered [] ;;
  Ok (parts_of_buckets buckets).

(** *** What the classifier reads off a file

    The category under which a file is handled: the CAD table is asked
    first, the PCB table only for an extension the CAD table does not have. *)
Definition design_category (file : File.t) : option string :=
  let ext := ("." ++ extension file)%string in
  match format_of ext (get_formats "cad") with
  | Some format_ => Some (category format_)
  | None =>
      match format_of ext (get_formats "pcb") with
      | Some format_ => Some (category format_)
      | None => None
      end
  end.

Definition has_category (c : string) (file : File.t) : bool :=
  match design_category file with
  | Some c' => String.eqb c' c
  | None => false
  end.

Definition is_source (file : File.t) : bool := has_category "source" file.
Definition is_export (file : File.t) : bool := has_category "export" file.
Definition is_design (file : File.t) : bool := is_source file || is_export file.

(** In neither design table, and in the image table. *)
Definition is_image (file : File.t) : bool :=
  match design_category file with
  | Some _ => false
  | None =>
      match format_of ("." ++ extension file)%string (get_formats "image") with
      | Some _ => true
      | None => false
      end
  end.

(** [l] without its first element that satisfies [p]. *)
Fixpoint remove_first {A : Type} (p : A -> bool) (l : list A) : list A :=
  match l with
  | [] => []
  | x :: l' => if p x then l' else x :: remove_first p l'
  end.

(** The part made of a source file, an export list and an image. *)
Definition part_from (src : File.t) (exports : list File.t)
  (img : option File.t) : Part.t :=
  {| Part.name := File.name src; Part.license := File.license src;
     Part.licensor := File.licensor src;
     Part.source := Some src; Part.export := exports; Part.image := img |}.


End Classifier.

(** ** More of the standard library: [str.strip], [urllib.parse.quote] *)

(** [c.isspace()] on the ASCII range *)
Definition is_space (c : ascii) : bool :=
  let n := nat_of_ascii c in
  ((9 <=? n)%nat && (n <=? 13)%nat) || ((28 <=? n)%nat && (n <=? 32)%nat).

Fixpoint lstrip (s : string) : string :=
  match s with
  | EmptyString => EmptyString
  | String c s' => if is_space c then lstrip s' else s
  end.

Fixpoint rstrip (s : string) : string :=
  match s with
  | EmptyString => EmptyString
  | String c s' =>
      match rstrip s' with
      | EmptyString => if is_space c then EmptyString else String c EmptyString
      | r => String c r
      end
  end.

(** [s.strip()] *)
Definition strip (s : string) : string := rstrip (lstrip s).

Definition is_digit_ascii (c : ascii) : bool :=
  (48 <=? nat_of_ascii c)%nat && (nat_of_ascii c <=? 57)%nat.

(** The characters [quote] never escapes, with its default [safe="/"]. *)
Definition quote_keeps (c : ascii) : bool :=
  is_upper_ascii c || is_lower_ascii c || is_digit_ascii c
  || Ascii.eqb c "_" || Ascii.eqb c "." || Ascii.eqb c "-" || Ascii.eqb c "~"
  || Ascii.eqb c "/".

Definition hex_digit (n : nat) : ascii :=
  nth n ["0"; "1"; "2"; "3"; "4"; "5"; "6"; "7"; "8"; "9";
         "A"; "B"; "C"; "D"; "E"; "F"]%char "0"%char.

Fixpoint quote_str (s : string) : string :=
  match s with
  | EmptyString => EmptyString
  | String c s' =>
      if quote_keeps c then String c (quote_str s')
      else String "%" (String (hex_digit (nat_of_ascii c / 16))
             (String (hex_digit (nat_of_ascii c mod 16)) (quote_str s')))
  end.

(** [urllib.parse.quote(v)]: a [str] is escaped, anything else that reaches
    it here (a truthy value that is no string) is refused. *)
Definition quote (v : pyval) : result string :=
  match v with
  | PStr s => Ok (quote_str s)
  | _ => Raise TypeError
  end.

(** ** [krawl.project.Project] *)

Module Meta.

Record t : Type := mk {
  source : pyval;
  host : pyval;
  owner : pyval;
  repo : pyval;
  created_at : option datetime;
  last_visited : pyval
}.

End Meta.

Module Project.

Record t : Type := mk {
  meta : Meta.t;
  name : pyval;
  repo : pyval;
  version : pyval;
  release : pyval;
  license : option License;
  licensor : pyval;
  function : pyval;
  documentation_language : pyval;
  technology_readiness_level : pyval;
  documentation_readiness_level : pyval;
  attestation : pyval;
  publication : pyval;
  standard_compliance : pyval;
  cpc_patent_class : pyval;
  tsdc : pyval;
  bom : pyval;
  manufacturing_instructions : pyval;
  outer_dimensions_mm : pyval;
  software : list pyval;
  part : list Part.t
}.

End Project.

(** ** Collaborators

    What the normalizer calls and the embedded sources do not define:
    library functions ([datetime], [langdetect], the built-in [str]) and
    functions of the package's own modules [krawl.licenses],
    [krawl.normalizer] and [krawl.project]. *)
Record Collaborators : Type := mkCollaborators {
  (** [datetime.fromisoformat(s)] *)
  fromisoformat : string -> result datetime;
  (** [datetime.strptime(s, "%Y-%m-%dT%H:%M:%S.%f%z")] *)
  strptime : string -> result datetime;
  (** [datetime.now(timezone.utc)]: what the clock shows when it is read for
      the [n]-th time in the course of one call of the normalizer *)
  now : nat -> datetime;
  (** [krawl.normalizer.strip_html] *)
  strip_html : pyval -> result string;
  (** [langdetect.detect] *)
  detect_language : string -> result string;
  (** [krawl.licenses.get_by_id_or_name] *)
  get_by_id_or_name : option string -> option License;
  (** [str(v)], as an f-string formats a field *)
  py_str : pyval -> string;
  (** [Project()] *)
  Project_new : Project.t;
  (** [File.extension] *)
  extension : File.t -> string;
  (** [krawl.file_formats.get_formats] *)
  get_formats : string -> formats
}.

(** ** [LICENSE_MAPPING] *)

Definition LICENSE_MAPPING : list (string * string) :=
  [ ("CC-BY-4.0", "CC-BY-4.0");
    ("CC0-1.0", "CC0-1.0");
    ("MIT", "MIT");
    ("BSD-2-Clause", "BSD-2-Clause");
    ("CC-BY-SA-4.0", "CC-BY-SA-4.0");
    ("CC BY-SA", "CC-BY-SA-4.0");
    ("GPL-3.0", "GPL-3.0-only");
    ("OHL", "TAPR-OHL-1.0");
    ("CERN OHL", "CERN-OHL-1.2");
    ("CERN", "CERN-OHL-1.2");
    ("alternativeLicense", "MIT") ].

Fixpoint assoc (k : string) (tbl : list (string * string)) : option string :=
  match tbl with
  | [] => None
  | (k', v) :: tbl' => if String.eqb k k' then Some v else assoc k tbl'
  end.

(** [hash(v)] succeeds: lists and mappings cannot be looked up in a [dict]. *)
Definition hashable (v : pyval) : bool :=
  match v with
  | PList _ | PDict _ => false
  | _ => true
  end.

(** [tbl.get(v)] and [tbl[v]] on a table keyed by strings: [None] stands for
    a key that is not there. *)
Definition table_find (v : pyval) (tbl : list (string * string))
  : result (option string) :=
  match v with
  | PStr s => Ok (assoc s tbl)
  | PList _ | PDict _ => Raise TypeError
  | _ => Ok None
  end.

(** [v == s] for a string literal [s] *)
Definition eq_str (v : pyval) (s : string) : bool :=
  match v with
  | PStr s' => String.eqb s' s
  | _ => false
  end.

(** ** [OshwaNormalizer] *)

Definition raw_record : Type := list (string * pyval).

(** [raw[k]] *)
Definition raw_item (raw : raw_record) (k : string) : result pyval :=
  py_getitem (PDict raw) k.

Definition epoch_literal : string := "1970-01-01 00:00:00".

Definition unmappable_categories : list string :=
  [ "Arts"; "Education"; "Environmental"; "Manufacturing"; "Other";
    "Science"; "Tool" ].

Definition mapping_primary_to_cpc : list (string * string) :=
  [ ("3D Printing", "B33Y");
    ("Agriculture", "A01");
    ("Electronics", "H");
    ("Enclosure", "F16M");
    ("Home Connection", "H04W");
    ("IOT", "H04");
    ("Robotics", "B25J9 / 00");
    ("Sound", "H04R");
    ("Space", "B64G");
    ("Wearables", "H") ].

(** [v in l] for a list of string literals *)
Definition in_literals (v : pyval) (l : list string) : bool :=
  existsb (eq_str v) l.

(** [len(v)] *)
Definition py_len (v : pyval) : result nat :=
  match v with
  | PStr s => Ok (String.length s)
  | PList l => Ok (List.length l)
  | PDict d => Ok (List.length d)
  | _ => Raise TypeError
  end.

Section Normalizer.

Variable C : Collaborators.

(** [datetime.fromisoformat(v)] *)
Definition fromisoformat_value (v : pyval) : result datetime :=
  match v with
  | PStr s => fromisoformat C s
  | _ => Raise TypeError
  end.

Definition _normalize_created_at (raw : raw_record) : result datetime :=
  let certification_date := dict_get raw "certificationDate" in
  if negb (truthy certification_date) then fromisoformat C epoch_literal
  else
    d <- raw_item raw "certificationDate" ;;
    fromisoformat_value d.

Definition _normalize_classification (raw : raw_record) : result pyval :=
  let primary_type := dict_get raw "primaryType" in
  let additional_type := dict_get raw "additionalType" in
  if in_literals primary_type unmappable_categories then
    match additional_type with
    | PNone => Ok (PStr "")
    | _ =>
        n <- py_len additional_type ;;
        if Nat.eqb n 0 then Ok (PStr "") else Ok additional_type
    end
  else
    found <- table_find primary_type mapping_primary_to_cpc ;;
    match found with
    | Some cpc => Ok (PStr cpc)
    | None => Ok primary_type
    end.

Definition _normalize_license (raw : raw_record) : result (option License) :=
  raw_license <- _get_key (PDict raw) ["hardwareLicense"] PNone ;;
  if negb (truthy raw_license) then Ok None
  else if eq_str raw_license "None" || eq_str raw_license "Other" then Ok None
  else
    mapped <- table_find raw_license LICENSE_MAPPING ;;
    Ok (get_by_id_or_name C mapped).

Definition _normalize_function (raw : raw_record) : result string :=
  let raw_description := dict_get raw "projectDescription" in
  if negb (truthy raw_description) then Ok ""
  else
    stripped <- strip_html C raw_description ;;
    Ok (strip stripped).

(** [try: lang = detect_language(description)
     except LangDetectException: return "en"]: any other exception goes on. *)
(** The description is a [str] or [None]. *)
Definition _normalize_language (description : option string) : result string :=
  match description with
  | None => Ok "en"
  | Some text =>
      if String.eqb text "" then Ok "en"
      else
        match detect_language C text with
        | Raise LangDetectException => Ok "en"
        | Raise e => Raise e
        | Ok lang => if String.eqb lang "unknown" then Ok "en" else Ok lang
        end
  end.

(** [f"{v}"] *)
Definition format_value (v : pyval) : string :=
  match v with
  | PStr s => s
  | _ => py_str C v
  end.

Definition _normalize_repo (raw : raw_record) : result pyval :=
  let doc_url := dict_get raw "documentationUrl" in
  if negb (truthy doc_url) then
    uid <- raw_item raw "oshwaUid" ;;
    Ok (PStr ("https://certification.oshwa.org/" ++ format_value uid ++ ".html"))
  else Ok doc_url.

(** [normalize]: the assignments in the order of the source; the fields of
    [Project()] that are not assigned keep what the constructor gave them.
    The [log.debug] line reads [project.id], a property of [krawl.project]
    taken not to raise. *)
Definition normalize (raw : raw_record) : result Project.t :=
  let project := Project_new C in
  meta_source <- raw_item raw "fetcher" ;;
  meta_host <- raw_item raw "fetcher" ;;
  meta_owner <- raw_item raw "responsibleParty" ;;
  meta_repo <- _normalize_repo raw ;;
  meta_created_at <- _normalize_created_at raw ;;
  meta_last_visited <- raw_item raw "lastVisited" ;;
  name <- raw_item raw "projectName" ;;
  repo <- _normalize_repo raw ;;
  raw_version <- _get_key (PDict raw) ["projectVersion"] (PStr "0.1.0") ;;
  version <- quote raw_version ;;
  license <- _normalize_license raw ;;
  licensor <- raw_item raw "responsibleParty" ;;
  function <- _normalize_function raw ;;
  documentation_language <- _normalize_language (Some function) ;;
  cpc_patent_class <- _normalize_classification raw ;;
  Ok {| Project.meta :=
          {| Meta.source := meta_source; Meta.host := meta_host;
             Meta.owner := meta_owner; Meta.repo := meta_repo;
             Meta.created_at := Some meta_created_at;
             Meta.last_visited := meta_last_visited |};
        Project.name := name;
        Project.repo := repo;
        Project.version := PStr version;
        Project.release := PStr "";
        Project.license := license;
        Project.licensor := licensor;
        Project.function := PStr function;
        Project.documentation_language := PStr documentation_language;
        Project.technology_readiness_level := PNone;
        Project.documentation_readiness_level := PNone;
        Project.attestation := PNone;
        Project.publication := PNone;
        Project.standard_compliance := PNone;
        Project.cpc_patent_class := cpc_patent_class;
        Project.tsdc := PNone;
        Project.bom := PNone;
        Project.manufacturing_instructions := PNone;
        Project.outer_dimensions_mm := PNone;
        Project.software := [];
        Project.part := Project.part project |}.

End Normalizer.

(** ** The file normalizer: [_parse_file] and [_get_files] *)

(** [for x in v] *)
Definition py_iter (v : pyval) : result (list pyval) :=
  match v with
  | PList l => Ok l
  | PDict d => Ok (map (fun kv => PStr (fst kv)) d)
  | PStr s => Ok (map (fun c => PStr (String c EmptyString)) (list_ascii_of_string s))
  | _ => Raise TypeError
  end.

(** [Path(v)] *)
Definition path_of_value (v : pyval) : result Path.t :=
  match v with
  | PStr s => Ok (Path.of_string s)
  | _ => Raise TypeError
  end.

Section FileNormalizer.

Variable C : Collaborators.

Definition strptime_value (v : pyval) : result datetime :=
  match v with
  | PStr s => strptime C s
  | _ => Raise TypeError
  end.

(** [tick] counts the readings of the clock that came before this call. *)
Definition _parse_file (tick : nat) (file_raw : raw_record) : result File.t :=
  path <- match lookup "filename" file_raw with
          | Some v => (p <- path_of_value v ;; Ok (Some p))
          | None => Ok None
          end ;;
  let name := match path with
              | Some p => Some (Path.stem p)
              | None => None
              end in
  let mime_type := dict_get file_raw "mimeType" in
  let url := dict_get file_raw "url" in
  let perma_url := dict_get file_raw "permalink" in
  date_created <- raw_item file_raw "dateCreated" ;;
  created_at <- strptime_value date_created ;;
  last_updated <- raw_item file_raw "lastUpdated" ;;
  last_changed <- strptime_value last_updated ;;
  let last_visited := now C tick in
  license <- raw_item file_raw "license" ;;
  licensor <- _get_key (PDict file_raw) ["creator"; "profile"; "fullName"] PNone ;;
  Ok {| File.path := path; File.name := name; File.mime_type := mime_type;
        File.url := url; File.perma_url := perma_url;
        File.created_at := created_at; File.last_changed := last_changed;
        File.last_visited := last_visited; File.license := license;
        File.licensor := licensor |}.

(** [meta.get("file")]: only a mapping has [get]. *)
Definition meta_get (meta : pyval) (k : string) : result pyval :=
  match meta with
  | PDict d => Ok (dict_get d k)
  | _ => Raise AttributeError
  end.

(** One turn of [for meta in raw_files]: the file it appends, if any. *)
Definition file_of_meta (license : option License) (tick : nat) (meta : pyval)
  : result (option File.t) :=
  file_raw <- meta_get meta "file" ;;
  if negb (truthy file_raw) then Ok None
  else
    dir_name <- py_getitem meta "dirname" ;;
    with_path <-
      (if truthy dir_name then
         filename <- py_getitem file_raw "filename" ;;
         match file_raw with
         | PDict d =>
             Ok (dict_set "path"
                   (PStr (format_value C dir_name ++ "/" ++ format_value C filename))
                   d)
         | _ => Raise TypeError
         end
       else
         match file_raw with
         | PDict d => Ok d
         | _ => Raise TypeError
         end) ;;
    file <- _parse_file tick (dict_set "license" (PLicense license) with_path) ;;
    Ok (Some file).

(** The loop [for meta in raw_files]; each file that is parsed reads the
    clock once. *)
Fixpoint files_of_metas (license : option License) (tick : nat)
  (metas : list pyval) : result (list File.t) :=
  match metas with
  | [] => Ok []
  | meta :: metas' =>
      file <- file_of_meta license tick meta ;;
      match file with
      | Some f =>
          files <- files_of_metas license (S tick) metas' ;;
          Ok (f :: files)
      | None => files_of_metas license tick metas'
      end
  end.

Definition _get_files (raw : raw_record) : result (list File.t) :=
  raw_files <- _get_key (PDict raw) ["contribution"; "files"] (PList []) ;;
  license <- _normalize_license C raw ;;
  metas <- py_iter raw_files ;;
  files_of_metas license 0 metas.

End FileNormalizer.

(** ** The deserializers *)

(** [str | bytes] *)
Inductive serialized : Type :=
| SStr (s : string)
| SBytes (b : string).

(** A [Normalizer] is used through [normalize] only. *)
Definition Normalizer : Type := raw_record -> result Project.t.

(** The parsers and what else the deserializers take from libraries. *)
Record Parsers : Type := mkParsers {
  (** [json.loads] *)
  json_loads : serialized -> result pyval;
  (** [toml.loads] *)
  toml_loads : string -> result pyval;
  (** [b.decode(encoding="UTF-8", errors="ignore")] *)
  decode_ignore : string -> string;
  (** [str(err)] *)
  exn_str : exn -> string
}.

Section Deserializers.

Variable P : Parsers.

(** [if enrich: deserialized.update(enrich)] *)
Definition enriched (deserialized : raw_record) (enrich : option raw_record)
  : raw_record :=
  match enrich with
  | Some (kv :: e) => dict_update deserialized (kv :: e)
  | _ => deserialized
  end.

(** [JSONProjectDeserializer.deserialize] *)
Definition JSON_deserialize (s : serialized) (normalizer : Normalizer)
  (enrich : option raw_record) : result Project.t :=
  match json_loads P s with
  | Raise err =>
      Raise (DeserializerError ("failed to deserialize JSON: " ++ exn_str P err))
  | Ok deserialized =>
      match deserialized with
      | PDict d => normalizer (enriched d enrich)
      | _ => Raise (DeserializerError "invalid format")
      end
  end.

(** [if isinstance(serialized, bytes): serialized = serialized.decode(...)] *)
Definition toml_text (s : serialized) : string :=
  match s with
  | SBytes b => decode_ignore P b
  | SStr t => t
  end.

(** [TOMLProjectDeserializer.deserialize] *)
Definition TOML_deserialize (s : serialized) (normalizer : Normalizer)
  (enrich : option raw_record) : result Project.t :=
  deserialized <- toml_loads P (toml_text s) ;;
  match deserialized with
  | PDict d => normalizer (enriched d enrich)
  | _ => Raise (DeserializerError "invalid format")
  end.

End Deserializers.

(** ** When [normalize] returns

    What each step of [normalize] needs of the record and of the
    collaborators in order not to raise. *)

Definition has_key (k : string) (raw : raw_record) : bool :=
  match lookup k raw with
  | Some _ => true
  | None => false
  end.

Definition is_str (v : pyval) : bool :=
  match v with
  | PStr _ => true
  | _ => false
  end.





Section Normalizable.

Variable C : Collaborators.






End Normalizable.

Definition naive_epoch : datetime := mkDatetime 1970 1 1 0 0 0 0 None.
Definition utc_epoch : datetime := mkDatetime 1970 1 1 0 0 0 0 (Some 0%Z).

(** ** A concrete set of collaborators

    One instance of [Collaborators] and of [Parsers], on which the functions
    above can be run. *)

Module Sample.

Definition digit_value (c : ascii) : option Z :=
  if is_digit_ascii c then Some (Z.of_nat (nat_of_ascii c - 48)) else None.

(** The value of a string of decimal digits, at least one. *)
Fixpoint digits_from (acc : Z) (s : string) : option Z :=
  match s with
  | EmptyString => Some acc
  | String c s' =>
      match digit_value c with
      | Some d => digits_from (10 * acc + d) s'
      | None => None
      end
  end.

Definition digits (s : string) : option Z :=
  match s with
  | EmptyString => None
  | _ => digits_from 0 s
  end.

Definition opt_result {A : Type} (o : option A) : result A :=
  match o with
  | Some a => Ok a
  | None => Raise ValueError
  end.

Definition expect (c : ascii) (s : string) : result string :=
  match s with
  | String c' s' => if Ascii.eqb c c' then Ok s' else Raise ValueError
  | EmptyString => Raise ValueError
  end.

Definition is_leap (y : Z) : bool :=
  (Z.eqb (y mod 4) 0 && negb (Z.eqb (y mod 100) 0)) || Z.eqb (y mod 400) 0.

Definition days_in_month (y m : Z) : Z :=
  if Z.eqb m 2 then (if is_leap y then 29 else 28)
  else if Z.eqb m 4 || Z.eqb m 6 || Z.eqb m 9 || Z.eqb m 11 then 30
  else 31.

Definition in_range (lo v hi : Z) : result unit :=
  if Z.leb lo v && Z.leb v hi then Ok tt else Raise ValueError.

(** [YYYY-MM-DD] at the head of [s]; what follows it is returned too. *)
Definition parse_date (s : string) : result (Z * Z * Z * string) :=
  y <- opt_result (digits (take 4 s)) ;;
  _ <- in_range 1 y 9999 ;;
  s1 <- expect "-" (drop 4 s) ;;
  m <- opt_result (digits (take 2 s1)) ;;
  _ <- in_range 1 m 12 ;;
  s2 <- expect "-" (drop 2 s1) ;;
  d <- opt_result (digits (take 2 s2)) ;;
  _ <- in_range 1 d (days_in_month y m) ;;
  if Nat.ltb (String.length s) 10 then Raise ValueError
  else Ok (y, m, d, drop 2 s2).

(** An offset [+HH:MM] or [-HH:MM] (the colon may be left out), in seconds. *)
Definition parse_offset (s : string) : result Z :=
  match s with
  | String sign rest =>
      sgn <- (if Ascii.eqb sign "+" then Ok 1%Z
              else if Ascii.eqb sign "-" then Ok (-1)%Z
              else Raise ValueError) ;;
      h <- opt_result (digits (take 2 rest)) ;;
      let rest' := match drop 2 rest with
                   | String ":" r => r
                   | r => r
                   end in
      m <- opt_result (digits rest') ;;
      _ <- in_range 0 h 23 ;;
      _ <- in_range 0 m 59 ;;
      if Nat.eqb (String.length rest') 2 then Ok (sgn * (h * 3600 + m * 60))%Z
      else Raise ValueError
  | EmptyString => Raise ValueError
  end.

Definition starts_offset (s : string) : bool :=
  match s with
  | String c _ => Ascii.eqb c "+" || Ascii.eqb c "-"
  | EmptyString => false
  end.

Definition parse_tz (s : string) : result (option Z) :=
  match s with
  | EmptyString => Ok None
  | _ => (off <- parse_offset s ;; Ok (Some off))
  end.

(** [HH[:MM[:SS]]] and an optional offset. *)
Definition parse_time (s : string) : result (Z * Z * Z * option Z) :=
  h <- opt_result (digits (take 2 s)) ;;
  _ <- in_range 0 h 23 ;;
  match drop 2 s with
  | String ":" s1 =>
      m <- opt_result (digits (take 2 s1)) ;;
      _ <- in_range 0 m 59 ;;
      match drop 2 s1 with
      | String ":" s2 =>
          sec <- opt_result (digits (take 2 s2)) ;;
          _ <- in_range 0 sec 59 ;;
          tz <- parse_tz (drop 2 s2) ;;
          Ok (h, m, sec, tz)
      | s2 => (tz <- parse_tz s2 ;; Ok (h, m, 0%Z, tz))
      end
  | s1 => (tz <- parse_tz s1 ;; Ok (h, 0%Z, 0%Z, tz))
  end.

(** The part of the grammar of [datetime.fromisoformat] the examples use:
    [YYYY-MM-DD], then optionally one separator character and
    [HH[:MM[:SS]]] with an optional offset. A value without offset is
    naive. *)
Definition fromisoformat (s : string) : result datetime :=
  '(y, m, d, rest) <- parse_date s ;;
  match rest with
  | EmptyString => Ok (mkDatetime y m d 0 0 0 0 None)
  | String _ t =>
      '(h, mi, sec, tz) <- parse_time t ;;
      Ok (mkDatetime y m d h mi sec 0 tz)
  end.

(** [%Y-%m-%dT%H:%M:%S.%f%z] with a six-digit fraction. *)
Definition strptime (s : string) : result datetime :=
  '(y, m, d, rest) <- parse_date s ;;
  t <- expect "T" rest ;;
  h <- opt_result (digits (take 2 t)) ;;
  _ <- in_range 0 h 23 ;;
  t1 <- expect ":" (drop 2 t) ;;
  mi <- opt_result (digits (take 2 t1)) ;;
  _ <- in_range 0 mi 59 ;;
  t2 <- expect ":" (drop 2 t1) ;;
  sec <- opt_result (digits (take 2 t2)) ;;
  _ <- in_range 0 sec 59 ;;
  t3 <- expect "." (drop 2 t2) ;;
  us <- opt_result (digits (take 6 t3)) ;;
  off <- (match drop 6 t3 with
          | String "Z" EmptyString => Ok 0%Z
          | z => parse_offset z
          end) ;;
  Ok (mkDatetime y m d h mi sec us (Some off)).

(** Markup removal: what stands between [<] and the next [>] is dropped. *)
Fixpoint drop_tags (inside : bool) (s : string) : string :=
  match s with
  | EmptyString => EmptyString
  | String c s' =>
      if inside then drop_tags (negb (Ascii.eqb c ">")) s'
      else if Ascii.eqb c "<" then drop_tags true s'
      else String c (drop_tags false s')
  end.

Definition strip_html (v : pyval) : result string :=
  match v with
  | PStr s => Ok (drop_tags false s)
  | _ => Raise TypeError
  end.

Fixpoint has_letter (s : string) : bool :=
  match s with
  | EmptyString => false
  | String c s' => is_upper_ascii c || is_lower_ascii c || has_letter s'
  end.

(** A detector that finds no features in a text without letters, gives up on
    a text of fewer than three characters and takes the rest for English. *)
Definition detect_language (s : string) : result string :=
  if negb (has_letter s) then Raise LangDetectException
  else if Nat.ltb (String.length s) 3 then Ok "unknown"
  else Ok "en".

(** Modelled from the spec: [krawl.licenses.get_by_id_or_name] is not among
    the embedded sources. The License Resolver maps a label of its table to
    the canonical license and resolves an absent label to no license. *)
Definition get_by_id_or_name (id : option string) : option License :=
  match id with
  | Some i => Some (mkLicense i true)
  | None => None
  end.

Definition py_str (v : pyval) : string :=
  match v with
  | PStr s => s
  | PNone => "None"
  | PBool true => "True"
  | PBool false => "False"
  | _ => "?"
  end.

(** Modelled from the spec: the constructor [Project()] of [krawl.project]
    is not among the embedded sources. A new Project has every field unset
    and no Part. *)
Definition Project_new : Project.t :=
  {| Project.meta := Meta.mk PNone PNone PNone PNone None PNone;
     Project.name := PNone; Project.repo := PNone; Project.version := PNone;
     Project.release := PNone; Project.license := None;
     Project.licensor := PNone; Project.function := PNone;
     Project.documentation_language := PNone;
     Project.technology_readiness_level := PNone;
     Project.documentation_readiness_level := PNone;
     Project.attestation := PNone; Project.publication := PNone;
     Project.standard_compliance := PNone; Project.cpc_patent_class := PNone;
     Project.tsdc := PNone; Project.bom := PNone;
     Project.manufacturing_instructions := PNone;
     Project.outer_dimensions_mm := PNone; Project.software := [];
     Project.part := [] |}.

(** The suffix of the path without its dot, in lower case. *)
Definition extension (f : File.t) : string :=
  match File.path f with
  | Some p => lower (drop 1 (Path.suffix p))
  | None => ""
  end.

Definition get_formats (type_ : string) : formats :=
  if String.eqb type_ "cad" then
    [ (".step", mkFormat "source"); (".fcstd", mkFormat "source");
      (".stl", mkFormat "export") ]
  else if String.eqb type_ "pcb" then
    [ (".kicad_pcb", mkFormat "source"); (".gbr", mkFormat "export") ]
  else if String.eqb type_ "image" then
    [ (".png", mkFormat ""); (".jpg", mkFormat "") ]
  else [].

Definition collaborators : Collaborators :=
  mkCollaborators fromisoformat strptime
    (fun n => mkDatetime 2022 1 1 0 0 (Z.of_nat n) 0 (Some 0%Z))
    strip_html detect_language get_by_id_or_name py_str Project_new
    extension get_formats.

(** A file as the classifier sees it: only the path and what is derived from
    it matter there. *)
Definition file (p : string) : File.t :=
  {| File.path := Some (Path.of_string p);
     File.name := Some (Path.stem (Path.of_string p));
     File.mime_type := PNone; File.url := PNone; File.perma_url := PNone;
     File.created_at := mkDatetime 2021 1 1 0 0 0 0 (Some 0%Z);
     File.last_changed := mkDatetime 2021 1 1 0 0 0 0 (Some 0%Z);
     File.last_visited := mkDatetime 2022 1 1 0 0 0 0 (Some 0%Z);
     File.license := PLicense None; File.licensor := PNone |}.

(** A record with the fields [normalize] indexes and nothing else. *)
Definition minimal_record : raw_record :=
  [ ("fetcher", PStr "oshwa.org");
    ("responsibleParty", PStr "arturo182");
    ("lastVisited", PStr "2022-01-01T00:00:00");
    ("projectName", PStr "OLED PMOD");
    ("oshwaUid", PStr "SE000004") ].

(** The record of the comment in the source, with its provenance fields. *)
Definition oled_record : raw_record :=
  [ ("fetcher", PStr "oshwa.org");
    ("lastVisited", PStr "2022-01-01T00:00:00");
    ("oshwaUid", PStr "SE000004");
    ("responsibleParty", PStr "arturo182");
    ("country", PStr "Sweden");
    ("projectName", PStr "0.95 OLED PMOD");
    ("projectWebsite", PStr "https://github.com/arturo182/pmod_rgb_oled_0.95in/");
    ("projectVersion", PStr "1.0");
    ("projectDescription", PStr "A tiny color <b>OLED</b>! ");
    ("primaryType", PStr "Other");
    ("additionalType", PList [PStr "Electronics"]);
    ("projectKeywords", PList [PStr "oled"; PStr "display"; PStr "pmod"]);
    ("citations", PList []);
    ("documentationUrl", PStr "https://github.com/arturo182/pmod_rgb_oled_0.95in/");
    ("hardwareLicense", PStr "CERN");
    ("softwareLicense", PStr "No software");
    ("documentationLicense", PStr "CC BY-SA");
    ("certificationDate", PStr "2020-05-04T00:00-04:00") ].

Definition file_meta (filename : string) : pyval :=
  PDict [ ("dirname", PStr "");
          ("file", PDict [ ("filename", PStr filename);
                           ("dateCreated", PStr "2021-03-04T05:06:07.000000+0000");
                           ("lastUpdated", PStr "2021-03-04T05:06:07.000000+0000") ]) ].

(** The minimal record with a file list of a CAD source and its export. *)
Definition record_with_files : raw_record :=
  minimal_record ++
  [ ("contribution",
     PDict [ ("files", PList [file_meta "bracket.step"; file_meta "bracket.stl"]) ]) ].

(** A reader of the JSON documents [{}], [[]], [null] and of the unsigned
    integers; it refuses everything else. *)
Definition json_loads (s : serialized) : result pyval :=
  let text := strip (match s with SStr t => t | SBytes b => b end) in
  if String.eqb text "{}" then Ok (PDict [])
  else if String.eqb text "[]" then Ok (PList [])
  else if String.eqb text "null" then Ok PNone
  else match digits text with
       | Some z => Ok (PInt z)
       | None => Raise JSONDecodeError
       end.

Definition is_bare_key_char (c : ascii) : bool :=
  is_upper_ascii c || is_lower_ascii c || is_digit_ascii c
  || Ascii.eqb c "_" || Ascii.eqb c "-".

Fixpoint is_bare_key (s : string) : bool :=
  match s with
  | EmptyString => true
  | String c s' => is_bare_key_char c && is_bare_key s'
  end.

(** One line [key = integer] of a TOML document. *)
Definition toml_line (line : string) : result (option (string * pyval)) :=
  if String.eqb (strip line) "" then Ok None
  else
    match split "=" line with
    | [k; v] =>
        let key := strip k in
        if String.eqb key "" || negb (is_bare_key key) then Raise TomlDecodeError
        else match digits (strip v) with
             | Some z => Ok (Some (key, PInt z))
             | None => Raise TomlDecodeError
             end
    | _ => Raise TomlDecodeError
    end.

Fixpoint toml_lines (lines : list string) : result raw_record :=
  match lines with
  | [] => Ok []
  | line :: lines' =>
      kv <- toml_line line ;;
      d <- toml_lines lines' ;;
      match kv with
      | Some (k, v) =>
          if has_key k d then Raise TomlDecodeError else Ok ((k, v) :: d)
      | None => Ok d
      end
  end.

(** A reader of the TOML documents whose lines are [key = integer]. *)
Definition toml_loads (text : string) : result pyval :=
  d <- toml_lines (split (ascii_of_nat 10) text) ;; Ok (PDict d).

Definition exn_str (e : exn) : string :=
  match e with
  | KeyError k => k
  | TypeError => "TypeError"
  | ValueError => "ValueError"
  | AttributeError => "AttributeError"
  | LangDetectException => "No features in text."
  | JSONDecodeError => "Expecting value"
  | TomlDecodeError => "invalid TOML"
  | DeserializerError msg => msg
  end.

Definition parsers : Parsers :=
  mkParsers json_loads toml_loads (fun b => b) exn_str.

End Sample.

(** ** More on the part classifier *)

Definition has_path (file : File.t) : bool :=
  match File.path file with
  | Some _ => true
  | None => false
  end.

(** The distinct keys of a list, each at its first appearance. *)
Definition first_keys (keys : list string) : list string :=
  fold_left (fun acc k => if in_strings k acc then acc else acc ++ [k]) keys [].

(** The key of the bucket a part came from, read off its source. *)
Definition part_key (part : Part.t) : string :=
  match Part.source part with
  | Some src => key_of src
  | None => ""
  end.

(** A file record that came without a file name. *)
Definition pathless_file : File.t :=
  File.mk None None PNone PNone PNone naive_epoch naive_epoch naive_epoch
    (PLicense None) PNone.

(** ** More on the file normalizer *)

(** The record of a file list has a truthy [file] entry. *)
Definition has_file (meta : pyval) : bool :=
  match meta with
  | PDict d => truthy (dict_get d "file")
  | _ => false
  end.

(** The path the file name of such a record stands for, if it has a file
    name. *)
Definition meta_path (meta : pyval) : option Path.t :=
  match meta with
  | PDict d =>
      match dict_get d "file" with
      | PDict file_raw =>
          match lookup "filename" file_raw with
          | Some (PStr s) => Some (Path.of_string s)
          | _ => None
          end
      | _ => None
      end
  | _ => None
  end.

(** A file record that names its directory and brings a license of its
    own. *)
Definition meta_in_dir (dir filename : string) : pyval :=
  PDict [ ("dirname", PStr dir);
          ("file", PDict [ ("filename", PStr filename);
                           ("license", PStr "CC0-1.0");
                           ("dateCreated", PStr "2021-03-04T05:06:07.000000+0000");
                           ("lastUpdated", PStr "2021-03-04T05:06:07.000000+0000") ]) ].

Definition record_with_dirs : raw_record :=
  Sample.minimal_record ++
  [ ("hardwareLicense", PStr "MIT");
    ("contribution",
     PDict [ ("files",
              PList [ meta_in_dir "cad" "arm.step";
                      PDict [("file", PNone)];
                      meta_in_dir "export" "arm.stl" ]) ]) ].

(** ** Characters of a string *)

Definition first_char (s : string) : option ascii :=
  match s with
  | String c _ => Some c
  | EmptyString => None
  end.

Fixpoint last_char (s : string) : option ascii :=
  match s with
  | EmptyString => None
  | String c EmptyString => Some c
  | String _ s' => last_char s'
  end.

Fixpoint string_forall (p : ascii -> bool) (s : string) : bool :=
  match s with
  | EmptyString => true
  | String c s' => p c && string_forall p s'
  end.

(** What may stand in a percent-encoded string: the characters [quote]
    keeps, and the percent sign. *)
Definition url_safe (c : ascii) : bool := quote_keeps c || Ascii.eqb c "%".

(** ** [OshwaNormalizer._get_info_file] and [_normalize_image] *)

(** [s.replace(a, "")] for a one-character [a] *)
Fixpoint remove_char (a : ascii) (s : string) : string :=
  match s with
  | EmptyString => EmptyString
  | String c s' =>
      if Ascii.eqb c a then remove_char a s' else String c (remove_char a s')
  end.

(** [file.path.stem.strip().replace(" ", "").replace("-", "")
      .replace("_", "").upper()] *)
Definition info_name (p : Path.t) : string :=
  upper (remove_char "_" (remove_char "-" (remove_char " "
           (strip (Path.stem p))))).

(** [len(p.parents)]: one parent for each component below the root. *)
Definition parents_count (p : Path.t) : nat := List.length (Path.parts p).

Fixpoint _get_info_file (names : list string) (files : list File.t)
  : result (option File.t) :=
  match files with
  | [] => Ok None
  | file :: files' =>
      match File.path file with
      | None => Raise AttributeError
      | Some p =>
          if (1 <? parents_count p)%nat then _get_info_file names files'
          else if in_strings (info_name p) names then Ok (Some file)
          else _get_info_file names files'
      end
  end.

(** The file is one [_get_info_file] stops at. *)
Definition info_match (names : list string) (file : File.t) : bool :=
  match File.path file with
  | Some p => negb (1 <? parents_count p)%nat && in_strings (info_name p) names
  | None => false
  end.

(** A character an info name can hold: no space, hyphen or underscore, and
    no lower-case letter. *)
Definition info_char (c : ascii) : bool :=
  negb (Ascii.eqb c " ") && negb (Ascii.eqb c "-") && negb (Ascii.eqb c "_")
  && negb (is_lower_ascii c).

Section Image.

Variable C : Collaborators.

(** [_parse_file(image_raw)] on a truthy value that need not be a mapping:
    the membership test and [get] decide what is raised. *)
Definition parse_file_value (image_raw : pyval) : result File.t :=
  match image_raw with
  | PDict d => _parse_file C 0 d
  | _ =>
      found <- py_contains "filename" image_raw ;;
      if found then Raise TypeError else Raise AttributeError
  end.

Definition _normalize_image (raw : raw_record) : result (option File.t) :=
  let image_raw := match lookup "image" raw with
                   | Some v => v
                   | None => PDict []
                   end in
  if negb (truthy image_raw) then Ok None
  else (file <- parse_file_value image_raw ;; Ok (Some file)).

End Image.

(** ** The graph serializer: [krawl/serializer/rdf.py]

    Names of nodes. [str.capitalize] and [str.isalnum] are modelled on the
    ASCII range, like the other string functions. *)

Definition is_ascii (c : ascii) : bool := (nat_of_ascii c <? 128)%nat.

(** [c.isalnum()] *)
Definition is_alnum (c : ascii) : bool :=
  is_upper_ascii c || is_lower_ascii c || is_digit_ascii c.

(** [s.capitalize()] *)
Definition capitalize (s : string) : string :=
  match s with
  | EmptyString => EmptyString
  | String c s' => String (upper_char c) (lower s')
  end.

(** ["".join([l for l in s if p(l)])] *)
Fixpoint filter_string (p : ascii -> bool) (s : string) : string :=
  match s with
  | EmptyString => EmptyString
  | String c s' =>
      if p c then String c (filter_string p s') else filter_string p s'
  end.

(** [RDFProjectSerializer._titlecase] *)
Definition _titlecase (s : string) : string :=
  let parts := split " " s in
  let capitalized := join "" (map capitalize parts) in
  filter_string is_alnum capitalized.

(** [RDFProjectSerializer._camelcase] *)
Definition _camelcase (s : string) : string :=
  match split "-" s with
  | first :: rest => (first ++ join "" (map capitalize rest))%string
  | [] => EmptyString
  end.

(** The number of characters of [s] that satisfy [p]. *)
Fixpoint count_chars (p : ascii -> bool) (s : string) : nat :=
  match s with
  | EmptyString => O
  | String c s' => if p c then S (count_chars p s') else count_chars p s'
  end.

Definition no_hyphen (c : ascii) : bool := negb (Ascii.eqb c "-").

(** *** The graph and [add] *)

Module Rdf.

(** The value a literal is made from. *)
Inductive lit : Type :=
| LitStr (s : string)
| LitValue (v : pyval).

(** [rdflib.URIRef] and [rdflib.Literal] *)
Inductive term : Type :=
| URIRef (iri : string)
| Literal (l : lit).

(** What a caller hands to [add] as object: [None], a [str], a [datetime],
    a term, or any other Python value (a number, a list, a [License]). *)
Inductive object : Type :=
| ONone
| OStr (s : string)
| ODatetime (d : datetime)
| OTerm (t : term)
| OValue (v : pyval).

(** A field of the project as an object. *)
Definition object_of (v : pyval) : object :=
  match v with
  | PNone => ONone
  | PLicense None => ONone
  | PStr s => OStr s
  | _ => OValue v
  end.

(** A triple: subject and predicate by their IRIs, and the object. The graph
    is a set of triples; the list holds every triple that was added. *)
Definition triple : Type := (string * string * term)%type.
Definition graph : Type := list triple.

(** What the serializer takes from [validators], [datetime], [rdflib] and
    [krawl.namespaces]. *)
Record Library : Type := mkLibrary {
  (** [validators.url(s)] is truthy *)
  validators_url : string -> bool;
  (** [d.isoformat()] *)
  isoformat : datetime -> string;
  (** [str(l)] of a literal, which is a [str] itself *)
  lit_str : lit -> string;
  (** the IRI of the namespace [OKH] *)
  OKH : string
}.

Definition RDF_type : string :=
  "http://www.w3.org/1999/02/22-rdf-syntax-ns#type".
Definition RDFS_label : string :=
  "http://www.w3.org/2000/01/rdf-schema#label".

Section Serializer.

Variable L : Library.

(** [OKH.name] *)
Definition okh (name : string) : string := (OKH L ++ name)%string.

(** [RDFProjectSerializer.add]. A [URIRef] and a [Literal] are strings
    too: the first test looks at them as well. *)
Definition add (g : graph) (subject predicate : string) (o : object) : graph :=
  match o with
  | ONone => g
  | OStr s =>
      g ++ [(subject, predicate,
             if validators_url L s then URIRef s else Literal (LitStr s))]
  | ODatetime d => g ++ [(subject, predicate, Literal (LitStr (isoformat L d)))]
  | OTerm (URIRef iri) => g ++ [(subject, predicate, URIRef iri)]
  | OTerm (Literal l) =>
      g ++ [(subject, predicate,
             if validators_url L (lit_str L l) then URIRef (lit_str L l)
             else Literal l)]
  | OValue v => g ++ [(subject, predicate, Literal (LitValue v))]
  end.

(** [RDFProjectSerializer._add_module]. [_titlecase] splits the name, which
    only a string lets it do; [project.license.is_spdx] reads an attribute
    of the license. [organization] stands for [project.organization], a
    field this normalizer does not assign. *)
Definition _add_module (g : graph) (namespace : string) (project : Project.t)
  (organization : pyval) : result (graph * string) :=
  name <- match Project.name project with
          | PStr s => Ok s
          | _ => Raise AttributeError
          end ;;
  let module_subject := (namespace ++ _titlecase name)%string in
  let g := add g module_subject RDF_type (OTerm (URIRef (okh "Module"))) in
  let g := add g module_subject RDFS_label (object_of (Project.name project)) in
  let g := add g module_subject (okh "versionOf") (object_of (Project.repo project)) in
  let g := add g module_subject (okh "repo") (object_of (Project.repo project)) in
  let g := add g module_subject (okh "dataSource")
             (object_of (Meta.source (Project.meta project))) in
  let g := add g module_subject (okh "repoHost")
             (object_of (Meta.host (Project.meta project))) in
  let g := add g module_subject (okh "version") (object_of (Project.version project)) in
  let g := add g module_subject (okh "release") ONone in
  g <- match Project.license project with
       | None => Raise AttributeError
       | Some l =>
           if is_spdx l
           then Ok (add g module_subject (okh "spdxLicense")
                      (OValue (PLicense (Some l))))
           else Ok (add g module_subject (okh "alternativeLicense")
                      (OValue (PLicense (Some l))))
       end ;;
  let g := add g module_subject (okh "licensor") (object_of (Project.licensor project)) in
  let g := add g module_subject (okh "organization") (object_of organization) in
  let g := add g module_subject (okh "documentationLanguage")
             (object_of (Project.documentation_language project)) in
  let g := add g module_subject (okh "function") (object_of (Project.function project)) in
  let g := add g module_subject (okh "cpcPatentClass")
             (object_of (Project.cpc_patent_class project)) in
  let g := add g module_subject (okh "tsdc") (object_of (Project.tsdc project)) in
  let g := add g module_subject (okh "outerDimensionMM")
             (object_of (Project.outer_dimensions_mm project)) in
  Ok (g, module_subject).

End Serializer.

(** A library for the examples: every string that starts with [http] is
    taken for a URL. *)
Definition sample_library : Library :=
  mkLibrary (fun s => String.prefix "http" s)
            (fun d => "")
            (fun l => match l with LitStr s => s | LitValue _ => "" end)
            "https://github.com/OPEN-NEXT/OKH-LOSH/raw/master/OKH-LOSH.ttl#".

End Rdf.

(** *** What [_add_module] adds *)

Section ModuleTriples.

Variable L : Rdf.Library.

(** The term [add] makes of an object, if it adds one. *)
Definition term_of (o : Rdf.object) : option Rdf.term :=
  match o with
  | Rdf.ONone => None
  | Rdf.OStr s =>
      Some (if Rdf.validators_url L s then Rdf.URIRef s
            else Rdf.Literal (Rdf.LitStr s))
  | Rdf.ODatetime d => Some (Rdf.Literal (Rdf.LitStr (Rdf.isoformat L d)))
  | Rdf.OTerm (Rdf.URIRef iri) => Some (Rdf.URIRef iri)
  | Rdf.OTerm (Rdf.Literal l) =>
      Some (if Rdf.validators_url L (Rdf.lit_str L l)
            then Rdf.URIRef (Rdf.lit_str L l) else Rdf.Literal l)
  | Rdf.OValue v => Some (Rdf.Literal (Rdf.LitValue v))
  end.

(** The triples a list of predicates and objects gives for one subject: one
    for each object that is not null, in the order of the list. *)
Definition triples_of (subject : string) (fields : list (string * Rdf.object))
  : Rdf.graph :=
  flat_map (fun po => match term_of (snd po) with
                      | Some t => [(subject, fst po, t)]
                      | None => []
                      end) fields.

(** The predicate under which a license is stated. *)
Definition license_predicate (l : License) : string :=
  Rdf.okh L (if is_spdx l then "spdxLicense" else "alternativeLicense").

(** The predicates and objects of a module, in the order of the code. *)
Definition module_fields (project : Project.t) (l : License)
  (organization : pyval) : list (string * Rdf.object) :=
  [ (Rdf.RDF_type, Rdf.OTerm (Rdf.URIRef (Rdf.okh L "Module")));
    (Rdf.RDFS_label, Rdf.object_of (Project.name project));
    (Rdf.okh L "versionOf", Rdf.object_of (Project.repo project));
    (Rdf.okh L "repo", Rdf.object_of (Project.repo project));
    (Rdf.okh L "dataSource", Rdf.object_of (Meta.source (Project.meta project)));
    (Rdf.okh L "repoHost", Rdf.object_of (Meta.host (Project.meta project)));
    (Rdf.okh L "version", Rdf.object_of (Project.version project));
    (license_predicate l, Rdf.OValue (PLicense (Some l)));
    (Rdf.okh L "licensor", Rdf.object_of (Project.licensor project));
    (Rdf.okh L "organization", Rdf.object_of organization);
    (Rdf.okh L "documentationLanguage",
     Rdf.object_of (Project.documentation_language project));
    (Rdf.okh L "function", Rdf.object_of (Project.function project));
    (Rdf.okh L "cpcPatentClass", Rdf.object_of (Project.cpc_patent_class project));
    (Rdf.okh L "tsdc", Rdf.object_of (Project.tsdc project));
    (Rdf.okh L "outerDimensionMM",
     Rdf.object_of (Project.outer_dimensions_mm project)) ].

End ModuleTriples.

(** [s] ends with [suffix]. *)
Fixpoint ends_with (suffix s : string) : bool :=
  if String.eqb suffix s then true
  else match s with
       | EmptyString => false
       | String _ s' => ends_with suffix s'
       end.

(** The project the sample record normalizes to. *)
Definition oled_project : Project.t :=
  match normalize Sample.collaborators Sample.oled_record with
  | Ok p => p
  | Raise _ => Sample.Project_new
  end.

Definition oled_namespace : string :=
  "https://github.com/arturo182/pmod_rgb_oled_0.95in/1.0/".

(** ** The fetcher state storage: [krawl/storage/fetcher_state_storage_file.py]

    The file system is a tree of directories and regular files, addressed
    by paths; there are no links and no permissions in it, and the
    directory a path without components names is there. *)

Module Storage.

Inductive node : Type :=
| RegularFile (text : string)
| Directory.

Definition filesystem : Type := Path.t -> option node.

Fixpoint strings_eqb (a b : list string) : bool :=
  match a, b with
  | [], [] => true
  | x :: a', y :: b' => String.eqb x y && strings_eqb a' b'
  | _, _ => false
  end.

Definition path_eqb (p q : Path.t) : bool :=
  String.eqb (Path.root p) (Path.root q)
  && strings_eqb (Path.parts p) (Path.parts q).

Definition put (fs : filesystem) (p : Path.t) (n : option node) : filesystem :=
  fun q => if path_eqb q p then n else fs q.

(** What can go wrong: the operating system refuses ([OSError] and its
    subclasses), or the JSON library raises. *)
Inductive failure : Type :=
| OSError
| Other (e : exn).

Inductive io (A : Type) : Type :=
| Done (a : A)
| Fails (f : failure).

Arguments Done {A} a.
Arguments Fails {A} f.

(** [p / s] *)
Definition joinpath (p : Path.t) (s : string) : Path.t :=
  let q := Path.of_string s in
  if String.eqb (Path.root q) "" then
    Path.mk (Path.root p) (Path.parts p ++ Path.parts q)
  else q.

(** [p.parent] *)
Definition parent (p : Path.t) : Path.t :=
  Path.mk (Path.root p) (removelast (Path.parts p)).

(** [p.exists()] *)
Definition exists_ (fs : filesystem) (p : Path.t) : bool :=
  match fs p with
  | Some _ => true
  | None => false
  end.

(** [d.mkdir(parents=True, exist_ok=True)], component by component from the
    top: a missing directory is made, a regular file in the way is an
    error. *)
Fixpoint mkdirs (fs : filesystem) (root : string) (above below : list string)
  : option filesystem :=
  match below with
  | [] => Some fs
  | c :: below' =>
      let d := Path.mk root (above ++ [c]) in
      match fs d with
      | Some (RegularFile _) => None
      | Some Directory => mkdirs fs root (above ++ [c]) below'
      | None => mkdirs (put fs d (Some Directory)) root (above ++ [c]) below'
      end
  end.

Definition mkdir_parents (fs : filesystem) (d : Path.t) : option filesystem :=
  mkdirs fs (Path.root d) [] (Path.parts d).

Section FetcherStateStorageFile.

(** [json.loads] and [json.dumps(state, indent=4)] *)
Variable json_loads : string -> result pyval.
Variable json_dumps : pyval -> result string.

(** [__init__]: the directory of the states *)
Definition base_path (base : Path.t) : Path.t := joinpath base "__fetcher__".

Definition _get_path (base : Path.t) (fetcher : string) : Path.t :=
  joinpath (base_path base) (fetcher ++ ".json").

Definition load (fs : filesystem) (base : Path.t) (fetcher : string)
  : io pyval :=
  let path := _get_path base fetcher in
  if negb (exists_ fs path) then Done (PDict [])
  else
    match fs path with
    | Some (RegularFile serialized) =>
        match json_loads serialized with
        | Ok deserialized => Done deserialized
        | Raise e => Fails (Other e)
        end
    | _ => Fails OSError
    end.

(** [store]: the file system it leaves, and how it ends. *)
Definition store (fs : filesystem) (base : Path.t) (fetcher : string)
  (state : pyval) : filesystem * io unit :=
  let path := _get_path base fetcher in
  match mkdir_parents fs (parent path) with
  | None => (fs, Fails OSError)
  | Some fs1 =>
      match json_dumps state with
      | Raise e => (fs1, Fails (Other e))
      | Ok serialized =>
          match fs1 path with
          | Some Directory => (fs1, Fails OSError)
          | _ => (put fs1 path (Some (RegularFile serialized)), Done tt)
          end
      end
  end.

Definition delete (fs : filesystem) (base : Path.t) (fetcher : string)
  : filesystem * io bool :=
  let path := _get_path base fetcher in
  if negb (exists_ fs path) then (fs, Done false)
  else
    match fs path with
    | Some (RegularFile _) => (put fs path None, Done true)
    | _ => (fs, Fails OSError)
    end.

End FetcherStateStorageFile.

(** A file system with nothing in it. *)
Definition empty : filesystem := fun _ => None.

End Storage.

Definition no_slash (c : ascii) : bool := negb (Ascii.eqb c "/").

(** A JSON writer for the values the sample reader reads back. *)
Definition sample_dumps (v : pyval) : result string :=
  match v with
  | PDict [] => Ok "{}"
  | PList [] => Ok "[]"
  | PNone => Ok "null"
  | _ => Raise TypeError
  end.

Definition sample_loads (text : string) : result pyval :=
  Sample.json_loads (SStr text).

Definition sample_base : Path.t := Path.of_string "/var/lib/krawl".

(** The identifiers [LICENSE_MAPPING] maps to. *)
Definition canonical_ids : list string :=
  [ "CC-BY-4.0"; "CC0-1.0"; "MIT"; "BSD-2-Clause"; "CC-BY-SA-4.0";
    "GPL-3.0-only"; "TAPR-OHL-1.0"; "CERN-OHL-1.2" ].

(** ** More on the field extractor *)

(** [isinstance(v, dict)] *)
Definition is_mapping (v : pyval) : bool :=
  match v with
  | PDict _ => true
  | _ => false
  end.

(** ** Paths in the ASCII range

    [str.upper], [str.lower], [str.strip], [str.isalnum] and
    [str.capitalize] are embedded on the ASCII range; what is stated of a
    function that uses one of them is stated for strings of that range. *)

Definition ascii_string (s : string) : bool := string_forall is_ascii s.

Definition ascii_path (p : Path.t) : bool :=
  ascii_string (Path.root p) && forallb ascii_string (Path.parts p).

(** A file without path has nothing to map. *)
Definition ascii_file (file : File.t) : bool :=
  match File.path file with
  | Some p => ascii_path p
  | None => true
  end.

(** The name of the project, if it is a string. *)
Definition ascii_name (project : Project.t) : bool :=
  match Project.name project with
  | PStr s => ascii_string s
  | _ => true
  end.

(** ** Exclusion and bucket keys, in the words of the specification *)









(** * Properties *)

(** ** The field extractor *)

Lemma get_key_single (raw : raw_record) (k : string) (default : pyval) :
  _get_key (PDict raw) [k] default
  = Ok (if truthy (dict_get raw k) then dict_get raw k else default).
Proof.
  unfold _get_key, dict_get; simpl.
  destruct raw as [|kv raw']; [reflexivity|].
  cbn [negb bind py_contains py_getitem].
  destruct (lookup k (kv :: raw')) as [v|]; [|reflexivity].
  cbn [negb bind]. destruct (truthy v); reflexivity.
Qed.

Lemma get_key_falsy (last : pyval) (key : list string) (default : pyval) :
  truthy last = false -> _get_key_from last key default = Ok default.
Proof.
  intros Hf; destruct key as [|k key']; simpl; rewrite Hf; reflexivity.
Qed.

Lemma walk_falsy (last : pyval) (key : list string) :
  truthy last = false -> walk last key = None.
Proof.
  intros Hf; destruct key as [|k key']; simpl.
  - rewrite Hf; reflexivity.
  - destruct last as [| | | | | |d|]; try reflexivity.
    destruct d; [reflexivity | discriminate Hf].
Qed.

Lemma walk_not_contained (last : pyval) (k : string) (key : list string) :
  py_contains k last = Ok false -> walk last (k :: key) = None.
Proof.
  destruct last as [| | | | | |d|]; try reflexivity.
  simpl; destruct (lookup k d); [discriminate | reflexivity].
Qed.

Lemma get_key_walkable (obj : pyval) (key : list string) (default : pyval) :
  walkable obj key ->
  _get_key obj key default
  = Ok (match walk obj key with Some v => v | None => default end).
Proof.
  unfold _get_key; revert obj.
  induction key as [|k key' IH]; intros obj Hw.
  - simpl; destruct (truthy obj); reflexivity.
  - destruct Hw as [Hf | [Hc | (d & next & -> & Hl & Hn)]].
    + rewrite (get_key_falsy _ _ _ Hf), (walk_falsy _ _ Hf); reflexivity.
    + rewrite (walk_not_contained _ _ _ Hc); cbn [_get_key_from].
      rewrite Hc; destruct (negb (truthy obj)); reflexivity.
    + cbn [_get_key_from walk py_contains py_getitem]; rewrite Hl.
      destruct d as [|kv d']; [discriminate Hl|].
      cbn [truthy negb bind]. apply IH, Hn.
Qed.

Lemma get_key_raises (obj : pyval) (key : list string) (default : pyval)
  (e : exn) :
  _get_key obj key default = Raise e -> e = TypeError /\ ~ walkable obj key.
Proof.
  unfold _get_key; revert obj.
  induction key as [|k key' IH]; intros obj.
  - simpl; destruct (truthy obj); discriminate.
  - cbn [_get_key_from walkable].
    destruct (truthy obj) eqn:Ht; cbn [negb]; [|discriminate].
    destruct obj as [| |z|f|s|l|d|lic]; cbn [py_contains bind]; try discriminate Ht.
    + intros [= <-]; split; [reflexivity|].
      intros [H | [H | (d & next & H & _)]]; discriminate H.
    + intros [= <-]; split; [reflexivity|].
      intros [H | [H | (d & next & H & _)]]; discriminate H.
    + intros [= <-]; split; [reflexivity|].
      intros [H | [H | (d & next & H & _)]]; discriminate H.
    + destruct (is_substring k s) eqn:Hs; cbn [negb py_getitem bind];
        [|discriminate].
      intros [= <-]; split; [reflexivity|].
      intros [H | [H | (d & next & H & _)]]; discriminate H.
    + destruct (existsb (is_pystr k) l) eqn:Hs; cbn [negb py_getitem bind];
        [|discriminate].
      intros [= <-]; split; [reflexivity|].
      intros [H | [H | (d & next & H & _)]]; discriminate H.
    + cbn [py_getitem]. destruct (lookup k d) as [next|] eqn:Hl;
        cbn [negb bind]; [|discriminate].
      intros Hr; destruct (IH next Hr) as [-> Hn]; split; [reflexivity|].
      intros [H | [H | (d' & next' & Hd & Hl' & Hw)]]; try discriminate H.
      injection Hd as <-.
      rewrite Hl in Hl'; injection Hl' as <-; exact (Hn Hw).
    + intros [= <-]; split; [reflexivity|].
      intros [H | [H | (d & next & H & _)]]; discriminate H.
Qed.

Lemma get_key_returns (obj : pyval) (key : list string) (default v : pyval) :
  _get_key obj key default = Ok v -> walkable obj key.
Proof.
  unfold _get_key; revert obj.
  induction key as [|k key' IH]; intros obj; [intros _; exact I|].
  cbn [_get_key_from walkable].
  destruct (truthy obj) eqn:Ht; cbn [negb]; [|intros _; left; reflexivity].
  destruct (py_contains k obj) as [[|]|e] eqn:Hc; cbn [bind negb];
    [| intros _; right; left; reflexivity | discriminate].
  destruct obj as [| |z|f|s|l|d|lic]; try discriminate Hc;
    cbn [py_getitem bind]; try discriminate.
  destruct (lookup k d) as [next|] eqn:Hl; cbn [bind]; [|discriminate].
  intros H; right; right; exists d, next.
  split; [reflexivity | split; [exact Hl | exact (IH next H)]].
Qed.

Lemma get_key_not_walkable (obj : pyval) (key : list string) (default : pyval) :
  ~ walkable obj key -> _get_key obj key default = Raise TypeError.
Proof.
  intros Hn. destruct (_get_key obj key default) as [v|e] eqn:E.
  - contradiction Hn; exact (get_key_returns obj key default v E).
  - destruct (get_key_raises obj key default e E) as [-> _]; reflexivity.
Qed.

(** A truthy value that is no mapping and does not answer [False] to the
    membership test stops the walk with a [TypeError]. *)
Lemma get_key_not_absorbed (obj : pyval) (k : string) (key : list string)
  (default : pyval) :
  truthy obj = true -> is_mapping obj = false ->
  py_contains k obj <> Ok false ->
  _get_key obj (k :: key) default = Raise TypeError.
Proof.
  intros Ht Hm Hc; apply get_key_not_walkable.
  intros [H | [H | (d & next & -> & _)]].
  - rewrite Ht in H; discriminate H.
  - exact (Hc H).
  - discriminate Hm.
Qed.

(** C5, as the code has it: the extractor returns without raising exactly
    when every value met before the last key is falsy, lacks the next key or
    is a mapping that has it; it then returns the value reached by walking
    the keys if every key is present and every value on the way, the last
    one included, is truthy, and the default otherwise. In every other case
    a [TypeError] is raised: a truthy value that is no mapping is not
    absorbed into the default, unless it is a string or list that does not
    contain the next key. *)
Theorem get_key_walks_mappings (obj : pyval) (key : list string)
  (default : pyval) :
  (walkable obj key ->
   _get_key obj key default
   = Ok (match walk obj key with Some v => v | None => default end))
  /\ (~ walkable obj key -> _get_key obj key default = Raise TypeError)
  /\ ((exists v, _get_key obj key default = Ok v) <-> walkable obj key)
  /\ (forall e, _get_key obj key default = Raise e ->
        e = TypeError /\ ~ walkable obj key)
  /\ (forall k key', key = k :: key' ->
        truthy obj = true -> is_mapping obj = false ->
        py_contains k obj <> Ok false ->
        _get_key obj key default = Raise TypeError).
Proof.
  split; [apply get_key_walkable|].
  split; [apply get_key_not_walkable|].
  split; [|split; [apply get_key_raises|]].
  - split.
    + intros [v Hv]; exact (get_key_returns obj key default v Hv).
    + intros Hw; eexists; exact (get_key_walkable obj key default Hw).
  - intros k key' ->; apply get_key_not_absorbed.
Qed.

Lemma get_key_walks_mappings_witness :
  _get_key (PDict [("creator", PDict [("profile", PDict [("fullName", PStr "Ada")])])])
           ["creator"; "profile"; "fullName"] PNone
  = Ok (PStr "Ada")
  /\ _get_key (PDict [("creator", PStr "Ada")]) ["creator"; "profile"] PNone
     = Ok PNone
  /\ _get_key (PDict [("creator", PStr "profiler")]) ["creator"; "profile"; "fullName"]
       PNone
     = Raise TypeError
  /\ _get_key (PInt 5) ["profile"] PNone = Raise TypeError.
Proof.
  split; [|split; [|split]].
  - apply (proj1 (get_key_walks_mappings
             (PDict [("creator", PDict [("profile", PDict [("fullName", PStr "Ada")])])])
             ["creator"; "profile"; "fullName"] PNone)).
    simpl. right; right; do 2 eexists; split; [reflexivity|]. split; [reflexivity|].
    simpl. right; right; do 2 eexists; split; [reflexivity|]. split; [reflexivity|].
    simpl. right; right; do 2 eexists; split; [reflexivity|]. split; [reflexivity|].
    exact I.
  - apply (proj1 (get_key_walks_mappings (PDict [("creator", PStr "Ada")])
             ["creator"; "profile"] PNone)).
    simpl. right; right; do 2 eexists; split; [reflexivity|]. split; [reflexivity|].
    simpl. right; left; reflexivity.
  - apply (proj1 (proj2 (get_key_walks_mappings (PDict [("creator", PStr "profiler")])
             ["creator"; "profile"; "fullName"] PNone))).
    intros [H | [H | (d & next & Hd & Hl & [H | [H | (d' & next' & H & _)]])]];
      try discriminate H.
    injection Hd as <-; injection Hl as <-; discriminate H.
    injection Hd as <-; injection Hl as <-; discriminate H.
    injection Hd as <-; injection Hl as <-; discriminate H.
  - apply (proj2 (proj2 (proj2 (proj2 (get_key_walks_mappings (PInt 5)
             ["profile"] PNone)))) "profile" [] eq_refl eq_refl eq_refl).
    discriminate.
Defined.

(** A number met before the last key is not absorbed into the default: the
    membership test on it raises. *)
Lemma get_key_number_on_path_raises :
  _get_key (PDict [("creator", PInt 5)]) ["creator"; "profile"] PNone
  = Raise TypeError
  /\ ~ (exists v, _get_key (PDict [("creator", PInt 5)])
                    ["creator"; "profile"] PNone = Ok v).
Proof.
  split; [reflexivity|].
  intros [v Hv]; discriminate Hv.
Qed.

(** ** The part classifier: one bucket *)

Section ClassifierProperties.

Variable extension : File.t -> string.
Variable get_formats : string -> formats.

#[local] Abbreviation classify := (classify_file extension get_formats).
#[local] Abbreviation bucket_part := (part_of_bucket extension get_formats).
#[local] Abbreviation category_of := (design_category extension get_formats).
#[local] Abbreviation source_file := (is_source extension get_formats).
#[local] Abbreviation export_file := (is_export extension get_formats).
#[local] Abbreviation design_file := (is_design extension get_formats).
#[local] Abbreviation image_file := (is_image extension get_formats).

Lemma is_source_category (file : File.t) :
  source_file file = true <-> category_of file = Some "source".
Proof.
  unfold is_source, has_category.
  destruct (category_of file) as [c|]; [|split; discriminate].
  rewrite String.eqb_eq; split; congruence.
Qed.

Lemma is_export_category (file : File.t) :
  export_file file = true <-> category_of file = Some "export".
Proof.
  unfold is_export, has_category.
  destruct (category_of file) as [c|]; [|split; discriminate].
  rewrite String.eqb_eq; split; congruence.
Qed.

(** The three ways a design file is placed. *)
Lemma classify_source_unset (part : Part.t) (file : File.t) :
  source_file file = true -> Part.source part = None ->
  classify part file = Part.set_source file part.
Proof.
  unfold is_source, has_category, design_category, classify_file, place_design.
  intros Hs Hn.
  destruct (format_of _ (get_formats "cad")) as [fmt|].
  - rewrite Hs, Hn; reflexivity.
  - destruct (format_of _ (get_formats "pcb")) as [fmt|]; [|discriminate Hs].
    rewrite Hs, Hn; reflexivity.
Qed.

Lemma classify_source_set (part : Part.t) (file src : File.t) :
  source_file file = true -> Part.source part = Some src ->
  classify part file = Part.append_export file part.
Proof.
  unfold is_source, has_category, design_category, classify_file, place_design.
  intros Hs Hn.
  destruct (format_of _ (get_formats "cad")) as [fmt|].
  - rewrite Hs, Hn; reflexivity.
  - destruct (format_of _ (get_formats "pcb")) as [fmt|]; [|discriminate Hs].
    rewrite Hs, Hn; reflexivity.
Qed.

Lemma source_not_export (file : File.t) :
  source_file file = true -> export_file file = false.
Proof.
  rewrite is_source_category. unfold is_export, has_category.
  intros ->; reflexivity.
Qed.

Lemma classify_export (part : Part.t) (file : File.t) :
  export_file file = true ->
  classify part file = Part.append_export file part.
Proof.
  unfold is_export, has_category, design_category, classify_file, place_design.
  intros He.
  destruct (format_of _ (get_formats "cad")) as [fmt|].
  - rewrite He. apply String.eqb_eq in He; rewrite He; reflexivity.
  - destruct (format_of _ (get_formats "pcb")) as [fmt|]; [|discriminate He].
    rewrite He. apply String.eqb_eq in He; rewrite He; reflexivity.
Qed.

(** A file that is no design file leaves source and export alone. *)
Lemma classify_other (part : Part.t) (file : File.t) :
  design_file file = false ->
  Part.source (classify part file) = Part.source part
  /\ Part.export (classify part file) = Part.export part
  /\ Part.image (classify part file)
     = match Part.image part with
       | Some i => Some i
       | None => if image_file file then Some file else None
       end.
Proof.
  unfold is_design, is_source, is_export, is_image, has_category,
    design_category, classify_file, place_design.
  intros Hd. apply orb_false_elim in Hd as [Hs He].
  destruct (format_of _ (get_formats "cad")) as [fmt|].
  - rewrite Hs, He. destruct (Part.image part); repeat split; reflexivity.
  - destruct (format_of _ (get_formats "pcb")) as [fmt|].
    + rewrite Hs, He. destruct (Part.image part); repeat split; reflexivity.
    + destruct (format_of _ (get_formats "image")) as [fmt|];
        destruct (Part.image part) eqn:Hi; simpl; rewrite ?Hi;
        repeat split; reflexivity.
Qed.

Lemma source_is_design (file : File.t) :
  source_file file = true -> design_file file = true.
Proof. unfold is_design; intros ->; reflexivity. Qed.

Lemma export_is_design (file : File.t) :
  export_file file = true -> design_file file = true.
Proof. unfold is_design; intros ->; apply orb_true_r. Qed.

Lemma design_not_image (file : File.t) :
  design_file file = true -> image_file file = false.
Proof.
  unfold is_design, is_source, is_export, is_image, has_category.
  destruct (category_of file); [reflexivity | discriminate].
Qed.

(** The state of the part after the files of a bucket, from any state. *)
Lemma classify_fold (fl : list File.t) : forall part : Part.t,
  Part.source (fold_left classify fl part)
  = match Part.source part with
    | Some src => Some src
    | None => find source_file fl
    end
  /\ Part.export (fold_left classify fl part)
     = Part.export part ++
       match Part.source part with
       | Some _ => filter design_file fl
       | None => remove_first source_file (filter design_file fl)
       end
  /\ Part.image (fold_left classify fl part)
     = match Part.image part with
       | Some img => Some img
       | None => find image_file fl
       end.
Proof.
  induction fl as [|file fl IH]; intros part.
  - simpl.
    destruct (Part.source part), (Part.image part);
      simpl; rewrite app_nil_r; repeat split; reflexivity.
  - cbn [fold_left find filter].
    destruct (IH (classify part file)) as (Hsrc & Hexp & Himg).
    rewrite Hsrc, Hexp, Himg; clear Hsrc Hexp Himg IH.
    destruct (source_file file) eqn:Hs.
    + rewrite (source_is_design _ Hs), (design_not_image _ (source_is_design _ Hs)).
      destruct (Part.source part) as [src|] eqn:Hp.
      * rewrite (classify_source_set part file src Hs Hp); simpl.
        rewrite Hp, <- app_assoc; repeat split; reflexivity.
      * rewrite (classify_source_unset part file Hs Hp); simpl.
        rewrite Hs; repeat split; reflexivity.
    + destruct (export_file file) eqn:He.
      * rewrite (export_is_design _ He), (design_not_image _ (export_is_design _ He)).
        rewrite (classify_export part file He); simpl.
        rewrite <- app_assoc.
        destruct (Part.source part); simpl; rewrite ?Hs; repeat split; reflexivity.
      * assert (Hd : design_file file = false)
          by (unfold is_design; rewrite Hs, He; reflexivity).
        destruct (classify_other part file Hd) as (Hsrc & Hexp & Himg).
        rewrite Hsrc, Hexp, Himg, Hd.
        destruct (Part.image part), (image_file file); repeat split; reflexivity.
Qed.

Lemma find_none_remove_first (fl : list File.t) :
  find source_file fl = None ->
  remove_first source_file (filter design_file fl) = filter design_file fl.
Proof.
  induction fl as [|file fl IH]; [reflexivity|]; simpl.
  destruct (source_file file) eqn:Hs; [discriminate|]; intros Hf.
  destruct (design_file file); [|exact (IH Hf)].
  simpl; rewrite Hs, (IH Hf); reflexivity.
Qed.

(** What a bucket contributes, read off the bucket itself. *)
Lemma part_of_bucket_closed (fl : list File.t) :
  bucket_part fl
  = match find source_file fl with
    | Some src =>
        Some (part_from src (remove_first source_file (filter design_file fl))
                (find image_file fl))
    | None =>
        match filter design_file fl with
        | first :: rest => Some (part_from first rest (find image_file fl))
        | [] => None
        end
    end.
Proof.
  unfold part_of_bucket.
  destruct (classify_fold fl Part.new) as (Hsrc & Hexp & Himg).
  destruct (fold_left classify fl Part.new) as [nm lic lsr src' exp img].
  simpl in Hsrc, Hexp, Himg; subst src' exp img.
  unfold promote, emit, part_from; simpl.
  destruct (find source_file fl) as [src|] eqn:Hf; [reflexivity|].
  rewrite (find_none_remove_first fl Hf).
  destruct (filter design_file fl); reflexivity.
Qed.







End ClassifierProperties.


(** The same bucket through the whole classifier, with a README and a
    second image beside it. *)
Example normalize_parts_step_stl_png :
  _normalize_parts Sample.extension Sample.get_formats
    [Sample.file "A.step"; Sample.file "README.md"; Sample.file "A.stl";
     Sample.file "A.png"; Sample.file "b.png"]
  = Ok [part_from (Sample.file "A.step") [Sample.file "A.stl"]
          (Some (Sample.file "A.png"))].
Proof. vm_compute; reflexivity. Qed.

(** ** The part classifier: exclusion and bucketing *)


Lemma bucket_key_of (file : File.t) (p : Path.t) :
  File.path file = Some p -> has_name file = true ->
  bucket_key p = Ok (key_of file).
Proof.
  unfold has_name, key_of, bucket_key, Path.with_suffix_empty.
  intros ->; intros Hn.
  destruct (String.eqb (Path.name p) ""); [discriminate Hn | reflexivity].
Qed.

Lemma fill_buckets_fold (filtered : list File.t) :
  forall buckets,
  forallb has_name filtered = true ->
  fill_buckets filtered buckets
  = Ok (fold_left (fun b f => bucket_append (key_of f) f b) filtered buckets).
Proof.
  induction filtered as [|file filtered IH]; intros buckets H; [reflexivity|].
  cbn [forallb] in H; apply andb_true_iff in H as [Hn Hr].
  cbn [fill_buckets fold_left].
  destruct (File.path file) as [p|] eqn:Hp.
  - rewrite (bucket_key_of file p Hp Hn); simpl. apply IH, Hr.
  - unfold has_name in Hn; rewrite Hp in Hn; discriminate Hn.
Qed.

Lemma bucket_lookup_append (k k' : string) (file : File.t)
  (buckets : list (string * list File.t)) :
  bucket_lookup k' (bucket_append k file buckets)
  = if String.eqb k' k
    then Some (match bucket_lookup k buckets with
               | Some fl => fl ++ [file]
               | None => [file]
               end)
    else bucket_lookup k' buckets.
Proof.
  induction buckets as [|[k0 fl0] buckets IH]; simpl.
  - destruct (String.eqb k' k); reflexivity.
  - destruct (String.eqb k k0) eqn:E0; simpl.
    + apply String.eqb_eq in E0; subst k0.
      destruct (String.eqb k' k); reflexivity.
    + destruct (String.eqb k' k0) eqn:E1.
      * apply String.eqb_eq in E1; subst k0.
        rewrite String.eqb_sym in E0; rewrite E0; reflexivity.
      * exact IH.
Qed.

Lemma bucket_append_keys (k : string) (file : File.t)
  (buckets : list (string * list File.t)) :
  map fst (bucket_append k file buckets)
  = if in_strings k (map fst buckets) then map fst buckets
    else map fst buckets ++ [k].
Proof.
  unfold in_strings.
  induction buckets as [|[k0 fl0] buckets IH]; [reflexivity|]; simpl.
  destruct (String.eqb k k0); simpl; [reflexivity|].
  rewrite IH; destruct (existsb (String.eqb k) (map fst buckets)); reflexivity.
Qed.

Lemma in_strings_In (k : string) (l : list string) :
  in_strings k l = true <-> In k l.
Proof.
  unfold in_strings; rewrite existsb_exists; split.
  - intros [x [Hx E]]; apply String.eqb_eq in E; subst; exact Hx.
  - intros H; exists k; split; [exact H | apply String.eqb_refl].
Qed.

Lemma bucket_append_NoDup (k : string) (file : File.t)
  (buckets : list (string * list File.t)) :
  NoDup (map fst buckets) -> NoDup (map fst (bucket_append k file buckets)).
Proof.
  intros Hnd; rewrite bucket_append_keys.
  destruct (in_strings k (map fst buckets)) eqn:E; [exact Hnd|].
  apply NoDup_app; [exact Hnd | | ].
  - constructor; [intros [] | constructor].
  - intros x Hx [<-|[]].
    apply in_strings_In in Hx; congruence.
Qed.

Lemma with_key_snoc (k : string) (seen : list File.t) (file : File.t) :
  with_key k (seen ++ [file])
  = with_key k seen ++ (if String.eqb (key_of file) k then [file] else []).
Proof. unfold with_key; rewrite filter_app; reflexivity. Qed.

Lemma key_class_snoc (k : string) (seen : list File.t) (file : File.t) :
  key_class k (seen ++ [file])
  = if String.eqb k (key_of file)
    then Some (match key_class (key_of file) seen with
               | Some fl => fl ++ [file]
               | None => [file]
               end)
    else key_class k seen.
Proof.
  unfold key_class; rewrite with_key_snoc, (String.eqb_sym k).
  destruct (String.eqb (key_of file) k) eqn:E.
  - apply String.eqb_eq in E; subst k.
    destruct (with_key (key_of file) seen); reflexivity.
  - rewrite app_nil_r; reflexivity.
Qed.

(** The second loop keeps each bucket equal to the class of its key. *)
Lemma fold_buckets_lookup (filtered : list File.t) :
  forall seen buckets,
  (forall k, bucket_lookup k buckets = key_class k seen) ->
  forall k,
  bucket_lookup k
    (fold_left (fun b f => bucket_append (key_of f) f b) filtered buckets)
  = key_class k (seen ++ filtered).
Proof.
  induction filtered as [|file filtered IH]; intros seen buckets Hinv k.
  - rewrite app_nil_r; apply Hinv.
  - cbn [fold_left].
    replace (seen ++ file :: filtered) with ((seen ++ [file]) ++ filtered)
      by (rewrite <- app_assoc; reflexivity).
    apply IH; intros k'.
    rewrite bucket_lookup_append, key_class_snoc, !Hinv; reflexivity.
Qed.

Lemma fold_buckets_NoDup (filtered : list File.t) :
  forall buckets,
  NoDup (map fst buckets) ->
  NoDup (map fst
           (fold_left (fun b f => bucket_append (key_of f) f b) filtered buckets)).
Proof.
  induction filtered as [|file filtered IH]; intros buckets Hnd; [exact Hnd|].
  cbn [fold_left]; apply IH, bucket_append_NoDup, Hnd.
Qed.

Lemma bucket_lookup_In (k : string) (fl : list File.t)
  (buckets : list (string * list File.t)) :
  NoDup (map fst buckets) ->
  (In (k, fl) buckets <-> bucket_lookup k buckets = Some fl).
Proof.
  induction buckets as [|[k0 fl0] buckets IH]; simpl; intros Hnd.
  - split; [intros [] | discriminate].
  - inversion Hnd as [|x l Hnot Hnd']; subst.
    destruct (String.eqb k k0) eqn:E.
    + apply String.eqb_eq in E; subst k0. split.
      * intros [[= ->] | Hin]; [reflexivity|].
        contradiction Hnot. apply (in_map fst) in Hin; exact Hin.
      * intros [= ->]; left; reflexivity.
    + rewrite <- (IH Hnd'). split.
      * intros [[= <- <-] | Hin]; [|exact Hin].
        rewrite String.eqb_refl in E; discriminate E.
      * intros Hin; right; exact Hin.
Qed.

Lemma key_class_Some (k : string) (l fl : list File.t) :
  key_class k l = Some fl <-> fl <> [] /\ fl = with_key k l.
Proof.
  unfold key_class; destruct (with_key k l) as [|f fl']; split.
  - discriminate.
  - intros [Hne ->]; contradiction Hne; reflexivity.
  - intros [= <-]; split; [discriminate | reflexivity].
  - intros [_ ->]; reflexivity.
Qed.

Lemma in_with_key (k : string) (l : list File.t) (f : File.t) :
  In f (with_key k l) <-> In f l /\ key_of f = k.
Proof.
  unfold with_key; rewrite filter_In, String.eqb_eq; reflexivity.
Qed.

Lemma in_kept (files : list File.t) (f : File.t) :
  In f (filter kept files) <-> In f files /\ excluded f = false.
Proof.
  rewrite filter_In; unfold kept; rewrite negb_true_iff; reflexivity.
Qed.



(** *** Files without a path or without a name *)

Lemma filter_files_paths (files : list File.t) :
  forallb has_path files = true ->
  filter_files files = Ok (filter kept files).
Proof.
  induction files as [|file files IH]; [reflexivity|].
  cbn [forallb filter filter_files]; intros H.
  apply andb_true_iff in H as [Hp Hr].
  unfold has_path in Hp. unfold kept at 1; unfold excluded.
  destruct (File.path file) as [p|]; [|discriminate Hp].
  rewrite (IH Hr).
  destruct (in_strings (normalized_name p) EXCLUDE_FILES); reflexivity.
Qed.

Lemma filter_files_no_path (files : list File.t) :
  forallb has_path files = false ->
  filter_files files = Raise AttributeError.
Proof.
  induction files as [|file files IH]; [discriminate|].
  cbn [forallb filter_files]; unfold has_path at 1.
  destruct (File.path file) as [p|]; [|reflexivity].
  cbn [andb]; intros H; rewrite (IH H).
  destruct (in_strings (normalized_name p) EXCLUDE_FILES); reflexivity.
Qed.

Lemma fill_buckets_unnamed (filtered : list File.t) :
  forall buckets,
  forallb has_path filtered = true ->
  forallb has_name filtered = false ->
  fill_buckets filtered buckets = Raise ValueError.
Proof.
  induction filtered as [|file filtered IH]; intros buckets Hp Hn;
    [discriminate Hn|].
  cbn [forallb] in Hp, Hn; apply andb_true_iff in Hp as [Hp Hr].
  cbn [fill_buckets]. unfold has_path in Hp.
  destruct (File.path file) as [p|] eqn:E; [|discriminate Hp].
  destruct (has_name file) eqn:Hf.
  - rewrite (bucket_key_of file p E Hf); cbn [bind]. apply IH; assumption.
  - unfold has_name in Hf; rewrite E in Hf.
    unfold bucket_key, Path.with_suffix_empty.
    destruct (String.eqb (Path.name p) ""); [reflexivity | discriminate Hf].
Qed.

Lemma kept_has_path (files : list File.t) :
  forallb has_path files = true ->
  forallb has_path (filter kept files) = true.
Proof.
  rewrite !forallb_forall; intros H f Hf.
  apply filter_In in Hf as [Hf _]; exact (H f Hf).
Qed.

(** *** Keys, letter case and extensions *)

Section CharMap.

(** A map on characters that leaves the slash and the dot where they are and
    makes no new ones; [lower_char] is one. *)
Variable f : ascii -> ascii.
Hypothesis f_slash : forall c, Ascii.eqb (f c) "/" = Ascii.eqb c "/".
Hypothesis f_dot : forall c, Ascii.eqb (f c) "." = Ascii.eqb c ".".


Lemma f_fixes_dot : f "." = "."%char.
Proof. apply Ascii.eqb_eq; rewrite f_dot; reflexivity. Qed.















End CharMap.







Lemma length_append (a b : string) :
  String.length (a ++ b) = (String.length a + String.length b)%nat.
Proof. induction a as [|c a IH]; simpl; [|rewrite IH]; reflexivity. Qed.




(** *** The code against the words of the specification *)










(** ** The category-code mapper *)

Lemma in_unmappable (v : pyval) :
  in_literals v unmappable_categories = true
  <-> exists s, v = PStr s /\ In s unmappable_categories.
Proof.
  unfold in_literals; rewrite existsb_exists; split.
  - intros [s [Hs E]]. destruct v; try discriminate E.
    apply String.eqb_eq in E; subst; eexists; split; [reflexivity | exact Hs].
  - intros [s [-> Hs]]; exists s; split; [exact Hs | apply String.eqb_refl].
Qed.

(** C8: a primary type of the unmappable set gives the additional type as
    it is, or the empty string when that is absent or empty; any other
    primary type gives its code in the table if it has one ("Electronics"
    gives "H") and itself if it has none. *)
Theorem classification_code (raw : raw_record) :
  (in_literals (dict_get raw "primaryType") unmappable_categories = true
   <-> exists s, dict_get raw "primaryType" = PStr s
         /\ In s ["Arts"; "Education"; "Environmental"; "Manufacturing";
                  "Other"; "Science"; "Tool"])
  /\ (in_literals (dict_get raw "primaryType") unmappable_categories = true ->
      (dict_get raw "additionalType" = PNone ->
         _normalize_classification raw = Ok (PStr ""))
      /\ (py_len (dict_get raw "additionalType") = Ok 0%nat ->
            _normalize_classification raw = Ok (PStr ""))
      /\ (forall n, py_len (dict_get raw "additionalType") = Ok (S n) ->
            _normalize_classification raw = Ok (dict_get raw "additionalType")))
  /\ (in_literals (dict_get raw "primaryType") unmappable_categories = false ->
      (forall s cpc, dict_get raw "primaryType" = PStr s ->
         assoc s mapping_primary_to_cpc = Some cpc ->
         _normalize_classification raw = Ok (PStr cpc))
      /\ (hashable (dict_get raw "primaryType") = true ->
          (forall s, dict_get raw "primaryType" = PStr s ->
             assoc s mapping_primary_to_cpc = None) ->
          _normalize_classification raw = Ok (dict_get raw "primaryType")))
  /\ (dict_get raw "primaryType" = PStr "Electronics" ->
      _normalize_classification raw = Ok (PStr "H"))
  /\ (dict_get raw "primaryType" = PStr "Other" ->
      dict_get raw "additionalType" = PList [] ->
      _normalize_classification raw = Ok (PStr "")).
Proof.
  unfold _normalize_classification.
  split; [apply in_unmappable|].
  split; [|split; [|split]].
  - intros ->. split; [|split].
    + intros ->; reflexivity.
    + intros Hl. destruct (dict_get raw "additionalType"); try reflexivity;
        rewrite Hl; reflexivity.
    + intros n Hl. destruct (dict_get raw "additionalType"); try discriminate Hl;
        rewrite Hl; reflexivity.
  - intros ->. split.
    + intros s cpc -> Ha; cbn [table_find bind]; rewrite Ha; reflexivity.
    + intros Hh Hnone. destruct (dict_get raw "primaryType") as [| | | |s| | |];
        try reflexivity; try discriminate Hh.
      cbn [table_find bind]; rewrite (Hnone s eq_refl); reflexivity.
  - intros ->; reflexivity.
  - intros -> ->; reflexivity.
Qed.

Lemma classification_code_witness :
  _normalize_classification
    [("primaryType", PStr "Tool"); ("additionalType", PList [PStr "Electronics"])]
  = Ok (PList [PStr "Electronics"])
  /\ _normalize_classification [("primaryType", PStr "Robotics")]
     = Ok (PStr "B25J9 / 00")
  /\ _normalize_classification [("primaryType", PStr "Furniture")]
     = Ok (PStr "Furniture").
Proof.
  split; [|split].
  - exact (proj2 (proj2 (proj1 (proj2 (classification_code
             [("primaryType", PStr "Tool");
              ("additionalType", PList [PStr "Electronics"])])) eq_refl))
             0%nat eq_refl).
  - exact (proj1 (proj1 (proj2 (proj2 (classification_code
             [("primaryType", PStr "Robotics")]))) eq_refl)
             "Robotics" "B25J9 / 00" eq_refl eq_refl).
  - apply (proj2 (proj1 (proj2 (proj2 (classification_code
             [("primaryType", PStr "Furniture")]))) eq_refl)); [reflexivity|].
    intros s [= <-]; reflexivity.
Defined.

(** ** The language detector *)

(** C9: on a text that is absent or empty the detector is not asked and the
    language is "en"; a detection that raises [LangDetectException] gives
    "en", and so does the answer "unknown"; any other answer is returned as
    it is. Whenever detection answers or raises that exception, a language
    is returned: the function does not raise and never returns null. *)
Theorem language_fallback (C : Collaborators) :
  _normalize_language C None = Ok "en"
  /\ _normalize_language C (Some "") = Ok "en"
  /\ (forall text, text <> "" ->
        detect_language C text = Raise LangDetectException ->
        _normalize_language C (Some text) = Ok "en")
  /\ (forall text, text <> "" ->
        detect_language C text = Ok "unknown" ->
        _normalize_language C (Some text) = Ok "en")
  /\ (forall text lang, text <> "" ->
        detect_language C text = Ok lang -> lang <> "unknown" ->
        _normalize_language C (Some text) = Ok lang)
  /\ (forall text,
        (exists lang, detect_language C text = Ok lang)
        \/ detect_language C text = Raise LangDetectException ->
        exists lang, _normalize_language C (Some text) = Ok lang).
Proof.
  split; [reflexivity | split; [reflexivity|]].
  assert (Hne : forall text, text <> "" -> String.eqb text "" = false)
    by (intros text H; apply String.eqb_neq; exact H).
  split; [|split; [|split]].
  - intros text Ht Hd; simpl; rewrite (Hne text Ht), Hd; reflexivity.
  - intros text Ht Hd; simpl; rewrite (Hne text Ht), Hd; reflexivity.
  - intros text lang Ht Hd Hl; simpl; rewrite (Hne text Ht), Hd.
    apply String.eqb_neq in Hl; rewrite Hl; reflexivity.
  - intros text Hd; simpl.
    destruct (String.eqb text ""); [eexists; reflexivity|].
    destruct Hd as [[lang Hd] | Hd]; rewrite Hd.
    + destruct (String.eqb lang "unknown"); eexists; reflexivity.
    + eexists; reflexivity.
Qed.

Lemma language_fallback_witness :
  _normalize_language Sample.collaborators (Some "1234 5678") = Ok "en"
  /\ _normalize_language Sample.collaborators (Some "ok") = Ok "en"
  /\ exists lang,
       _normalize_language Sample.collaborators (Some "A tiny color OLED!")
       = Ok lang.
Proof.
  split; [|split].
  - apply (proj1 (proj2 (proj2 (language_fallback Sample.collaborators))));
      [discriminate | reflexivity].
  - apply (proj1 (proj2 (proj2 (proj2 (language_fallback Sample.collaborators)))));
      [discriminate | reflexivity].
  - apply (proj2 (proj2 (proj2 (proj2 (proj2
             (language_fallback Sample.collaborators)))))).
    left; exists "en"; reflexivity.
Defined.

(** ** License resolution *)

(** The resolver, with the extractor's answer spelled out. *)
Lemma normalize_license_label (C : Collaborators) (raw : raw_record) :
  _normalize_license C raw
  = if negb (truthy (dict_get raw "hardwareLicense")) then Ok None
    else if eq_str (dict_get raw "hardwareLicense") "None"
            || eq_str (dict_get raw "hardwareLicense") "Other" then Ok None
    else
      mapped <- table_find (dict_get raw "hardwareLicense") LICENSE_MAPPING ;;
      Ok (get_by_id_or_name C mapped).
Proof.
  unfold _normalize_license; rewrite get_key_single; cbn [bind].
  destruct (truthy (dict_get raw "hardwareLicense")) eqn:Ht.
  - rewrite Ht; reflexivity.
  - reflexivity.
Qed.

(** C7: a label that is absent, falsy (empty, null), "None", "Other" or no
    key of [LICENSE_MAPPING] resolves to no license: the result is null,
    without an exception, whatever the label was. The lookup function of
    [krawl.licenses] is taken to answer null to a null argument. *)
Theorem license_unresolved (C : Collaborators) (raw : raw_record) :
  get_by_id_or_name C None = None ->
  lookup "hardwareLicense" raw = None
  \/ truthy (dict_get raw "hardwareLicense") = false
  \/ dict_get raw "hardwareLicense" = PStr "None"
  \/ dict_get raw "hardwareLicense" = PStr "Other"
  \/ (hashable (dict_get raw "hardwareLicense") = true
      /\ forall s, dict_get raw "hardwareLicense" = PStr s ->
                   assoc s LICENSE_MAPPING = None) ->
  _normalize_license C raw = Ok None.
Proof.
  intros Hnone Hcases.
  rewrite normalize_license_label.
  assert (Habs : lookup "hardwareLicense" raw = None ->
                 truthy (dict_get raw "hardwareLicense") = false)
    by (unfold dict_get; intros ->; reflexivity).
  destruct Hcases as [H | [H | [H | [H | [Hh Hs]]]]].
  - rewrite (Habs H); reflexivity.
  - rewrite H; reflexivity.
  - rewrite H; reflexivity.
  - rewrite H; reflexivity.
  - destruct (negb (truthy (dict_get raw "hardwareLicense"))); [reflexivity|].
    destruct (eq_str (dict_get raw "hardwareLicense") "None"
              || eq_str (dict_get raw "hardwareLicense") "Other");
      [reflexivity|].
    destruct (dict_get raw "hardwareLicense") as [| | | |s| | |];
      try discriminate Hh; cbn [table_find bind]; rewrite ?Hnone;
      try reflexivity.
    rewrite (Hs s eq_refl), Hnone; reflexivity.
Qed.

Lemma license_unresolved_witness :
  _normalize_license Sample.collaborators [("hardwareLicense", PStr "WTFPL")]
  = Ok None.
Proof.
  apply (license_unresolved Sample.collaborators
           [("hardwareLicense", PStr "WTFPL")]); [reflexivity|].
  right; right; right; right; split; [reflexivity|].
  intros s [= <-]; reflexivity.
Defined.

(** A label of the table is resolved through the table. *)
Example license_cern :
  _normalize_license Sample.collaborators [("hardwareLicense", PStr "CERN")]
  = Ok (Some (mkLicense "CERN-OHL-1.2" true)).
Proof. reflexivity. Qed.

(** ** The project normalizer *)

Lemma bind_ok {A B : Type} (r : result A) (k : A -> result B) (b : B) :
  bind r k = Ok b -> exists a, r = Ok a /\ k a = Ok b.
Proof.
  destruct r as [a|e]; simpl; [|discriminate].
  intros H; exists a; split; [reflexivity | exact H].
Qed.


Ltac bind_inv H :=
  match type of H with
  | bind ?r _ = Ok _ =>
      let a := fresh "v" in
      let E := fresh "E" in
      destruct r as [a|] eqn:E; [cbn [bind] in H | discriminate H]
  end.

(** What a returned project holds, step by step. *)
Lemma normalize_ok_inv (C : Collaborators) (raw : raw_record) (p : Project.t) :
  normalize C raw = Ok p ->
  exists created version function language,
    _normalize_created_at C raw = Ok created
    /\ Meta.created_at (Project.meta p) = Some created
    /\ (r <- _get_key (PDict raw) ["projectVersion"] (PStr "0.1.0") ;; quote r)
       = Ok version
    /\ Project.version p = PStr version
    /\ _normalize_license C raw = Ok (Project.license p)
    /\ _normalize_function C raw = Ok function
    /\ Project.function p = PStr function
    /\ _normalize_language C (Some function) = Ok language
    /\ Project.documentation_language p = PStr language
    /\ _normalize_classification raw = Ok (Project.cpc_patent_class p)
    /\ _normalize_repo C raw = Ok (Project.repo p)
    /\ Project.part p = Project.part (Project_new C).
Proof.
  unfold normalize; intros H.
  repeat bind_inv H. injection H as <-.
  match goal with
  | Ec : _normalize_created_at C raw = Ok ?c,
    Eq : quote _ = Ok ?q,
    Ef : _normalize_function C raw = Ok ?f,
    El : _normalize_language C _ = Ok ?l |- _ => exists c, q, f, l
  end.
  cbn [Project.meta Meta.created_at Project.version Project.license
       Project.function Project.documentation_language
       Project.cpc_patent_class Project.repo Project.part].
  repeat match goal with
         | E : ?x = Ok _ |- context [?x] => rewrite E
         end.
  cbn [bind].
  repeat match goal with
         | E : ?x = Ok _ |- context [?x] => rewrite E
         end.
  repeat split; try reflexivity; try assumption.
Qed.

Lemma dict_get_str (raw : raw_record) (k s : string) :
  dict_get raw k = PStr s -> lookup k raw = Some (PStr s).
Proof.
  unfold dict_get; destruct (lookup k raw); [intros ->; reflexivity | discriminate].
Qed.

(** C6, as the code has it: a certification date that is a non-empty string
    is parsed; an absent or falsy one gives the parse of the literal
    [1970-01-01 00:00:00], a naive datetime that carries no offset; a truthy
    one that is no string is refused by the parser with a [TypeError]; a
    returned project always has a created_at. *)
Theorem created_at_parse_or_naive_epoch (C : Collaborators) (raw : raw_record) :
  fromisoformat C epoch_literal = Ok naive_epoch ->
  (forall s, dict_get raw "certificationDate" = PStr s -> s <> "" ->
     _normalize_created_at C raw = fromisoformat C s)
  /\ (truthy (dict_get raw "certificationDate") = false ->
      _normalize_created_at C raw = Ok naive_epoch
      /\ tzinfo naive_epoch = None)
  /\ (truthy (dict_get raw "certificationDate") = true ->
      is_str (dict_get raw "certificationDate") = false ->
      _normalize_created_at C raw = Raise TypeError)
  /\ (forall p, normalize C raw = Ok p ->
        exists d, Meta.created_at (Project.meta p) = Some d
                  /\ _normalize_created_at C raw = Ok d).
Proof.
  intros Hepoch; split; [|split; [|split]].
  - intros s Hs Hne; unfold _normalize_created_at, raw_item, py_getitem.
    rewrite (dict_get_str raw _ s Hs), Hs; simpl.
    apply String.eqb_neq in Hne; rewrite Hne; reflexivity.
  - intros Hf; unfold _normalize_created_at; rewrite Hf.
    split; [exact Hepoch | reflexivity].
  - intros Ht Hs; unfold _normalize_created_at, raw_item, py_getitem.
    rewrite Ht; cbn [negb]. unfold dict_get in Ht, Hs.
    destruct (lookup "certificationDate" raw) as [v|]; [|discriminate Ht].
    cbn [bind]. destruct v; try reflexivity. discriminate Hs.
  - intros p Hp.
    destruct (normalize_ok_inv C raw p Hp)
      as (created & ? & ? & ? & Hc & Hm & _).
    exists created; split; assumption.
Qed.

Lemma created_at_parse_or_naive_epoch_witness :
  _normalize_created_at Sample.collaborators
    [("certificationDate", PStr "2020-05-04T00:00-04:00")]
  = Ok (mkDatetime 2020 5 4 0 0 0 0 (Some (-14400)%Z))
  /\ _normalize_created_at Sample.collaborators [("certificationDate", PStr "")]
     = Ok naive_epoch
  /\ _normalize_created_at Sample.collaborators [("certificationDate", PInt 5)]
     = Raise TypeError.
Proof.
  split; [|split].
  - rewrite (proj1 (created_at_parse_or_naive_epoch Sample.collaborators
               [("certificationDate", PStr "2020-05-04T00:00-04:00")] eq_refl)
               "2020-05-04T00:00-04:00" eq_refl);
      [reflexivity | discriminate].
  - exact (proj1 (proj1 (proj2 (created_at_parse_or_naive_epoch Sample.collaborators
               [("certificationDate", PStr "")] eq_refl)) eq_refl)).
  - exact (proj1 (proj2 (proj2 (created_at_parse_or_naive_epoch Sample.collaborators
               [("certificationDate", PInt 5)] eq_refl))) eq_refl eq_refl).
Defined.

(** Without a certification date the value is not the instant
    1970-01-01T00:00:00Z: it has no offset. *)
Lemma created_at_default_has_no_offset :
  _normalize_created_at Sample.collaborators [] = Ok naive_epoch
  /\ tzinfo naive_epoch = None
  /\ _normalize_created_at Sample.collaborators [] <> Ok utc_epoch.
Proof.
  split; [reflexivity | split; [reflexivity | discriminate]].
Qed.

(** C4, as the code has it: [normalize] runs neither the file normalizer
    nor the part classifier; the part list of the returned project is the
    one [Project()] made, whatever files the record lists. *)
Theorem normalize_leaves_parts (C : Collaborators) (raw : raw_record)
  (p : Project.t) :
  normalize C raw = Ok p ->
  Project.part p = Project.part (Project_new C).
Proof.
  intros Hp.
  destruct (normalize_ok_inv C raw p Hp)
    as (? & ? & ? & ? & _ & _ & _ & _ & _ & _ & _ & _ & _ & _ & _ & Hpart).
  exact Hpart.
Qed.

Lemma normalize_leaves_parts_witness :
  exists p, normalize Sample.collaborators Sample.record_with_files = Ok p
            /\ Project.part p = [].
Proof.
  eexists; split; [reflexivity|].
  apply (normalize_leaves_parts Sample.collaborators Sample.record_with_files).
  reflexivity.
Defined.

(** A record whose files classify into one part, and whose project has
    none. *)
Lemma normalize_drops_classified_parts :
  exists p files part,
    normalize Sample.collaborators Sample.record_with_files = Ok p
    /\ _get_files Sample.collaborators Sample.record_with_files = Ok files
    /\ _normalize_parts Sample.extension Sample.get_formats files = Ok [part]
    /\ Part.name part = Some "bracket"
    /\ Project.part p = []
    /\ Project.part p <> [part].
Proof.
  eexists; eexists; eexists.
  split; [vm_compute; reflexivity|].
  split; [vm_compute; reflexivity|].
  split; [vm_compute; reflexivity|].
  split; [reflexivity|].
  split; [reflexivity | discriminate].
Qed.

(** *** When the normalizer returns *)














(** ** The deserializers *)

Section DeserializerProperties.

Variable P : Parsers.
Variable normalizer : Normalizer.
Variable enrich : option raw_record.

(** JSON: a failure of the parser is wrapped. *)
Lemma json_parse_error_wrapped (s : serialized) (e : exn) :
  json_loads P s = Raise e ->
  JSON_deserialize P s normalizer enrich
  = Raise (DeserializerError ("failed to deserialize JSON: " ++ exn_str P e)).
Proof. unfold JSON_deserialize; intros ->; reflexivity. Qed.

(** Both: a parse that is no mapping is refused with the structured error. *)
Lemma json_not_mapping (s : serialized) (v : pyval) :
  json_loads P s = Ok v -> (forall d, v <> PDict d) ->
  JSON_deserialize P s normalizer enrich
  = Raise (DeserializerError "invalid format").
Proof.
  unfold JSON_deserialize; intros -> Hv.
  destruct v; try reflexivity. contradiction (Hv d); reflexivity.
Qed.

Lemma toml_not_mapping (s : serialized) (v : pyval) :
  toml_loads P (toml_text P s) = Ok v -> (forall d, v <> PDict d) ->
  TOML_deserialize P s normalizer enrich
  = Raise (DeserializerError "invalid format").
Proof.
  unfold TOML_deserialize; intros -> Hv; cbn [bind].
  destruct v; try reflexivity. contradiction (Hv d); reflexivity.
Qed.

(** Both: a mapping goes on to the normalizer, and what is raised then is
    what the normalizer raised. *)
Lemma json_mapping (s : serialized) (d : raw_record) :
  json_loads P s = Ok (PDict d) ->
  JSON_deserialize P s normalizer enrich = normalizer (enriched d enrich).
Proof. unfold JSON_deserialize; intros ->; reflexivity. Qed.

Lemma toml_mapping (s : serialized) (d : raw_record) :
  toml_loads P (toml_text P s) = Ok (PDict d) ->
  TOML_deserialize P s normalizer enrich = normalizer (enriched d enrich).
Proof.
  unfold TOML_deserialize; intros ->; reflexivity.
Qed.

(** C10, where the code departs from it: the TOML deserializer does not
    guard the parser, so the parser's own exception leaves [deserialize] as
    it is, and no [DeserializerError] is raised for text that is not TOML. *)
Theorem toml_parse_error_escapes (s : serialized) (e : exn) :
  toml_loads P (toml_text P s) = Raise e ->
  TOML_deserialize P s normalizer enrich = Raise e.
Proof.
  unfold TOML_deserialize; intros ->; reflexivity.
Qed.

End DeserializerProperties.

Lemma toml_parse_error_escapes_witness :
  TOML_deserialize Sample.parsers (SStr "= 1")
    (normalize Sample.collaborators) None
  = Raise TomlDecodeError.
Proof.
  apply (toml_parse_error_escapes Sample.parsers
           (normalize Sample.collaborators) None (SStr "= 1") TomlDecodeError).
  reflexivity.
Defined.

(** The JSON deserializer on text that is not JSON, and both on documents
    that are read. *)
Example json_malformed :
  JSON_deserialize Sample.parsers (SStr "{ oops") (normalize Sample.collaborators)
    None
  = Raise (DeserializerError "failed to deserialize JSON: Expecting value").
Proof. reflexivity. Qed.

Example json_list_refused :
  JSON_deserialize Sample.parsers (SStr "[]") (normalize Sample.collaborators)
    None
  = Raise (DeserializerError "invalid format").
Proof. reflexivity. Qed.

Example json_enriched :
  is_ok (JSON_deserialize Sample.parsers (SStr "{}")
           (normalize Sample.collaborators) (Some Sample.minimal_record))
  = true.
Proof. reflexivity. Qed.

(** * Further properties *)

(** ** The part classifier as a whole *)

Section WholeClassifier.

Variable extension : File.t -> string.
Variable get_formats : string -> formats.

#[local] Abbreviation classifier := (_normalize_parts extension get_formats).
#[local] Abbreviation parts_of := (parts_of_buckets extension get_formats).
#[local] Abbreviation design := (is_design extension get_formats).
#[local] Abbreviation sourcef := (is_source extension get_formats).
#[local] Abbreviation imagef := (is_image extension get_formats).

(** X1: the classifier raises [AttributeError] as soon as one file has no
    path; with paths everywhere it raises [ValueError] when a file that is
    not excluded has a path without a last component; in every other case
    it returns a list of parts. *)
Theorem normalize_parts_errors (files : list File.t) :
  (forallb has_path files = false -> classifier files = Raise AttributeError)
  /\ (forallb has_path files = true ->
      forallb has_name (filter kept files) = false ->
      classifier files = Raise ValueError)
  /\ (forallb has_path files = true ->
      forallb has_name (filter kept files) = true ->
      exists parts, classifier files = Ok parts).
Proof.
  unfold _normalize_parts; split; [|split].
  - intros H; rewrite (filter_files_no_path files H); reflexivity.
  - intros Hp Hn; rewrite (filter_files_paths files Hp); cbn [bind].
    rewrite (fill_buckets_unnamed _ [] (kept_has_path files Hp) Hn); reflexivity.
  - intros Hp Hn; rewrite (filter_files_paths files Hp); cbn [bind].
    rewrite (fill_buckets_fold _ [] Hn); cbn [bind]. eexists; reflexivity.
Qed.

End WholeClassifier.

Lemma normalize_parts_errors_witness :
  _normalize_parts Sample.extension Sample.get_formats
    [Sample.file "a.step"; pathless_file]
  = Raise AttributeError
  /\ _normalize_parts Sample.extension Sample.get_formats
       [Sample.file "a.step"; Sample.file "."]
     = Raise ValueError
  /\ exists parts,
       _normalize_parts Sample.extension Sample.get_formats
         [Sample.file "a.step"; Sample.file "LICENSE"] = Ok parts.
Proof.
  split; [|split].
  - exact (proj1 (normalize_parts_errors Sample.extension Sample.get_formats
                    [Sample.file "a.step"; pathless_file]) eq_refl).
  - exact (proj1 (proj2 (normalize_parts_errors Sample.extension
                           Sample.get_formats
                           [Sample.file "a.step"; Sample.file "."]))
             eq_refl eq_refl).
  - exact (proj2 (proj2 (normalize_parts_errors Sample.extension
                           Sample.get_formats
                           [Sample.file "a.step"; Sample.file "LICENSE"]))
             eq_refl eq_refl).
Defined.

Section ClassifierOutput.

Variable extension : File.t -> string.
Variable get_formats : string -> formats.

#[local] Abbreviation classifier := (_normalize_parts extension get_formats).
#[local] Abbreviation bucket_part := (part_of_bucket extension get_formats).
#[local] Abbreviation parts_of := (parts_of_buckets extension get_formats).
#[local] Abbreviation design := (is_design extension get_formats).
#[local] Abbreviation sourcef := (is_source extension get_formats).
#[local] Abbreviation imagef := (is_image extension get_formats).

(** The buckets the second loop ends with. *)
Lemma classifier_ok_inv (files : list File.t) (parts : list Part.t) :
  classifier files = Ok parts ->
  forallb has_path files = true
  /\ forallb has_name (filter kept files) = true
  /\ parts
     = parts_of (fold_left (fun b f => bucket_append (key_of f) f b)
                   (filter kept files) []).
Proof.
  unfold _normalize_parts; intros H.
  destruct (forallb has_path files) eqn:Hp.
  2: { rewrite (filter_files_no_path files Hp) in H; discriminate H. }
  rewrite (filter_files_paths files Hp) in H; cbn [bind] in H.
  destruct (forallb has_name (filter kept files)) eqn:Hn.
  2: { rewrite (fill_buckets_unnamed _ [] (kept_has_path files Hp) Hn) in H.
       discriminate H. }
  rewrite (fill_buckets_fold _ [] Hn) in H; cbn [bind] in H.
  injection H as <-. repeat split.
Qed.

Lemma in_parts_of (buckets : list (string * list File.t)) (part : Part.t) :
  In part (parts_of buckets) ->
  exists k fl, In (k, fl) buckets /\ bucket_part fl = Some part.
Proof.
  induction buckets as [|[k fl] buckets IH]; simpl; [intros []|].
  destruct (bucket_part fl) as [p|] eqn:E.
  - intros [<- | Hin].
    + exists k, fl; split; [left; reflexivity | exact E].
    + destruct (IH Hin) as (k' & fl' & Hb & Hp).
      exists k', fl'; split; [right; exact Hb | exact Hp].
  - intros Hin; destruct (IH Hin) as (k' & fl' & Hb & Hp).
    exists k', fl'; split; [right; exact Hb | exact Hp].
Qed.

Lemma source_first_perm (fl : list File.t) (src : File.t) :
  find sourcef fl = Some src ->
  Permutation (src :: remove_first sourcef (filter design fl)) (filter design fl).
Proof.
  induction fl as [|f fl IH]; simpl; [discriminate|].
  destruct (sourcef f) eqn:Hs.
  - intros [= <-]. rewrite (source_is_design _ _ _ Hs); simpl; rewrite Hs.
    apply Permutation_refl.
  - intros Hf. destruct (design f) eqn:Hd; [|exact (IH Hf)].
    simpl; rewrite Hs.
    apply perm_trans with (f :: src :: remove_first sourcef (filter design fl));
      [apply perm_swap | apply perm_skip, IH, Hf].
Qed.

(** What an emitted part is made of, in terms of its bucket. *)
Lemma bucket_part_made_of (fl : list File.t) (part : Part.t) :
  bucket_part fl = Some part ->
  exists src,
    Part.source part = Some src
    /\ Part.name part = File.name src
    /\ Part.license part = File.license src
    /\ Part.licensor part = File.licensor src
    /\ Permutation (src :: Part.export part) (filter design fl)
    /\ Part.image part = find imagef fl.
Proof.
  rewrite part_of_bucket_closed.
  destruct (find sourcef fl) as [src|] eqn:Hf.
  - intros [= <-]; exists src; cbn.
    repeat split; try reflexivity. apply source_first_perm, Hf.
  - destruct (filter design fl) as [|first rest] eqn:Hd; [discriminate|].
    intros [= <-]; exists first; cbn.
    repeat split; try reflexivity.
Qed.

Lemma bucket_part_none (fl : list File.t) :
  bucket_part fl = None <-> existsb design fl = false.
Proof.
  rewrite part_of_bucket_closed. split.
  - destruct (find sourcef fl) as [src|] eqn:Hf; [discriminate|].
    destruct (filter design fl) as [|first rest] eqn:Hd; [|discriminate].
    intros _. destruct (existsb design fl) eqn:He; [|reflexivity].
    apply existsb_exists in He as (x & Hx & Hdx).
    assert (Hin : In x (filter design fl)) by (apply filter_In; split; assumption).
    rewrite Hd in Hin; destruct Hin.
  - intros He.
    assert (Hnone : forall x, In x fl -> design x = false).
    { intros x Hx. destruct (design x) eqn:Hdx; [|reflexivity].
      assert (existsb design fl = true)
        by (apply existsb_exists; exists x; split; assumption).
      congruence. }
    destruct (find sourcef fl) as [src|] eqn:Hf.
    + apply find_some in Hf as [Hin Hs].
      pose proof (source_is_design _ _ _ Hs) as Hd.
      rewrite (Hnone src Hin) in Hd; discriminate Hd.
    + destruct (filter design fl) as [|first rest] eqn:Hd; [reflexivity|].
      assert (Hin : In first (filter design fl)) by (rewrite Hd; left; reflexivity).
      apply filter_In in Hin as [Hin Hdf].
      rewrite (Hnone first Hin) in Hdf; discriminate Hdf.
Qed.

Lemma fold_buckets_classes (filtered : list File.t) (k : string)
  (fl : list File.t) :
  In (k, fl) (fold_left (fun b f => bucket_append (key_of f) f b) filtered [])
  <-> fl <> [] /\ fl = with_key k filtered.
Proof.
  rewrite (bucket_lookup_In k fl _
             (fold_buckets_NoDup filtered [] (NoDup_nil string))).
  rewrite (fold_buckets_lookup filtered [] [] (fun _ => eq_refl) k).
  apply key_class_Some.
Qed.

(** X2: on files with paths in the ASCII range, every part the classifier
    returns is made of files of the input
    that are not excluded and share one bucket key: its source and its
    exports together are, up to order, exactly the design files of that
    bucket (none lost, none used twice), its image is the first image file
    of the bucket, and name, license and licensor are those of the
    source. *)
Theorem parts_made_of_kept_files (files : list File.t) (parts : list Part.t) :
  forallb ascii_file files = true ->
  classifier files = Ok parts ->
  forall part, In part parts ->
  exists src,
    Part.source part = Some src
    /\ Part.name part = File.name src
    /\ Part.license part = File.license src
    /\ Part.licensor part = File.licensor src
    /\ Permutation (src :: Part.export part)
         (filter design (with_key (key_of src) (filter kept files)))
    /\ Part.image part
       = find imagef (with_key (key_of src) (filter kept files))
    /\ (forall x, In x (src :: Part.export part) ->
          In x files /\ excluded x = false /\ key_of x = key_of src
          /\ design x = true).
Proof.
  intros _ Hok part Hin.
  destruct (classifier_ok_inv files parts Hok) as (_ & _ & ->).
  destruct (in_parts_of _ part Hin) as (k & fl & Hb & Hp).
  apply fold_buckets_classes in Hb as [_ Hfl].
  destruct (bucket_part_made_of fl part Hp)
    as (src & Hs & Hn & Hl & Hr & Hperm & Hi).
  assert (Hall : forall x, In x (src :: Part.export part) ->
            In x files /\ excluded x = false /\ key_of x = k /\ design x = true).
  { intros x Hx. apply (Permutation_in _ Hperm) in Hx.
    apply filter_In in Hx as [Hx Hd]. rewrite Hfl in Hx.
    apply in_with_key in Hx as [Hx Hk]. apply in_kept in Hx as [Hx He].
    repeat split; assumption. }
  destruct (Hall src (or_introl eq_refl)) as (_ & _ & Hk & _).
  exists src. rewrite Hk, <- Hfl.
  repeat split; try assumption; apply Hall; assumption.
Qed.

Lemma first_keys_fold (l : list File.t) :
  forall buckets,
  map fst (fold_left (fun b f => bucket_append (key_of f) f b) l buckets)
  = fold_left (fun acc k => if in_strings k acc then acc else acc ++ [k])
      (map key_of l) (map fst buckets).
Proof.
  induction l as [|f l IH]; intros buckets; [reflexivity|].
  cbn [fold_left map]. rewrite IH, bucket_append_keys; reflexivity.
Qed.

Lemma parts_of_keys (filtered : list File.t)
  (buckets : list (string * list File.t)) :
  (forall k fl, In (k, fl) buckets -> fl = with_key k filtered) ->
  map part_key (parts_of buckets)
  = filter (fun k => existsb design (with_key k filtered)) (map fst buckets).
Proof.
  induction buckets as [|[k fl] buckets IH]; intros Hcls; [reflexivity|].
  assert (Hfl : fl = with_key k filtered) by (apply Hcls; left; reflexivity).
  assert (IH' := IH (fun k' fl' H => Hcls k' fl' (or_intror H))).
  cbn [parts_of_buckets map filter fst]. rewrite <- Hfl.
  destruct (bucket_part fl) as [part|] eqn:Hp.
  - destruct (existsb design fl) eqn:He.
    2: { apply bucket_part_none in He; congruence. }
    cbn [map]. rewrite IH'. f_equal.
    destruct (bucket_part_made_of fl part Hp) as (src & Hs & _ & _ & _ & Hperm & _).
    unfold part_key; rewrite Hs.
    assert (Hin : In src (filter design fl))
      by (apply (Permutation_in _ Hperm); left; reflexivity).
    apply filter_In in Hin as [Hin _]. rewrite Hfl in Hin.
    apply in_with_key in Hin as [_ Hk]; exact Hk.
  - apply bucket_part_none in Hp; rewrite Hp. exact IH'.
Qed.

(** X3: on files with paths in the ASCII range, the parts come out in the
    order in which their buckets first appear in the file list: the bucket keys of the returned parts are the distinct
    keys of the kept files, each at its first appearance, without the keys of
    buckets that hold no design file. *)
Theorem parts_in_first_appearance_order (files : list File.t)
  (parts : list Part.t) :
  forallb ascii_file files = true ->
  classifier files = Ok parts ->
  map part_key parts
  = filter (fun k => existsb design (with_key k (filter kept files)))
      (first_keys (map key_of (filter kept files))).
Proof.
  intros _ Hok.
  destruct (classifier_ok_inv files parts Hok) as (_ & _ & ->).
  rewrite (parts_of_keys (filter kept files)).
  - rewrite first_keys_fold; reflexivity.
  - intros k fl Hin; apply fold_buckets_classes in Hin as [_ Hfl]; exact Hfl.
Qed.

End ClassifierOutput.

Lemma parts_made_of_kept_files_witness :
  exists part src,
    _normalize_parts Sample.extension Sample.get_formats
      [Sample.file "b.stl"; Sample.file "README.md"; Sample.file "B.STEP";
       Sample.file "b.png"] = Ok [part]
    /\ Part.source part = Some src
    /\ Permutation (src :: Part.export part)
         [Sample.file "b.stl"; Sample.file "B.STEP"].
Proof.
  eexists.
  destruct (parts_made_of_kept_files Sample.extension Sample.get_formats
              [Sample.file "b.stl"; Sample.file "README.md";
               Sample.file "B.STEP"; Sample.file "b.png"] _ eq_refl eq_refl _
              (or_introl eq_refl)) as (src & Hs & _ & _ & _ & Hperm & _).
  exists src; split; [reflexivity|]. split; [exact Hs|].
  cbn in Hs; injection Hs as <-. exact Hperm.
Defined.

Lemma parts_in_first_appearance_order_witness :
  exists parts,
    _normalize_parts Sample.extension Sample.get_formats
      [Sample.file "z.stl"; Sample.file "a.png"; Sample.file "m.step";
       Sample.file "Z.step"] = Ok parts
    /\ map part_key parts = ["z"; "m"].
Proof.
  eexists; split; [vm_compute; reflexivity|].
  exact (parts_in_first_appearance_order Sample.extension Sample.get_formats
           [Sample.file "z.stl"; Sample.file "a.png"; Sample.file "m.step";
            Sample.file "Z.step"] _ eq_refl eq_refl).
Defined.

(** ** The file normalizer *)

Lemma lookup_dict_set_same (k : string) (v : pyval) (d : raw_record) :
  lookup k (dict_set k v d) = Some v.
Proof.
  induction d as [|[k' v'] d IH]; simpl.
  - rewrite String.eqb_refl; reflexivity.
  - destruct (String.eqb k k') eqn:E; simpl.
    + rewrite String.eqb_refl; reflexivity.
    + rewrite E; exact IH.
Qed.

Lemma lookup_dict_set_other (k k' : string) (v : pyval) (d : raw_record) :
  k' <> k -> lookup k' (dict_set k v d) = lookup k' d.
Proof.
  intros Hne; apply String.eqb_neq in Hne.
  induction d as [|[k0 v0] d IH]; simpl.
  - rewrite Hne; reflexivity.
  - destruct (String.eqb k k0) eqn:E; simpl.
    + apply String.eqb_eq in E; subst k0. rewrite Hne; reflexivity.
    + rewrite IH; reflexivity.
Qed.

Section FileNormalizerProperties.

Variable C : Collaborators.

(** What a file read from a record holds. *)
Lemma parse_file_fields (tick : nat) (file_raw : raw_record) (f : File.t) :
  _parse_file C tick file_raw = Ok f ->
  File.path f
  = match lookup "filename" file_raw with
    | Some (PStr s) => Some (Path.of_string s)
    | _ => None
    end
  /\ File.name f = option_map Path.stem (File.path f)
  /\ lookup "license" file_raw = Some (File.license f)
  /\ File.last_visited f = now C tick
  /\ File.mime_type f = dict_get file_raw "mimeType"
  /\ File.url f = dict_get file_raw "url"
  /\ File.perma_url f = dict_get file_raw "permalink".
Proof.
  unfold _parse_file; intros H.
  apply bind_ok in H as (path & Hpath & H).
  repeat bind_inv H. injection H as <-. cbn.
  assert (Hp : path = match lookup "filename" file_raw with
                      | Some (PStr s) => Some (Path.of_string s)
                      | _ => None
                      end).
  { destruct (lookup "filename" file_raw) as [fname|]; [|congruence].
    destruct fname; try discriminate Hpath. cbn in Hpath; congruence. }
  split; [exact Hp|].
  split; [destruct path; reflexivity|].
  split; [|repeat split; reflexivity].
  match goal with
  | E : raw_item file_raw "license" = Ok ?l |- _ =>
      unfold raw_item, py_getitem in E;
      destruct (lookup "license" file_raw); [congruence | discriminate E]
  end.
Qed.

Lemma file_of_meta_fields (license : option License) (tick : nat)
  (meta : pyval) (r : option File.t) :
  file_of_meta C license tick meta = Ok r ->
  match r with
  | None => has_file meta = false
  | Some f =>
      has_file meta = true
      /\ File.path f = meta_path meta
      /\ File.name f = option_map Path.stem (File.path f)
      /\ File.license f = PLicense license
      /\ File.last_visited f = now C tick
  end.
Proof.
  unfold file_of_meta, meta_get, has_file, meta_path; intros H.
  destruct meta as [| | | | | |d|]; try discriminate H.
  cbn [bind] in H.
  destruct (truthy (dict_get d "file")) eqn:Ht; cbn [negb] in H.
  2: { injection H as <-; reflexivity. }
  apply bind_ok in H as (dir_name & _ & H).
  apply bind_ok in H as (with_path & Hw & H).
  apply bind_ok in H as (f & Hf & H). injection H as <-.
  destruct (parse_file_fields _ _ f Hf) as (Hpath & Hname & Hlic & Hvis & _).
  rewrite lookup_dict_set_same in Hlic; injection Hlic as Hlic.
  rewrite lookup_dict_set_other in Hpath by discriminate.
  assert (Hd : exists fr, dict_get d "file" = PDict fr
                 /\ lookup "filename" with_path = lookup "filename" fr).
  { destruct (truthy dir_name).
    - apply bind_ok in Hw as (filename & _ & Hw).
      destruct (dict_get d "file") as [| | | | | |fr|]; try discriminate Hw.
      injection Hw as <-. exists fr; split; [reflexivity|].
      apply lookup_dict_set_other; discriminate.
    - destruct (dict_get d "file") as [| | | | | |fr|]; try discriminate Hw.
      injection Hw as <-. exists fr; split; reflexivity. }
  destruct Hd as (fr & Hfr & Hlk). rewrite Hfr, <- Hlk.
  repeat split; try assumption. symmetry; exact Hlic.
Qed.

Lemma files_of_metas_fields (license : option License) (metas : list pyval) :
  forall tick files, files_of_metas C license tick metas = Ok files ->
  map File.path files = map meta_path (filter has_file metas)
  /\ Forall (fun f => File.license f = PLicense license
                      /\ File.name f = option_map Path.stem (File.path f))
       files
  /\ forall i f, nth_error files i = Some f ->
       File.last_visited f = now C (tick + i).
Proof.
  induction metas as [|meta metas IH]; intros tick files H.
  - injection H as <-; split; [reflexivity | split; [constructor|]].
    intros [|i] f Hi; discriminate Hi.
  - cbn [files_of_metas] in H.
    apply bind_ok in H as (r & Hr & H).
    pose proof (file_of_meta_fields license tick meta r Hr) as Hm.
    cbn [filter]. destruct r as [f|].
    + apply bind_ok in H as (rest & Hrest & H). injection H as <-.
      destruct (IH (S tick) rest Hrest) as (Hpaths & Hall & Hclock).
      destruct Hm as (Hh & Hp & Hn & Hl & Hv).
      rewrite Hh; cbn [map]. rewrite Hp, Hpaths.
      split; [reflexivity|].
      split; [constructor; [split; assumption | exact Hall]|].
      intros [|i] g Hi; cbn [nth_error] in Hi.
      * injection Hi as <-. rewrite Nat.add_0_r; exact Hv.
      * rewrite (Hclock i g Hi). f_equal; lia.
    + rewrite Hm. exact (IH tick files H).
Qed.

(** X4: every file the file normalizer returns carries the license resolved
    for the whole record, whatever the file record itself said, and its name
    is the stem of its path (no name without a path); the clock is read
    once for each file, in the order of the list: the file at place [i] was
    visited at the [i]-th reading. *)
Theorem get_files_inherit_license (raw : raw_record) (files : list File.t) :
  _get_files C raw = Ok files ->
  exists license,
    _normalize_license C raw = Ok license
    /\ (forall f, In f files ->
          File.license f = PLicense license
          /\ File.name f = option_map Path.stem (File.path f))
    /\ (forall i f, nth_error files i = Some f ->
          File.last_visited f = now C i).
Proof.
  unfold _get_files; intros H.
  apply bind_ok in H as (raw_files & _ & H).
  apply bind_ok in H as (license & Hl & H).
  apply bind_ok in H as (metas & _ & H).
  exists license; split; [exact Hl|].
  destruct (files_of_metas_fields license metas 0 files H) as (_ & Hall & Hclock).
  rewrite Forall_forall in Hall; split; [exact Hall | exact Hclock].
Qed.

(** X5: the file normalizer returns one file for each record of the file
    list that has a truthy [file] entry, in the order of the list, and
    skips the others; the path of a file is its file name alone, the
    directory name of the record is no part of it. *)
Theorem get_files_one_per_record (raw : raw_record) (metas : list pyval)
  (files : list File.t) :
  _get_key (PDict raw) ["contribution"; "files"] (PList []) = Ok (PList metas) ->
  _get_files C raw = Ok files ->
  map File.path files = map meta_path (filter has_file metas).
Proof.
  unfold _get_files; intros Hk H. rewrite Hk in H; cbn [bind] in H.
  apply bind_ok in H as (license & _ & H). cbn [py_iter bind] in H.
  exact (proj1 (files_of_metas_fields license metas 0 files H)).
Qed.

End FileNormalizerProperties.

Lemma get_files_inherit_license_witness :
  exists files,
    _get_files Sample.collaborators record_with_dirs = Ok files
    /\ (forall f, In f files ->
          File.license f = PLicense (Some (mkLicense "MIT" true)))
    /\ (forall i f, nth_error files i = Some f ->
          File.last_visited f = now Sample.collaborators i).
Proof.
  eexists; split; [vm_compute; reflexivity|].
  destruct (get_files_inherit_license Sample.collaborators record_with_dirs
              _ eq_refl) as (license & Hl & Hall & Hclock).
  vm_compute in Hl; injection Hl as <-.
  split; [intros f Hf; exact (proj1 (Hall f Hf)) | exact Hclock].
Defined.

Lemma get_files_one_per_record_witness :
  exists files,
    _get_files Sample.collaborators record_with_dirs = Ok files
    /\ map File.path files
       = [Some (Path.of_string "arm.step"); Some (Path.of_string "arm.stl")].
Proof.
  eexists; split; [vm_compute; reflexivity|].
  exact (get_files_one_per_record Sample.collaborators record_with_dirs
           [meta_in_dir "cad" "arm.step"; PDict [("file", PNone)];
            meta_in_dir "export" "arm.stl"] _ eq_refl eq_refl).
Defined.

(** ** Fields of the normalized project *)

Lemma lstrip_first (s : string) (c : ascii) :
  first_char (lstrip s) = Some c -> is_space c = false.
Proof.
  induction s as [|a s IH]; simpl; [discriminate|].
  destruct (is_space a) eqn:E; [exact IH|].
  simpl; intros [= <-]; exact E.
Qed.

Lemma rstrip_first (s : string) (c : ascii) :
  first_char (rstrip s) = Some c -> first_char s = Some c.
Proof.
  destruct s as [|a s]; simpl; [discriminate|].
  destruct (rstrip s); [destruct (is_space a); [discriminate|]|]; simpl; auto.
Qed.

Lemma rstrip_last (s : string) (c : ascii) :
  last_char (rstrip s) = Some c -> is_space c = false.
Proof.
  induction s as [|a s IH]; simpl; [discriminate|].
  destruct (rstrip s) as [|b r] eqn:E.
  - destruct (is_space a) eqn:Ha; simpl; [discriminate|].
    intros [= <-]; exact Ha.
  - simpl; exact IH.
Qed.

Lemma strip_no_outer_space (s : string) :
  (forall c, first_char (strip s) = Some c -> is_space c = false)
  /\ (forall c, last_char (strip s) = Some c -> is_space c = false).
Proof.
  unfold strip; split; intros c H.
  - apply (lstrip_first s), rstrip_first, H.
  - exact (rstrip_last _ c H).
Qed.

(** X6: the function text of a record never begins or ends with
    whitespace, whatever the markup remover returned, and it is empty when
    the record has no description or a falsy one. *)
Theorem function_text_is_stripped (C : Collaborators) (raw : raw_record)
  (text : string) :
  _normalize_function C raw = Ok text ->
  (forall c, first_char text = Some c -> is_space c = false)
  /\ (forall c, last_char text = Some c -> is_space c = false)
  /\ (truthy (dict_get raw "projectDescription") = false -> text = "").
Proof.
  unfold _normalize_function; intros H.
  destruct (truthy (dict_get raw "projectDescription")); cbn [negb] in H.
  - apply bind_ok in H as (stripped & _ & H). injection H as <-.
    destruct (strip_no_outer_space stripped) as [Hf Hl].
    split; [exact Hf | split; [exact Hl | discriminate]].
  - injection H as <-. repeat split; try discriminate.
Qed.

Lemma function_text_is_stripped_witness :
  _normalize_function Sample.collaborators
    [("projectDescription", PStr "  <p>A tiny color OLED!</p>  ")]
  = Ok "A tiny color OLED!"
  /\ forall c, last_char "A tiny color OLED!" = Some c -> is_space c = false.
Proof.
  split; [reflexivity|].
  exact (proj1 (proj2 (function_text_is_stripped Sample.collaborators
           [("projectDescription", PStr "  <p>A tiny color OLED!</p>  ")]
           "A tiny color OLED!" eq_refl))).
Defined.

Lemma hex_digit_kept (n : nat) : quote_keeps (hex_digit n) = true.
Proof.
  unfold hex_digit.
  do 16 (destruct n as [|n]; [reflexivity|]).
  destruct n; reflexivity.
Qed.

Lemma quote_str_safe (s : string) : string_forall url_safe (quote_str s) = true.
Proof.
  induction s as [|c s IH]; [reflexivity|]; simpl.
  destruct (quote_keeps c) eqn:E; simpl.
  - unfold url_safe at 1; rewrite E; exact IH.
  - unfold url_safe at 1 2 3; rewrite !hex_digit_kept; exact IH.
Qed.

Lemma quote_str_kept (s : string) :
  string_forall quote_keeps s = true -> quote_str s = s.
Proof.
  induction s as [|c s IH]; [reflexivity|]; simpl.
  intros H; apply andb_true_iff in H as [Hc Hs].
  rewrite Hc, (IH Hs); reflexivity.
Qed.

Lemma quote_str_nonempty (s : string) : s <> "" -> quote_str s <> "".
Proof.
  destruct s as [|c s]; [intros H; contradiction H; reflexivity|].
  intros _; simpl; destruct (quote_keeps c); discriminate.
Qed.

(** X7: the version of a returned project is a non-empty string made only
    of ASCII letters, digits, [_ . - ~ /] and percent escapes; a version of
    the record that is already made of the characters [quote] keeps is
    stored unchanged. *)
Theorem version_is_url_safe (C : Collaborators) (raw : raw_record)
  (p : Project.t) :
  normalize C raw = Ok p ->
  exists version,
    Project.version p = PStr version
    /\ version <> ""
    /\ string_forall url_safe version = true
    /\ (forall s, dict_get raw "projectVersion" = PStr s -> s <> "" ->
          string_forall quote_keeps s = true -> version = s).
Proof.
  intros Hp.
  destruct (normalize_ok_inv C raw p Hp)
    as (? & version & ? & ? & _ & _ & Hv & Hvp & _).
  exists version; split; [exact Hvp|].
  rewrite get_key_single in Hv; cbn [bind] in Hv.
  destruct (truthy (dict_get raw "projectVersion")) eqn:Ht.
  - destruct (dict_get raw "projectVersion") as [| | | |s0| | |];
      try discriminate Hv.
    cbn in Hv; injection Hv as <-.
    cbn in Ht; apply negb_true_iff, String.eqb_neq in Ht.
    split; [apply quote_str_nonempty, Ht|].
    split; [apply quote_str_safe|].
    intros s [= <-] _ Hk; apply quote_str_kept, Hk.
  - cbn in Hv; injection Hv as <-.
    split; [discriminate|]. split; [reflexivity|].
    intros s Hd Hne; rewrite Hd in Ht; cbn in Ht.
    apply negb_false_iff, String.eqb_eq in Ht; contradiction (Hne Ht).
Qed.

Lemma version_is_url_safe_witness :
  exists p version,
    normalize Sample.collaborators
      (Sample.minimal_record ++ [("projectVersion", PStr "2.1 rc/1")]) = Ok p
    /\ Project.version p = PStr version
    /\ string_forall url_safe version = true.
Proof.
  eexists.
  destruct (version_is_url_safe Sample.collaborators
              (Sample.minimal_record ++ [("projectVersion", PStr "2.1 rc/1")])
              _ eq_refl) as (version & Hv & _ & Hs & _).
  exists version; split; [reflexivity | split; assumption].
Defined.

Lemma raw_item_lookup (raw : raw_record) (k : string) (v : pyval) :
  raw_item raw k = Ok v -> lookup k raw = Some v.
Proof.
  unfold raw_item, py_getitem; destruct (lookup k raw); [congruence | discriminate].
Qed.

(** X8: in a returned project the provenance is the record's own: source
    and host are both its [fetcher], owner and licensor both its
    [responsibleParty], name and last visit are taken as they are, and the
    repo of the metadata is the repo of the project; the release is the
    empty string, there is no software, and the attributes the registry does
    not know are all null. *)
Theorem normalize_provenance (C : Collaborators) (raw : raw_record)
  (p : Project.t) :
  normalize C raw = Ok p ->
  lookup "fetcher" raw = Some (Meta.source (Project.meta p))
  /\ Meta.host (Project.meta p) = Meta.source (Project.meta p)
  /\ lookup "responsibleParty" raw = Some (Meta.owner (Project.meta p))
  /\ Project.licensor p = Meta.owner (Project.meta p)
  /\ lookup "lastVisited" raw = Some (Meta.last_visited (Project.meta p))
  /\ lookup "projectName" raw = Some (Project.name p)
  /\ Meta.repo (Project.meta p) = Project.repo p
  /\ Project.release p = PStr ""
  /\ Project.software p = []
  /\ Project.technology_readiness_level p = PNone
  /\ Project.documentation_readiness_level p = PNone
  /\ Project.attestation p = PNone
  /\ Project.publication p = PNone
  /\ Project.standard_compliance p = PNone
  /\ Project.tsdc p = PNone
  /\ Project.bom p = PNone
  /\ Project.manufacturing_instructions p = PNone
  /\ Project.outer_dimensions_mm p = PNone.
Proof.
  unfold normalize; intros H.
  repeat bind_inv H. injection H as <-. cbn.
  repeat match goal with
         | E : raw_item raw _ = Ok _ |- _ => apply raw_item_lookup in E
         end.
  repeat split; assumption || reflexivity.
Qed.

Lemma normalize_provenance_witness :
  exists p,
    normalize Sample.collaborators Sample.oled_record = Ok p
    /\ Meta.host (Project.meta p) = PStr "oshwa.org"
    /\ Project.licensor p = PStr "arturo182".
Proof.
  eexists; split; [reflexivity|].
  destruct (normalize_provenance Sample.collaborators Sample.oled_record _
              eq_refl) as (Hs & Hh & Ho & Hl & _).
  split; [rewrite Hh | rewrite Hl]; reflexivity.
Defined.

(** X9: the repo is the documentation URL of the record when that is
    truthy; otherwise it is the registry page of the record's uid, and
    when the record has no uid either, the lookup raises
    [KeyError("oshwaUid")]. A repo that is returned is never null or
    empty. *)
Theorem normalize_repo_cases (C : Collaborators) (raw : raw_record) :
  (truthy (dict_get raw "documentationUrl") = true ->
     _normalize_repo C raw = Ok (dict_get raw "documentationUrl"))
  /\ (forall uid, truthy (dict_get raw "documentationUrl") = false ->
        lookup "oshwaUid" raw = Some uid ->
        _normalize_repo C raw
        = Ok (PStr ("https://certification.oshwa.org/"
                    ++ format_value C uid ++ ".html")))
  /\ (truthy (dict_get raw "documentationUrl") = false ->
      lookup "oshwaUid" raw = None ->
      _normalize_repo C raw = Raise (KeyError "oshwaUid"))
  /\ (forall repo, _normalize_repo C raw = Ok repo -> truthy repo = true).
Proof.
  unfold _normalize_repo, raw_item, py_getitem; split; [|split; [|split]].
  - intros ->; reflexivity.
  - intros uid -> ->; reflexivity.
  - intros -> ->; reflexivity.
  - intros repo.
    destruct (truthy (dict_get raw "documentationUrl")) eqn:Ht; cbn [negb].
    + intros [= <-]; exact Ht.
    + destruct (lookup "oshwaUid" raw); [|discriminate].
      cbn [bind]; intros [= <-]; reflexivity.
Qed.

Lemma normalize_repo_cases_witness :
  _normalize_repo Sample.collaborators [("oshwaUid", PStr "SE000004")]
  = Ok (PStr "https://certification.oshwa.org/SE000004.html")
  /\ _normalize_repo Sample.collaborators [("documentationUrl", PStr "")]
     = Raise (KeyError "oshwaUid").
Proof.
  split.
  - exact (proj1 (proj2 (normalize_repo_cases Sample.collaborators
                           [("oshwaUid", PStr "SE000004")]))
             (PStr "SE000004") eq_refl eq_refl).
  - exact (proj1 (proj2 (proj2 (normalize_repo_cases Sample.collaborators
                           [("documentationUrl", PStr "")]))) eq_refl eq_refl).
Defined.

(** ** Information files and the project image *)

Lemma remove_char_forall (p : ascii -> bool) (a : ascii) (s : string) :
  string_forall p s = true -> string_forall p (remove_char a s) = true.
Proof.
  induction s as [|c s IH]; [reflexivity|]; simpl.
  intros H; apply andb_true_iff in H as [Hc Hs].
  destruct (Ascii.eqb c a); [exact (IH Hs)|].
  simpl; rewrite Hc; exact (IH Hs).
Qed.

Lemma remove_char_absent (a : ascii) (s : string) :
  string_forall (fun c => negb (Ascii.eqb c a)) (remove_char a s) = true.
Proof.
  induction s as [|c s IH]; [reflexivity|]; simpl.
  destruct (Ascii.eqb c a) eqn:E; [exact IH|].
  simpl; rewrite E; exact IH.
Qed.

Lemma string_forall_and (p q : ascii -> bool) (s : string) :
  string_forall p s = true -> string_forall q s = true ->
  string_forall (fun c => p c && q c) s = true.
Proof.
  induction s as [|c s IH]; [reflexivity|]; simpl.
  intros Hp Hq; apply andb_true_iff in Hp as [Hp Hps].
  apply andb_true_iff in Hq as [Hq Hqs].
  rewrite Hp, Hq; exact (IH Hps Hqs).
Qed.

Lemma upper_char_info (c : ascii) :
  negb (Ascii.eqb c " ") && negb (Ascii.eqb c "-") && negb (Ascii.eqb c "_")
  = true ->
  info_char (upper_char c) = true.
Proof. destruct c as [[] [] [] [] [] [] [] []]; vm_compute; auto. Qed.

Lemma upper_info (s : string) :
  string_forall (fun c => negb (Ascii.eqb c " ") && negb (Ascii.eqb c "-")
                          && negb (Ascii.eqb c "_")) s = true ->
  string_forall info_char (upper s) = true.
Proof.
  induction s as [|c s IH]; [reflexivity|]; simpl.
  intros H; apply andb_true_iff in H as [Hc Hs].
  rewrite (upper_char_info c Hc); exact (IH Hs).
Qed.

Lemma info_name_chars (p : Path.t) :
  string_forall info_char (info_name p) = true.
Proof.
  unfold info_name; apply upper_info.
  apply string_forall_and; [apply string_forall_and|].
  - apply remove_char_forall, remove_char_forall, remove_char_absent.
  - apply remove_char_forall, remove_char_absent.
  - apply remove_char_absent.
Qed.

(** X10: on files with paths in the ASCII range, [_get_info_file] returns
    the first file of the list that lies in
    the root directory and whose cleaned stem is one of the names; it never
    returns a file from a subdirectory, and a name that holds a space, a
    hyphen, an underscore or a lower-case letter is never matched. When it
    raises, it raises [AttributeError], on a file without path. *)
Theorem get_info_file_first_match (names : list string) (files : list File.t) :
  (forallb ascii_file files = true -> forallb has_path files = true ->
     _get_info_file names files = Ok (find (info_match names) files))
  /\ (forall f, forallb ascii_file files = true ->
        _get_info_file names files = Ok (Some f) ->
        In f files
        /\ exists p, File.path f = Some p
             /\ (parents_count p <= 1)%nat
             /\ In (info_name p) names
             /\ string_forall info_char (info_name p) = true)
  /\ (forall e, _get_info_file names files = Raise e ->
        e = AttributeError /\ forallb has_path files = false).
Proof.
  split; [|split].
  - intros _. induction files as [|file files IH]; [reflexivity|].
    cbn [forallb _get_info_file find]; unfold has_path at 1, info_match at 1.
    destruct (File.path file) as [p|]; [|discriminate].
    cbn [andb]; intros H.
    destruct (1 <? parents_count p)%nat; cbn [negb andb]; [exact (IH H)|].
    destruct (in_strings (info_name p) names); [reflexivity | exact (IH H)].
  - intros f _; revert f.
    induction files as [|file files IH]; intros f; [discriminate|].
    cbn [_get_info_file].
    destruct (File.path file) as [p|] eqn:Hp; [|discriminate].
    destruct (1 <? parents_count p)%nat eqn:Hc.
    + intros H; destruct (IH f H) as [Hin Hex]; split; [right; exact Hin | exact Hex].
    + destruct (in_strings (info_name p) names) eqn:Hn.
      * intros [= <-]; split; [left; reflexivity|].
        exists p; split; [exact Hp|].
        apply Nat.ltb_ge in Hc. apply in_strings_In in Hn.
        repeat split; [exact Hc | exact Hn | apply info_name_chars].
      * intros H; destruct (IH f H) as [Hin Hex];
          split; [right; exact Hin | exact Hex].
  - induction files as [|file files IH]; intros e; [discriminate|].
    cbn [_get_info_file forallb]; unfold has_path at 1.
    destruct (File.path file) as [p|]; [|intros [= <-]; split; reflexivity].
    cbn [andb].
    destruct (1 <? parents_count p)%nat; [exact (IH e)|].
    destruct (in_strings (info_name p) names); [discriminate | exact (IH e)].
Qed.

Lemma get_info_file_first_match_witness :
  _get_info_file ["README"]
    [Sample.file "docs/README.md"; Sample.file " read-me.txt";
     Sample.file "README.md"]
  = Ok (Some (Sample.file " read-me.txt")).
Proof.
  exact (proj1 (get_info_file_first_match ["README"]
                  [Sample.file "docs/README.md"; Sample.file " read-me.txt";
                   Sample.file "README.md"]) eq_refl eq_refl).
Defined.

(** X11: the project image is null when the record has no image or a falsy
    one. Otherwise the image record is read like a file record, which
    indexes its creation date, its update date and its license: an image
    record that lacks one of them never yields a file. *)
Theorem normalize_image_needs_file_keys (C : Collaborators) (raw : raw_record) :
  (truthy (dict_get raw "image") = false -> _normalize_image C raw = Ok None)
  /\ (forall image f,
        lookup "image" raw = Some (PDict image) ->
        _normalize_image C raw = Ok (Some f) ->
        has_key "dateCreated" image = true
        /\ has_key "lastUpdated" image = true
        /\ lookup "license" image = Some (File.license f))
  /\ (forall f, _normalize_image C raw = Ok (Some f) ->
        exists image, lookup "image" raw = Some (PDict image)).
Proof.
  unfold _normalize_image, dict_get; split; [|split].
  - destruct (lookup "image" raw) as [v|]; [intros ->|]; reflexivity.
  - intros image f -> H.
    destruct (truthy (PDict image)); cbn [negb] in H; [|discriminate H].
    apply bind_ok in H as (f' & Hf & H). injection H as ->.
    cbn [parse_file_value] in Hf.
    destruct (parse_file_fields C 0 image f Hf) as (_ & _ & Hl & _).
    unfold _parse_file in Hf; apply bind_ok in Hf as (path & _ & Hf).
    repeat bind_inv Hf.
    repeat match goal with
           | E : raw_item image _ = Ok _ |- _ => apply raw_item_lookup in E
           end.
    unfold has_key.
    repeat match goal with
           | E : lookup ?k image = Some _ |- context [lookup ?k image] =>
               rewrite E
           end.
    repeat split.
  - intros f H. destruct (lookup "image" raw) as [v|]; [|discriminate H].
    destruct (truthy v); cbn [negb] in H; [|discriminate H].
    apply bind_ok in H as (f' & Hf & _).
    destruct v as [| | | | | |d|]; try discriminate Hf;
      try (cbn in Hf;
           match type of Hf with
           | (if ?b then _ else _) = _ => destruct b; discriminate Hf
           end).
    exists d; reflexivity.
Qed.

Lemma normalize_image_needs_file_keys_witness :
  _normalize_image Sample.collaborators [("image", PDict [])] = Ok None
  /\ _normalize_image Sample.collaborators
       [("image", PDict [("filename", PStr "front.png");
                         ("dateCreated", PStr "2021-03-04T05:06:07.000000+0000");
                         ("lastUpdated", PStr "2021-03-04T05:06:07.000000+0000")])]
     = Raise (KeyError "license").
Proof.
  split; [|reflexivity].
  exact (proj1 (normalize_image_needs_file_keys Sample.collaborators
                  [("image", PDict [])]) eq_refl).
Defined.

(** ** The deserializers: errors and enrichment *)





(** X12: the JSON deserializer lets no exception of the parser out: either
    it raises a [DeserializerError], or the document was read as a mapping
    and the result (or exception) is the normalizer's own, on the mapping
    with the enrichment laid over it. *)
Theorem json_errors_are_structured (P : Parsers) (s : serialized)
  (normalizer : Normalizer) (enrich : option raw_record) :
  (exists msg,
     JSON_deserialize P s normalizer enrich = Raise (DeserializerError msg))
  \/ (exists d,
        json_loads P s = Ok (PDict d)
        /\ JSON_deserialize P s normalizer enrich
           = normalizer (enriched d enrich)).
Proof.
  unfold JSON_deserialize.
  destruct (json_loads P s) as [v|e]; [|left; eexists; reflexivity].
  destruct v; try (left; eexists; reflexivity).
  right; eexists; split; reflexivity.
Qed.



(** ** Node names of the graph serializer *)

Lemma filter_string_forall (p : ascii -> bool) (s : string) :
  string_forall p (filter_string p s) = true.
Proof.
  induction s as [|c s IH]; [reflexivity|]; simpl.
  destruct (p c) eqn:E; [simpl; rewrite E|]; exact IH.
Qed.

Lemma filter_string_length (p : ascii -> bool) (s : string) :
  String.length (filter_string p s) = count_chars p s.
Proof.
  induction s as [|c s IH]; [reflexivity|]; simpl.
  destruct (p c); simpl; rewrite IH; reflexivity.
Qed.

Lemma count_chars_app (p : ascii -> bool) (a b : string) :
  count_chars p (a ++ b) = (count_chars p a + count_chars p b)%nat.
Proof.
  induction a as [|c a IH]; [reflexivity|]; simpl.
  destruct (p c); rewrite IH; reflexivity.
Qed.

Lemma upper_char_alnum (c : ascii) : is_alnum (upper_char c) = is_alnum c.
Proof. destruct c as [[] [] [] [] [] [] [] []]; reflexivity. Qed.

Lemma lower_char_alnum (c : ascii) : is_alnum (lower_char c) = is_alnum c.
Proof. destruct c as [[] [] [] [] [] [] [] []]; reflexivity. Qed.

Lemma count_alnum_lower (s : string) :
  count_chars is_alnum (lower s) = count_chars is_alnum s.
Proof.
  unfold lower.
  induction s as [|c s IH]; [reflexivity|]; simpl.
  rewrite lower_char_alnum, IH; reflexivity.
Qed.

Lemma count_alnum_capitalize (s : string) :
  count_chars is_alnum (capitalize s) = count_chars is_alnum s.
Proof.
  destruct s as [|c s]; [reflexivity|]; cbn [capitalize count_chars].
  rewrite upper_char_alnum, count_alnum_lower; reflexivity.
Qed.

Lemma append_empty_r (s : string) : (s ++ "")%string = s.
Proof. induction s as [|c s IH]; simpl; [|rewrite IH]; reflexivity. Qed.

Lemma join_empty_cons (w : string) (l : list string) :
  join "" (w :: l) = (w ++ join "" l)%string.
Proof.
  destruct l as [|w' l]; simpl; [rewrite append_empty_r|]; reflexivity.
Qed.

(** Splitting at a character that is not counted and gluing the pieces
    again loses no counted character. *)
Lemma count_split_join (p : ascii -> bool) (sep : ascii) (g : string -> string)
  (s : string) :
  p sep = false ->
  (forall w, count_chars p (g w) = count_chars p w) ->
  count_chars p (join "" (map g (split sep s))) = count_chars p s.
Proof.
  intros Hsep Hg.
  assert (Hjoin : forall l,
            count_chars p (join "" (map g l))
            = fold_right (fun w n => (count_chars p w + n)%nat) O l).
  { induction l as [|w l IH]; [reflexivity|].
    cbn [map fold_right]. rewrite join_empty_cons, count_chars_app, Hg, IH.
    reflexivity. }
  rewrite Hjoin; clear Hjoin.
  induction s as [|c s IH]; [reflexivity|]; simpl.
  destruct (Ascii.eqb c sep) eqn:E.
  - apply Ascii.eqb_eq in E; subst c. rewrite Hsep; simpl; exact IH.
  - destruct (split sep s) as [|w ws]; simpl in *.
    + destruct (p c); lia.
    + destruct (p c); lia.
Qed.

(** X14: the local name [_titlecase] makes of an ASCII name holds letters
    and digits only, and exactly as many as the name has: no letter or
    digit is lost and nothing else is kept; the name is empty exactly when
    the name has no letter and no digit. *)
Theorem titlecase_keeps_alnum (s : string) :
  string_forall is_ascii s = true ->
  string_forall is_alnum (_titlecase s) = true
  /\ String.length (_titlecase s) = count_chars is_alnum s
  /\ (_titlecase s = "" <-> count_chars is_alnum s = 0%nat).
Proof.
  intros _. unfold _titlecase.
  assert (Hlen : String.length
            (filter_string is_alnum (join "" (map capitalize (split " " s))))
          = count_chars is_alnum s).
  { rewrite filter_string_length.
    apply count_split_join; [reflexivity | exact count_alnum_capitalize]. }
  split; [apply filter_string_forall | split; [exact Hlen|]].
  rewrite <- Hlen.
  destruct (filter_string is_alnum (join "" (map capitalize (split " " s))));
    simpl; split; congruence.
Qed.

Lemma titlecase_keeps_alnum_witness :
  String.length (_titlecase "0.95 OLED pmod (rev-B)") = 15%nat
  /\ _titlecase "0.95 OLED pmod (rev-B)" = "095OledPmodrevb".
Proof.
  split; [|reflexivity].
  exact (proj1 (proj2 (titlecase_keeps_alnum "0.95 OLED pmod (rev-B)" eq_refl))).
Defined.

Lemma split_pieces_no_sep (s : string) :
  Forall (fun w => string_forall no_hyphen w = true) (split "-" s).
Proof.
  induction s as [|c s IH]; simpl; [repeat constructor|].
  destruct (Ascii.eqb c "-") eqn:E.
  - constructor; [reflexivity | exact IH].
  - assert (Hc : no_hyphen c = true) by (unfold no_hyphen; rewrite E; reflexivity).
    destruct (split "-" s) as [|w ws].
    + constructor; [simpl; rewrite Hc; reflexivity | constructor].
    + inversion IH as [|x xs Hw Hws]; subst.
      constructor; [simpl; rewrite Hc; exact Hw | exact Hws].
Qed.

Lemma split_no_sep_single (s : string) :
  string_forall no_hyphen s = true -> split "-" s = [s].
Proof.
  induction s as [|c s IH]; [reflexivity|]; simpl.
  intros H; apply andb_true_iff in H as [Hc Hs].
  unfold no_hyphen in Hc; apply negb_true_iff in Hc; rewrite Hc, (IH Hs).
  reflexivity.
Qed.

Lemma upper_char_no_hyphen (c : ascii) :
  no_hyphen (upper_char c) = no_hyphen c.
Proof. destruct c as [[] [] [] [] [] [] [] []]; reflexivity. Qed.

Lemma lower_char_no_hyphen (c : ascii) :
  no_hyphen (lower_char c) = no_hyphen c.
Proof. destruct c as [[] [] [] [] [] [] [] []]; reflexivity. Qed.

Lemma capitalize_no_hyphen (w : string) :
  string_forall no_hyphen w = true ->
  string_forall no_hyphen (capitalize w) = true.
Proof.
  destruct w as [|c w]; [reflexivity|]; cbn [capitalize string_forall].
  rewrite upper_char_no_hyphen. intros H; apply andb_true_iff in H as [-> Hw].
  unfold lower; induction w as [|a w IH]; [reflexivity|]; simpl in *.
  apply andb_true_iff in Hw as [Ha Hw].
  rewrite lower_char_no_hyphen, Ha; exact (IH Hw).
Qed.

Lemma string_forall_app (p : ascii -> bool) (a b : string) :
  string_forall p (a ++ b) = string_forall p a && string_forall p b.
Proof.
  induction a as [|c a IH]; [reflexivity|]; simpl.
  rewrite IH, andb_assoc; reflexivity.
Qed.

Lemma join_no_hyphen (l : list string) :
  Forall (fun w => string_forall no_hyphen w = true) l ->
  string_forall no_hyphen (join "" (map capitalize l)) = true.
Proof.
  induction l as [|w l IH]; intros H; [reflexivity|].
  inversion H as [|x xs Hw Hl]; subst. cbn [map].
  rewrite join_empty_cons, string_forall_app, (capitalize_no_hyphen w Hw).
  exact (IH Hl).
Qed.

(** X15: [_camelcase] leaves no hyphen in an ASCII name, and gives a name
    that has no hyphen back as it is. *)
Theorem camelcase_removes_hyphens (s : string) :
  string_forall is_ascii s = true ->
  string_forall no_hyphen (_camelcase s) = true
  /\ (string_forall no_hyphen s = true -> _camelcase s = s).
Proof.
  intros _; unfold _camelcase; split.
  - pose proof (split_pieces_no_sep s) as H.
    destruct (split "-" s) as [|first rest]; [reflexivity|].
    inversion H as [|x xs Hf Hr]; subst.
    rewrite string_forall_app, Hf. exact (join_no_hyphen rest Hr).
  - intros H; rewrite (split_no_sep_single s H); simpl.
    apply append_empty_r.
Qed.

Lemma camelcase_removes_hyphens_witness :
  _camelcase "outer-dimensions-MM" = "outerDimensionsMm"
  /\ _camelcase "function" = "function".
Proof.
  split; [reflexivity|].
  exact (proj2 (camelcase_removes_hyphens "function" eq_refl) eq_refl).
Defined.

(** ** The module node of the graph *)

Section ModuleProperties.

Variable L : Rdf.Library.

Lemma add_triples (g : Rdf.graph) (subject predicate : string)
  (o : Rdf.object) :
  Rdf.add L g subject predicate o = g ++ triples_of L subject [(predicate, o)].
Proof.
  unfold triples_of; cbn [flat_map fst snd].
  destruct o as [| | |[|]|]; cbn [Rdf.add term_of];
    rewrite ?app_nil_r; reflexivity.
Qed.

Lemma triples_of_app (subject : string) (a b : list (string * Rdf.object)) :
  triples_of L subject (a ++ b)
  = triples_of L subject a ++ triples_of L subject b.
Proof. unfold triples_of; apply flat_map_app. Qed.

Lemma in_triples_of (subject : string) (fields : list (string * Rdf.object))
  (t : Rdf.triple) :
  In t (triples_of L subject fields) ->
  fst (fst t) = subject /\ In (snd (fst t)) (map fst fields).
Proof.
  unfold triples_of; rewrite in_flat_map.
  intros ([pred o] & Hin & Ht); cbn [fst snd] in Ht.
  destruct (term_of L o) as [tm|]; [|destruct Ht].
  destruct Ht as [<- | []]; split; [reflexivity|].
  cbn [fst snd]. apply (in_map fst) in Hin; exact Hin.
Qed.

Lemma ends_with_append (a b : string) : ends_with b (a ++ b) = true.
Proof.
  induction a as [|c a IH]; simpl.
  - destruct b; simpl; [reflexivity|].
    rewrite Ascii.eqb_refl, String.eqb_refl; reflexivity.
  - rewrite IH. destruct (String.eqb b (String c (a ++ b))); reflexivity.
Qed.

Lemma okh_inj (a b : string) : Rdf.okh L a = Rdf.okh L b -> a = b.
Proof.
  unfold Rdf.okh; induction (Rdf.OKH L) as [|c s IH]; simpl; [auto|].
  intros [= H]; exact (IH H).
Qed.

Lemma okh_suffix (name iri : string) :
  Rdf.okh L name = iri -> ends_with name iri = true.
Proof. intros <-; apply ends_with_append. Qed.

(** The module node is described exactly by its fields that are not
    null. *)
Lemma add_module_closed (g : Rdf.graph) (namespace : string)
  (project : Project.t) (organization : pyval) (name : string) (l : License) :
  Project.name project = PStr name ->
  Project.license project = Some l ->
  Rdf._add_module L g namespace project organization
  = Ok (g ++ triples_of L (namespace ++ _titlecase name)
                (module_fields L project l organization),
        (namespace ++ _titlecase name)%string).
Proof.
  intros Hn Hl.
  unfold Rdf._add_module, module_fields, license_predicate.
  rewrite Hn, Hl. cbn [bind].
  destruct (is_spdx l); cbn [bind]; rewrite !add_triples;
    rewrite <- !app_assoc, <- !triples_of_app; reflexivity.
Qed.

Lemma add_module_no_license (g : Rdf.graph) (namespace : string)
  (project : Project.t) (organization : pyval) :
  Project.license project = None ->
  Rdf._add_module L g namespace project organization = Raise AttributeError.
Proof.
  intros Hl; unfold Rdf._add_module; rewrite Hl.
  destruct (Project.name project); reflexivity.
Qed.

Ltac other_predicate H :=
  first
    [ apply okh_inj in H;
      repeat match type of H with
             | context [is_spdx ?l] => destruct (is_spdx l)
             end;
      discriminate H
    | symmetry in H; apply okh_suffix in H;
      repeat match type of H with
             | context [is_spdx ?l] => destruct (is_spdx l)
             end;
      vm_compute in H; discriminate H ].

(** X16: [_add_module] raises [AttributeError] for a project without
    license (and for one whose name is no string). When it returns for a
    project with a name in the ASCII range, the
    graph has grown by triples about the module node only, whose name is the
    namespace followed by the title-cased project name; among them are the
    type triple and exactly one license triple, under [spdxLicense] for an
    SPDX license and under [alternativeLicense] otherwise, and none for the
    release. *)
Theorem add_module_result (g : Rdf.graph) (namespace : string)
  (project : Project.t) (organization : pyval) :
  (Project.license project = None ->
     Rdf._add_module L g namespace project organization = Raise AttributeError)
  /\ ((forall s, Project.name project <> PStr s) ->
      Rdf._add_module L g namespace project organization = Raise AttributeError)
  /\ (forall g' subject,
        ascii_name project = true ->
        Rdf._add_module L g namespace project organization = Ok (g', subject) ->
        exists name l added,
          Project.name project = PStr name
          /\ Project.license project = Some l
          /\ subject = (namespace ++ _titlecase name)%string
          /\ g' = g ++ added
          /\ (forall t, In t added -> fst (fst t) = subject)
          /\ In (subject, Rdf.RDF_type, Rdf.URIRef (Rdf.okh L "Module")) added
          /\ In (subject, license_predicate L l,
                 Rdf.Literal (Rdf.LitValue (PLicense (Some l)))) added
          /\ (forall o,
                ~ In (subject,
                      Rdf.okh L (if is_spdx l then "alternativeLicense"
                                 else "spdxLicense"), o) added)
          /\ (forall o, ~ In (subject, Rdf.okh L "release", o) added)).
Proof.
  split; [|split].
  - apply add_module_no_license.
  - intros Hn; unfold Rdf._add_module.
    destruct (Project.name project) as [| | | |s| | |]; try reflexivity.
    contradiction (Hn s); reflexivity.
  - intros g' subject _ H.
    destruct (Project.name project) as [| | | |name| | |] eqn:Hn;
      try (unfold Rdf._add_module in H; rewrite Hn in H; discriminate H).
    destruct (Project.license project) as [l|] eqn:Hl;
      [|unfold Rdf._add_module in H; rewrite Hn, Hl in H; discriminate H].
    rewrite (add_module_closed g namespace project organization name l Hn Hl)
      in H.
    injection H as <- <-.
    exists name, l,
      (triples_of L (namespace ++ _titlecase name)
         (module_fields L project l organization)).
    split; [reflexivity|]. split; [reflexivity|]. split; [reflexivity|].
    split; [reflexivity|].
    split; [intros t Ht; exact (proj1 (in_triples_of _ _ t Ht))|].
    split; [left; reflexivity|].
    split.
    { unfold triples_of, module_fields; rewrite in_flat_map.
      exists (license_predicate L l, Rdf.OValue (PLicense (Some l))).
      split; [do 7 right; left; reflexivity | left; reflexivity]. }
    split; intros o Hin; apply in_triples_of in Hin as [_ Hin];
      cbn [fst snd map module_fields] in Hin; unfold license_predicate in Hin;
      repeat (destruct Hin as [Hin | Hin]; [other_predicate Hin|]);
      exact Hin.
Qed.

End ModuleProperties.

Lemma add_module_result_witness :
  exists g',
    Rdf._add_module Rdf.sample_library [] oled_namespace oled_project PNone
    = Ok (g', (oled_namespace ++ "095OledPmod")%string)
    /\ In ((oled_namespace ++ "095OledPmod")%string,
           Rdf.okh Rdf.sample_library "spdxLicense",
           Rdf.Literal (Rdf.LitValue
                          (PLicense (Some (mkLicense "CERN-OHL-1.2" true)))))
          g'.
Proof.
  eexists; split; [vm_compute; reflexivity|].
  destruct (proj2 (proj2 (add_module_result Rdf.sample_library []
              oled_namespace oled_project PNone)) _ _ eq_refl eq_refl)
    as (name & l & added & Hn & Hl & _ & Hg & _ & _ & Hin & _).
  vm_compute in Hl; injection Hl as <-.
  change added with ([] ++ added) in Hin. rewrite <- Hg in Hin. exact Hin.
Defined.

(** ** Normalizer and serializer together *)

Lemma unresolved_label_gives_none (C : Collaborators) (raw : raw_record) :
  get_by_id_or_name C None = None ->
  truthy (dict_get raw "hardwareLicense") = false
  \/ dict_get raw "hardwareLicense" = PStr "None"
  \/ dict_get raw "hardwareLicense" = PStr "Other"
  \/ (forall s, dict_get raw "hardwareLicense" = PStr s ->
                assoc s LICENSE_MAPPING = None) ->
  forall license, _normalize_license C raw = Ok license -> license = None.
Proof.
  intros Hnone Hcases license. rewrite normalize_license_label.
  destruct Hcases as [H | [H | [H | Hs]]]; try (rewrite H; cbn; congruence).
  destruct (negb (truthy (dict_get raw "hardwareLicense"))); [congruence|].
  destruct (eq_str (dict_get raw "hardwareLicense") "None"
            || eq_str (dict_get raw "hardwareLicense") "Other"); [congruence|].
  destruct (dict_get raw "hardwareLicense") as [| | | |s| | |];
    cbn [table_find bind]; try discriminate; rewrite ?(Hs s eq_refl), ?Hnone;
    congruence.
Qed.

(** X17: a project the normalizer returns for a record whose license label
    is absent, falsy, "None", "Other" or no key of the license table has no
    license, and [_add_module] raises [AttributeError] on it: such a project
    is not serialized. (The lookup of [krawl.licenses] is taken to answer
    null to a null argument.) *)
Theorem unlicensed_project_not_serialized (C : Collaborators)
  (L : Rdf.Library) (raw : raw_record) (p : Project.t) (g : Rdf.graph)
  (namespace : string) (organization : pyval) :
  get_by_id_or_name C None = None ->
  normalize C raw = Ok p ->
  truthy (dict_get raw "hardwareLicense") = false
  \/ dict_get raw "hardwareLicense" = PStr "None"
  \/ dict_get raw "hardwareLicense" = PStr "Other"
  \/ (forall s, dict_get raw "hardwareLicense" = PStr s ->
                assoc s LICENSE_MAPPING = None) ->
  Project.license p = None
  /\ Rdf._add_module L g namespace p organization = Raise AttributeError.
Proof.
  intros Hnone Hp Hcases.
  destruct (normalize_ok_inv C raw p Hp)
    as (? & ? & ? & ? & _ & _ & _ & _ & Hl & _).
  pose proof (unresolved_label_gives_none C raw Hnone Hcases _ Hl) as Hn.
  split; [exact Hn | apply add_module_no_license, Hn].
Qed.

Lemma unlicensed_project_not_serialized_witness :
  exists p,
    normalize Sample.collaborators Sample.minimal_record = Ok p
    /\ Rdf._add_module Rdf.sample_library [] oled_namespace p PNone
       = Raise AttributeError.
Proof.
  eexists; split; [reflexivity|].
  exact (proj2 (unlicensed_project_not_serialized Sample.collaborators
                  Rdf.sample_library Sample.minimal_record _ []
                  oled_namespace PNone eq_refl eq_refl
                  (or_introl eq_refl))).
Defined.

(** ** The fetcher state storage *)

Lemma strings_eqb_eq (a b : list string) :
  Storage.strings_eqb a b = true <-> a = b.
Proof.
  revert b; induction a as [|x a IH]; intros [|y b]; simpl;
    try (split; [discriminate | discriminate]); [split; reflexivity|].
  rewrite andb_true_iff, String.eqb_eq, IH. split.
  - intros [-> ->]; reflexivity.
  - intros [= -> ->]; split; reflexivity.
Qed.

Lemma path_eqb_eq (p q : Path.t) : Storage.path_eqb p q = true <-> p = q.
Proof.
  unfold Storage.path_eqb.
  rewrite andb_true_iff, String.eqb_eq, strings_eqb_eq.
  destruct p as [r ps], q as [r' ps']; simpl. split.
  - intros [-> ->]; reflexivity.
  - intros [= -> ->]; split; reflexivity.
Qed.

Lemma put_same (fs : Storage.filesystem) (p : Path.t) (n : option Storage.node) :
  Storage.put fs p n p = n.
Proof.
  unfold Storage.put. replace (Storage.path_eqb p p) with true; [reflexivity|].
  symmetry; apply path_eqb_eq; reflexivity.
Qed.

Lemma put_other (fs : Storage.filesystem) (p q : Path.t)
  (n : option Storage.node) :
  q <> p -> Storage.put fs p n q = fs q.
Proof.
  intros Hne; unfold Storage.put.
  destruct (Storage.path_eqb q p) eqn:E; [|reflexivity].
  apply path_eqb_eq in E; contradiction.
Qed.

Lemma split_whole (s : string) :
  string_forall no_slash s = true -> split "/" s = [s].
Proof.
  induction s as [|c s IH]; [reflexivity|]; simpl.
  intros H; apply andb_true_iff in H as [Hc Hs].
  unfold no_slash in Hc; apply negb_true_iff in Hc; rewrite Hc, (IH Hs).
  reflexivity.
Qed.

Lemma root_of_plain (s : string) :
  string_forall no_slash s = true -> Path.root_of s = "".
Proof.
  destruct s as [|a [|b [|c s]]]; simpl; [reflexivity| | |];
    intros H; apply andb_true_iff in H as [Ha _];
    unfold no_slash in Ha; apply negb_true_iff in Ha; rewrite Ha; reflexivity.
Qed.

Lemma json_name_kept (fetcher : string) :
  Path.keep_part (fetcher ++ ".json") = true.
Proof.
  unfold Path.keep_part.
  destruct fetcher as [|a [|b fetcher]]; try reflexivity.
  - simpl. destruct (Ascii.eqb a "."); reflexivity.
  - simpl. destruct (Ascii.eqb a "."); [|reflexivity].
    destruct (b =? ".")%char; reflexivity.
Qed.

Lemma of_string_json_plain (fetcher : string) :
  string_forall no_slash fetcher = true ->
  Path.of_string (fetcher ++ ".json") = Path.mk "" [(fetcher ++ ".json")%string].
Proof.
  intros H.
  assert (Hs : string_forall no_slash (fetcher ++ ".json") = true)
    by (rewrite string_forall_app, H; reflexivity).
  unfold Path.of_string. rewrite (root_of_plain _ Hs), (split_whole _ Hs).
  cbn [filter]. rewrite json_name_kept; reflexivity.
Qed.

Lemma append_inj_l (a b s : string) : (a ++ s = b ++ s)%string -> a = b.
Proof.
  intros H.
  assert (Hlen : String.length a = String.length b).
  { apply (f_equal String.length) in H. rewrite !length_append in H; lia. }
  revert b H Hlen; induction a as [|c a IH]; intros [|d b] H Hlen;
    try discriminate Hlen; [reflexivity|].
  simpl in H; injection H as -> H. f_equal; apply IH; [exact H|].
  simpl in Hlen; lia.
Qed.

Section StorageProperties.

Variable json_loads : string -> result pyval.
Variable json_dumps : pyval -> result string.

#[local] Abbreviation path_of := Storage._get_path.
#[local] Abbreviation load_state := (Storage.load json_loads).
#[local] Abbreviation store_state := (Storage.store json_dumps).

Lemma get_path_plain (base : Path.t) (fetcher : string) :
  string_forall no_slash fetcher = true ->
  path_of base fetcher
  = Path.mk (Path.root base)
      (Path.parts base ++ ["__fetcher__"; (fetcher ++ ".json")%string]).
Proof.
  intros H; unfold Storage._get_path, Storage.base_path, Storage.joinpath.
  rewrite (of_string_json_plain fetcher H).
  cbn. rewrite <- app_assoc; reflexivity.
Qed.

Lemma get_path_inj (base : Path.t) (a b : string) :
  string_forall no_slash a = true -> string_forall no_slash b = true ->
  path_of base a = path_of base b -> a = b.
Proof.
  intros Ha Hb; rewrite (get_path_plain base a Ha), (get_path_plain base b Hb).
  intros [= H]. apply app_inv_head in H. injection H as H.
  exact (append_inj_l a b ".json" H).
Qed.

(** X18: for a fetcher name without slash the state file lies directly in
    the directory [__fetcher__] of the base path, under the name with
    [.json] appended, and different names have different files. A name that
    begins with a slash leaves the base path: its file is the absolute path
    the name spells. *)
Theorem state_file_path (base : Path.t) (fetcher : string) :
  (string_forall no_slash fetcher = true ->
     path_of base fetcher
     = Path.mk (Path.root base)
         (Path.parts base ++ ["__fetcher__"; (fetcher ++ ".json")%string])
     /\ Storage.parent (path_of base fetcher) = Storage.base_path base
     /\ forall other, string_forall no_slash other = true ->
          path_of base other = path_of base fetcher -> other = fetcher)
  /\ (first_char fetcher = Some "/"%char ->
      path_of base fetcher = Path.of_string (fetcher ++ ".json")).
Proof.
  split.
  - intros H; split; [exact (get_path_plain base fetcher H)|]. split.
    + rewrite (get_path_plain base fetcher H).
      unfold Storage.parent, Storage.base_path, Storage.joinpath; cbn.
      replace (Path.parts base ++ ["__fetcher__"; (fetcher ++ ".json")%string])
        with ((Path.parts base ++ ["__fetcher__"]) ++ [(fetcher ++ ".json")%string])
        by (rewrite <- app_assoc; reflexivity).
      rewrite removelast_last; reflexivity.
    + intros other Ho Heq; exact (get_path_inj base other fetcher Ho H Heq).
  - intros Hf; unfold Storage._get_path, Storage.joinpath at 1.
    assert (Hr : String.eqb (Path.root (Path.of_string (fetcher ++ ".json"))) ""
                 = false).
    { destruct fetcher as [|a fetcher]; [discriminate Hf|].
      injection Hf as ->. cbn [Path.of_string Path.root].
      destruct fetcher as [|b [|c fetcher]]; cbn;
        repeat match goal with
               | |- context [Ascii.eqb ?x "/"] => destruct (Ascii.eqb x "/")
               end; reflexivity. }
    rewrite Hr; reflexivity.
Qed.

Lemma load_depends_on_file (fs fs' : Storage.filesystem) (base : Path.t)
  (fetcher : string) :
  fs' (path_of base fetcher) = fs (path_of base fetcher) ->
  load_state fs' base fetcher = load_state fs base fetcher.
Proof.
  unfold Storage.load, Storage.exists_; intros ->; reflexivity.
Qed.

Lemma mkdirs_frame (below : list string) :
  forall fs root above fs1,
  Storage.mkdirs fs root above below = Some fs1 ->
  forall q,
    fs1 q = fs q
    \/ (fs1 q = Some Storage.Directory
        /\ (List.length (Path.parts q)
            <= List.length above + List.length below)%nat).
Proof.
  induction below as [|c below IH]; intros fs root above fs1 H q.
  - injection H as <-; left; reflexivity.
  - cbn [Storage.mkdirs] in H.
    assert (Hlen : (List.length (above ++ [c]) + List.length below
                    = List.length above + List.length (c :: below))%nat)
      by (rewrite length_app; simpl; lia).
    destruct (fs (Path.mk root (above ++ [c]))) as [[t|]|] eqn:Hd;
      [discriminate H | |].
    + destruct (IH _ _ _ _ H q) as [Hq | [Hq Hl]];
        [left; exact Hq | right; split; [exact Hq | lia]].
    + destruct (IH _ _ _ _ H q) as [Hq | [Hq Hl]];
        [|right; split; [exact Hq | lia]].
      destruct (Storage.path_eqb q (Path.mk root (above ++ [c]))) eqn:E.
      * apply path_eqb_eq in E; subst q. rewrite put_same in Hq.
        right; split; [exact Hq|]. cbn [Path.parts]. lia.
      * left; rewrite Hq; unfold Storage.put; rewrite E; reflexivity.
Qed.

(** X19: a state that was stored is the state that is loaded, when JSON
    gives back what it wrote; deleting it then reports [True], after which
    the fetcher has the empty state again and a second delete reports
    [False]. *)
Theorem stored_state_life_cycle (fs fs1 : Storage.filesystem) (base : Path.t)
  (fetcher : string) (state : pyval) :
  store_state fs base fetcher state = (fs1, Storage.Done tt) ->
  (forall text, json_dumps state = Ok text -> json_loads text = Ok state) ->
  load_state fs1 base fetcher = Storage.Done state
  /\ exists fs2,
       Storage.delete fs1 base fetcher = (fs2, Storage.Done true)
       /\ load_state fs2 base fetcher = Storage.Done (PDict [])
       /\ Storage.delete fs2 base fetcher = (fs2, Storage.Done false).
Proof.
  unfold Storage.store; intros H Hjson.
  destruct (Storage.mkdir_parents fs (Storage.parent (path_of base fetcher)))
    as [fs0|]; [|discriminate H].
  destruct (json_dumps state) as [text|] eqn:Hd; [|discriminate H].
  assert (Hfs1 : fs1 = Storage.put fs0 (path_of base fetcher)
                         (Some (Storage.RegularFile text))).
  { destruct (fs0 (path_of base fetcher)) as [[t|]|]; congruence. }
  clear H. subst fs1.
  unfold Storage.load, Storage.delete, Storage.exists_.
  rewrite !put_same; cbn [negb]. rewrite (Hjson text eq_refl).
  split; [reflexivity|].
  eexists; split; [reflexivity|].
  rewrite !put_same; split; reflexivity.
Qed.

(** X20: storing or deleting the state of one fetcher, however that ends,
    leaves what is loaded for any other fetcher as it was, for fetcher
    names without slash. *)
Theorem other_fetchers_untouched (fs fs' : Storage.filesystem) (base : Path.t)
  (a b : string) (state : pyval) :
  string_forall no_slash a = true -> string_forall no_slash b = true ->
  a <> b ->
  (forall outcome, store_state fs base a state = (fs', outcome) ->
     load_state fs' base b = load_state fs base b)
  /\ (forall outcome, Storage.delete fs base a = (fs', outcome) ->
        load_state fs' base b = load_state fs base b).
Proof.
  intros Ha Hb Hne.
  assert (Hpath : path_of base b <> path_of base a)
    by (intros Heq; apply Hne; symmetry; exact (get_path_inj base b a Hb Ha Heq)).
  split; intros outcome H; apply load_depends_on_file.
  - unfold Storage.store in H.
    destruct (Storage.mkdir_parents fs (Storage.parent (path_of base a)))
      as [fs0|] eqn:Hm; [|injection H as <- _; reflexivity].
    assert (Hb0 : fs0 (path_of base b) = fs (path_of base b)).
    { destruct (mkdirs_frame _ _ _ _ _ Hm (path_of base b)) as [Hq | [_ Hl]];
        [exact Hq|].
      exfalso. rewrite (get_path_plain base b Hb), (get_path_plain base a Ha) in Hl.
      unfold Storage.parent in Hl; cbn [Path.parts Path.root] in Hl.
      replace (Path.parts base ++ ["__fetcher__"; (a ++ ".json")%string])
        with ((Path.parts base ++ ["__fetcher__"]) ++ [(a ++ ".json")%string])
        in Hl by (rewrite <- app_assoc; reflexivity).
      rewrite removelast_last, !length_app in Hl; simpl in Hl; lia. }
    destruct (json_dumps state) as [text|]; [|injection H as <- _; exact Hb0].
    destruct (fs0 (path_of base a)) as [[t|]|]; injection H as <- _;
      rewrite ?put_other by exact Hpath; exact Hb0.
  - unfold Storage.delete in H.
    destruct (negb (Storage.exists_ fs (path_of base a)));
      [injection H as <- _; reflexivity|].
    destruct (fs (path_of base a)) as [[t|]|]; injection H as <- _;
      rewrite ?put_other by exact Hpath; reflexivity.
Qed.

End StorageProperties.

Lemma state_file_path_witness :
  Storage._get_path (Path.of_string "/var/lib/krawl") "oshwa.org"
  = Path.of_string "/var/lib/krawl/__fetcher__/oshwa.org.json"
  /\ Storage._get_path (Path.of_string "/var/lib/krawl") "/etc/cron.d/job"
     = Path.of_string "/etc/cron.d/job.json".
Proof.
  split.
  - exact (proj1 (proj1 (state_file_path (Path.of_string "/var/lib/krawl")
                           "oshwa.org") eq_refl)).
  - exact (proj2 (state_file_path (Path.of_string "/var/lib/krawl")
                    "/etc/cron.d/job") eq_refl).
Defined.

Lemma stored_state_life_cycle_witness :
  Storage.load sample_loads
    (fst (Storage.store sample_dumps Storage.empty sample_base "oshwa.org"
            (PList [])))
    sample_base "oshwa.org"
  = Storage.Done (PList []).
Proof.
  apply (proj1 (stored_state_life_cycle sample_loads sample_dumps
                  Storage.empty _ sample_base "oshwa.org" (PList [])
                  eq_refl
                  (fun text H =>
                     match H in (_ = r)
                           return (match r with
                                   | Ok t => sample_loads t = Ok (PList [])
                                   | Raise _ => True
                                   end)
                     with eq_refl => eq_refl end))).
Defined.

Lemma other_fetchers_untouched_witness :
  Storage.load sample_loads
    (fst (Storage.store sample_dumps Storage.empty sample_base "oshwa.org"
            (PList [])))
    sample_base "github.com"
  = Storage.load sample_loads Storage.empty sample_base "github.com".
Proof.
  apply (proj1 (other_fetchers_untouched sample_loads sample_dumps
                  Storage.empty _ sample_base "oshwa.org" "github.com"
                  (PList []) eq_refl eq_refl
                  (fun H => match H in (_ = x)
                                  return (match x with
                                          | String "o" _ => True
                                          | _ => False
                                          end)
                            with eq_refl => I end))
           (Storage.Done tt)).
  reflexivity.
Defined.

(** ** License labels of the table *)

Lemma assoc_in_values (s id : string) (tbl : list (string * string)) :
  assoc s tbl = Some id -> In id (map snd tbl).
Proof.
  induction tbl as [|[k v] tbl IH]; simpl; [discriminate|].
  destruct (String.eqb s k); [intros [= <-]; left; reflexivity|].
  intros H; right; exact (IH H).
Qed.

(** X21: a license label that is a key of the table is resolved through the
    table: the license lookup gets the identifier the table gives for it,
    one of eight canonical identifiers. A truthy label that is
    a list or a mapping makes the table lookup raise [TypeError], and
    nothing else makes license resolution raise. *)
Theorem license_label_resolution (C : Collaborators) (raw : raw_record) :
  (forall s id,
     dict_get raw "hardwareLicense" = PStr s ->
     assoc s LICENSE_MAPPING = Some id ->
     _normalize_license C raw = Ok (get_by_id_or_name C (Some id))
     /\ In id canonical_ids)
  /\ (truthy (dict_get raw "hardwareLicense") = true ->
      hashable (dict_get raw "hardwareLicense") = false ->
      _normalize_license C raw = Raise TypeError)
  /\ (forall e, _normalize_license C raw = Raise e ->
        e = TypeError
        /\ truthy (dict_get raw "hardwareLicense") = true
        /\ hashable (dict_get raw "hardwareLicense") = false).
Proof.
  rewrite normalize_license_label. split; [|split].
  - intros s id Hs Ha. rewrite Hs.
    assert (Hin : In id canonical_ids).
    { apply assoc_in_values in Ha. simpl in Ha. unfold canonical_ids; simpl.
      intuition. }
    split; [|exact Hin].
    destruct (String.eqb s "") eqn:E0;
      [apply String.eqb_eq in E0; subst s; discriminate Ha|].
    destruct (String.eqb s "None") eqn:E1;
      [apply String.eqb_eq in E1; subst s; discriminate Ha|].
    destruct (String.eqb s "Other") eqn:E2;
      [apply String.eqb_eq in E2; subst s; discriminate Ha|].
    cbn [truthy eq_str negb orb table_find bind]. rewrite E0, E1, E2.
    cbn [negb orb]. rewrite Ha; reflexivity.
  - intros Ht Hh. rewrite Ht; cbn [negb].
    destruct (dict_get raw "hardwareLicense") as [| | | | |l|d|];
      try discriminate Hh; reflexivity.
  - intros e.
    destruct (truthy (dict_get raw "hardwareLicense")) eqn:Ht; cbn [negb];
      [|discriminate].
    destruct (dict_get raw "hardwareLicense") as [| | | |s|l|d|];
      cbn [eq_str orb table_find bind]; try discriminate;
      try (intros [= <-]; repeat split; reflexivity).
    destruct (String.eqb s "None" || String.eqb s "Other"); discriminate.
Qed.

Lemma license_label_resolution_witness :
  _normalize_license Sample.collaborators [("hardwareLicense", PStr "CERN OHL")]
  = Ok (Some (mkLicense "CERN-OHL-1.2" true))
  /\ _normalize_license Sample.collaborators
       [("hardwareLicense", PList [PStr "MIT"])]
     = Raise TypeError.
Proof.
  split.
  - exact (proj1 (proj1 (license_label_resolution Sample.collaborators
                           [("hardwareLicense", PStr "CERN OHL")])
                    "CERN OHL" "CERN-OHL-1.2" eq_refl eq_refl)).
  - exact (proj1 (proj2 (license_label_resolution Sample.collaborators
                           [("hardwareLicense", PList [PStr "MIT"])]))
             eq_refl eq_refl).
Defined.

(** ** File normalizer and part classifier together *)

(** X22: when the files the file normalizer reads from a record are
    classified, every part carries the license resolved for the record,
    whatever license the file records brought, and every part has a name. *)
Theorem parts_of_a_record (C : Collaborators) (raw : raw_record)
  (files : list File.t) (parts : list Part.t) :
  _get_files C raw = Ok files ->
  _normalize_parts (extension C) (get_formats C) files = Ok parts ->
  exists license,
    _normalize_license C raw = Ok license
    /\ (forall part, In part parts ->
          Part.license part = PLicense license
          /\ exists name, Part.name part = Some name).
Proof.
  unfold _get_files; intros Hf Hp.
  apply bind_ok in Hf as (raw_files & _ & Hf).
  apply bind_ok in Hf as (license & Hl & Hf).
  apply bind_ok in Hf as (metas & _ & Hf).
  destruct (files_of_metas_fields C license metas 0 files Hf) as (_ & Hall & _).
  rewrite Forall_forall in Hall.
  exists license; split; [exact Hl|].
  - intros part Hin.
    destruct (classifier_ok_inv _ _ files parts Hp) as (Hpaths & _ & ->).
    destruct (in_parts_of _ _ _ part Hin) as (k & fl & Hb & Hbp).
    apply fold_buckets_classes in Hb as [_ Hfl].
    destruct (bucket_part_made_of _ _ fl part Hbp)
      as (src & _ & Hn & Hlic & _ & Hperm & _).
    assert (Hsrc : In src files).
    { assert (Hd : In src (filter (is_design (extension C) (get_formats C)) fl))
        by (apply (Permutation_in _ Hperm); left; reflexivity).
      apply filter_In in Hd as [Hd _]. rewrite Hfl in Hd.
      apply in_with_key in Hd as [Hd _]. apply in_kept in Hd as [Hd _].
      exact Hd. }
    destruct (Hall src Hsrc) as (Hsl & Hsn).
    split; [rewrite Hlic; exact Hsl|].
    rewrite Hn, Hsn.
    rewrite forallb_forall in Hpaths. specialize (Hpaths src Hsrc).
    unfold has_path in Hpaths.
    destruct (File.path src) as [p|]; [|discriminate Hpaths].
    eexists; reflexivity.
Qed.

Lemma parts_of_a_record_witness :
  exists files parts,
    _get_files Sample.collaborators record_with_dirs = Ok files
    /\ _normalize_parts Sample.extension Sample.get_formats files = Ok parts
    /\ List.length parts = 1%nat
    /\ forall part, In part parts ->
         Part.license part = PLicense (Some (mkLicense "MIT" true)).
Proof.
  eexists; eexists.
  split; [vm_compute; reflexivity|].
  split; [vm_compute; reflexivity|].
  split; [reflexivity|].
  destruct (parts_of_a_record Sample.collaborators record_with_dirs _ _
              eq_refl eq_refl) as (license & Hl & Hparts).
  vm_compute in Hl; injection Hl as <-.
  intros part Hin; exact (proj1 (Hparts part Hin)).
Defined.
